(** * plotter: live-measurement ingestion, derivation and single-slot publication

    A shallow embedding of the two MQTT message handlers of the plotter
    ([src/plotter/it_plotter.py], current-vs-time, and
    [src/plotter/iv_plotter.py], current-vs-voltage) and of the functions
    they call, together with the properties of the pipeline.

    Modelling choices.
    - Python floats and numpy [float64] entries are IEEE binary64 numbers:
      Rocq's primitive floats.
    - Unpickled payloads are dynamically typed Python values ([value]);
      a dict is an association list in insertion order.
    - Exceptions are explicit ([result]); a handler is a function from the
      process globals to a result and the new globals, so that whatever a
      handler changed before it raised stays changed.
    - numpy arrays are objects on a heap: a snapshot in the deque holds a
      reference to its array, as the dict
      [{"msg": payload, "data": data}] does. An array that a handler has
      just built and that nothing else refers to yet is handled as a value
      and gets its heap cell when the snapshot that holds it is appended.
      The one assignment into an array that is already referenced from a
      published snapshot ([data[:, 2:] = ...] in iv_plotter) is a store
      into that cell.
    - What a handler makes visible outside itself (a line on stdout, a
      publisher thread started, an append to one of the deques, a new
      config) is recorded in program order in the [effects] of the
      globals. *)

From Stdlib Require Import Floats String List ZArith Lia.
From stdpp Require Import base list.

Set Warnings "-inexact-float,-register-all".
Local Open Scope string_scope.
Local Open Scope list_scope.

(** ** Python values, exceptions *)

Inductive value : Type :=
| VBool (b : bool)
| VFloat (x : float)
| VStr (s : string)
| VList (xs : list value)
| VDict (kvs : list (string * value)).

Inductive exn : Type :=
| KeyError
| IndexError
| TypeError
| ValueError
| ZeroDivisionError
| AttributeError
| UnpicklingError.

Inductive result (A : Type) : Type :=
| Ok (a : A)
| Raise (e : exn).
Arguments Ok {A} a.
Arguments Raise {A} e.

Definition is_ok {A} (r : result A) : bool :=
  match r with Ok _ => true | Raise _ => false end.

(** [pickle]: the wire format is opaque; a byte string either is the pickle
    of a value or does not unpickle. *)
Inductive bytes : Type :=
| pickled (v : value)
| garbage.

Definition pickle_loads (b : bytes) : result value :=
  match b with
  | pickled v => Ok v
  | garbage => Raise UnpicklingError
  end.

Definition pickle_dumps (v : value) : bytes := pickled v.

(** ** Dicts, lists, arithmetic *)

Fixpoint dict_get (k : string) (kvs : list (string * value)) : option value :=
  match kvs with
  | [] => None
  | (k', v) :: rest => if String.eqb k k' then Some v else dict_get k rest
  end.

(** [d[k] = v]: an existing key keeps its place, a new one goes last. *)
Fixpoint dict_set (k : string) (v : value) (kvs : list (string * value))
  : list (string * value) :=
  match kvs with
  | [] => [(k, v)]
  | (k', v') :: rest =>
      if String.eqb k k' then (k, v) :: rest else (k', v') :: dict_set k v rest
  end.

(** [v[k]] for a string key. *)
Definition getitem_key (v : value) (k : string) : result value :=
  match v with
  | VDict kvs =>
      match dict_get k kvs with
      | Some x => Ok x
      | None => Raise KeyError
      end
  | _ => Raise TypeError
  end.

(** [v[k] = x] for a string key. *)
Definition setitem_key (v : value) (k : string) (x : value) : result value :=
  match v with
  | VDict kvs => Ok (VDict (dict_set k x kvs))
  | _ => Raise TypeError
  end.

(** [v[i]] for a non-negative integer literal. *)
Definition getitem_idx (v : value) (i : nat) : result value :=
  match v with
  | VList xs =>
      match xs !! i with
      | Some x => Ok x
      | None => Raise IndexError
      end
  | VStr s =>
      match String.get i s with
      | Some c => Ok (VStr (String c EmptyString))
      | None => Raise IndexError
      end
  | VDict _ => Raise KeyError
  | _ => Raise TypeError
  end.

(** [v.append(x)] *)
Definition list_append (v : value) (x : value) : result value :=
  match v with
  | VList xs => Ok (VList (xs ++ [x]))
  | _ => Raise AttributeError
  end.

(** [v is True] *)
Definition is_True (v : value) : bool :=
  match v with
  | VBool true => true
  | _ => false
  end.

(** A value used as a number: a float, or a bool (Python's [True] and
    [False] count as 1 and 0). In Python's own arithmetic, as
    [process_ivt] has it, every other value raises a [TypeError]: at the
    operation itself, or, for a string or a list that [* 1000] repeats,
    at the division that follows, with no effect in between. *)
Definition to_float (v : value) : option float :=
  match v with
  | VFloat x => Some x
  | VBool b => Some (if b then 1%float else 0%float)
  | _ => None
  end.

Definition py_mul (a b : value) : result value :=
  match to_float a, to_float b with
  | Some x, Some y => Ok (VFloat (x * y)%float)
  | _, _ => Raise TypeError
  end.

(** Python's [/] on floats raises on a zero divisor (of either sign). *)
Definition py_truediv (a b : value) : result value :=
  match to_float a, to_float b with
  | Some x, Some y =>
      if PrimFloat.eqb y 0%float then Raise ZeroDivisionError
      else Ok (VFloat (x / y)%float)
  | _, _ => Raise TypeError
  end.


(** ** numpy arrays

    A two-dimensional [float64] array: its number of columns (kept apart
    from the rows, since [np.empty((0, 3))] has columns and no rows) and
    its rows. *)

Record ndarray : Type := mk_ndarray {
  ncols : nat;
  rows : list (list float)
}.

(** [a.shape] *)
Definition shape (a : ndarray) : nat * nat := (length (rows a), ncols a).

(** [np.empty((0, c))] *)
Definition np_empty0 (c : nat) : ndarray := mk_ndarray c [].

(** [np.zeros((m, c))] *)
Definition np_zeros (m c : nat) : ndarray :=
  mk_ndarray c (replicate m (replicate c 0%float)).

Fixpoint floats_of (vs : list value) : option (list float) :=
  match vs with
  | [] => Some []
  | v :: rest =>
      match to_float v, floats_of rest with
      | Some x, Some xs => Some (x :: xs)
      | _, _ => None
      end
  end.

Definition float_row (v : value) : option (list float) :=
  match v with
  | VList xs => floats_of xs
  | _ => None
  end.

Fixpoint float_rows (vs : list value) : option (list (list float)) :=
  match vs with
  | [] => Some []
  | v :: rest =>
      match float_row v, float_rows rest with
      | Some r, Some rs => Some (r :: rs)
      | _, _ => None
      end
  end.

(** [np.array(v)] on the domain the handlers are written for: a non-empty
    list of numeric rows of one length, which numpy turns into a
    two-dimensional float array. For any other [v] numpy returns an array
    of another rank or dtype. The code then raises at a later step in
    most cases (a string array in the arithmetic, an array of rank one in
    [data[:, 1]]), but not in all: an object array, as a dict among the
    entries gives, can go through [process_iv] when its columns 0 and 1
    hold numbers. The model raises at once on every [v] outside the
    domain, with an approximate exception class; statements that depend
    on the outcome of [np.array] carry [np_array raw = Ok m] as a
    hypothesis. *)
Definition np_array (v : value) : result ndarray :=
  match v with
  | VList (r :: rs) =>
      match float_rows (r :: rs) with
      | Some (fr :: frs) =>
          if forallb (fun x => Nat.eqb (length x) (length fr)) frs
          then Ok (mk_ndarray (length fr) (fr :: frs))
          else Raise ValueError
      | _ => Raise TypeError
      end
  | _ => Raise IndexError
  end.

(** [a.tolist()] *)
Definition tolist (a : ndarray) : value :=
  VList (map (fun r => VList (map VFloat r)) (rows a)).

(** [a[:, k]] *)
Definition column (k : nat) (a : ndarray) : result (list float) :=
  if Nat.ltb k (ncols a)
  then Ok (map (fun r => nth k r 0%float) (rows a))
  else Raise IndexError.

(** [a[:, ks]] for a list of column indices *)
Definition columns (ks : list nat) (a : ndarray) : result ndarray :=
  if forallb (fun k => Nat.ltb k (ncols a)) ks
  then Ok (mk_ndarray (length ks)
             (map (fun r => map (fun k => nth k r 0%float) ks) (rows a)))
  else Raise IndexError.

(** [np.append(a, c.reshape(len(c), 1), axis=1)] for a vector [c] *)
Definition append_column (a : ndarray) (c : list float) : result ndarray :=
  if Nat.eqb (length c) (length (rows a))
  then Ok (mk_ndarray (S (ncols a))
             (map (fun rc => fst rc ++ [snd rc]) (zip (rows a) c)))
  else Raise ValueError.

(** [np.append(a, b, axis=1)] *)
Definition append_axis1 (a b : ndarray) : result ndarray :=
  if Nat.eqb (length (rows a)) (length (rows b))
  then Ok (mk_ndarray (ncols a + ncols b)
             (map (fun rr => fst rr ++ snd rr) (zip (rows a) (rows b))))
  else Raise ValueError.

(** [np.append(a, b, axis=0)] *)
Definition append_axis0 (a b : ndarray) : result ndarray :=
  if Nat.eqb (ncols a) (ncols b)
  then Ok (mk_ndarray (ncols a) (rows a ++ rows b))
  else Raise ValueError.

(** [a[:, -1] - a[0, -1]]: the last column minus the last entry of row 0 *)
Definition last_column_minus_first (a : ndarray) : result (list float) :=
  match ncols a, rows a with
  | 0, _ => Raise IndexError
  | _, [] => Raise IndexError
  | S c, r0 :: _ =>
      Ok (map (fun r => (nth c r 0%float - nth c r0 0%float)%float) (rows a))
  end.

(** [a[:, 0] = v] *)
Definition set_column0 (a : ndarray) (v : list float) : result ndarray :=
  match ncols a with
  | 0 => Raise IndexError
  | S _ =>
      if Nat.eqb (length v) (length (rows a))
      then Ok (mk_ndarray (ncols a)
                 (map (fun rx => snd rx :: tail (fst rx)) (zip (rows a) v)))
      else Raise ValueError
  end.

(** numpy's broadcasting of a two-dimensional [b] to the shape [(m, k)]:
    along each axis [b] has the length of the target, or length 1 and is
    repeated. *)
Definition broadcast_cols (k : nat) (b : ndarray) : option (list (list float)) :=
  if Nat.eqb (ncols b) k then Some (rows b)
  else if Nat.eqb (ncols b) 1
       then Some (map (fun r => replicate k (nth 0 r 0%float)) (rows b))
       else None.

Definition broadcast_rows (m : nat) (b : list (list float))
  : option (list (list float)) :=
  if Nat.eqb (length b) m then Some b
  else match b with
       | [r] => Some (replicate m r)
       | _ => None
       end.

Definition broadcast (m k : nat) (b : ndarray) : option (list (list float)) :=
  match broadcast_cols k b with
  | Some rs => broadcast_rows m rs
  | None => None
  end.

(** [a[:, 2:] = b]: the columns of [a] from index 2 on are overwritten by
    [b] broadcast to the shape of [a[:, 2:]]. numpy checks the shapes
    first: nothing is written when they do not fit. *)
Definition assign_from_column2 (a b : ndarray) : result ndarray :=
  match broadcast (length (rows a)) (ncols a - 2) b with
  | Some brows =>
      Ok (mk_ndarray (ncols a)
            (map (fun rr => take 2 (fst rr) ++ snd rr) (zip (rows a) brows)))
  | None => Raise ValueError
  end.

(** ** Process globals and the handler monad *)

(** [collections.deque(maxlen=n)]: appending to a full deque drops items
    from the other end. *)
Record deque (A : Type) : Type := mk_deque {
  maxlen : nat;
  items : list A
}.
Arguments mk_deque {A} maxlen items.
Arguments maxlen {A} d.
Arguments items {A} d.

Definition deque_append {A} (d : deque A) (x : A) : deque A :=
  let l := items d ++ [x] in
  mk_deque (maxlen d) (drop (length l - maxlen d) l).

(** A reference to an array object. *)
Definition ref : Type := nat.

(** [{"msg": payload, "data": data}] *)
Record snapshot : Type := mk_snapshot {
  snap_msg : value;
  snap_data : ref
}.

(** One line of [print]: its fixed text and, for an f-string, the value
    formatted into it. *)
Inductive event : Type :=
| EvPrint (text : string) (arg : option value)
| EvPublish (topic : string) (payload : bytes)
| EvLatest (s : snapshot)
| EvPaused (v : value)
| EvConfig (v : value).

(** The module-level state of one plotter process: the two deques, the
    [config] global, the array objects, and the effects so far. [latest]
    is [graph4_latest] in it_plotter and [graph2_latest] in iv_plotter. *)
Record globals : Type := mk_globals {
  latest : deque snapshot;
  paused : deque value;
  config : value;
  heap : list ndarray;
  effects : list event
}.

Definition M (A : Type) : Type := globals -> result A * globals.

Definition ret {A} (a : A) : M A := fun g => (Ok a, g).

Definition bind {A B} (m : M A) (k : A -> M B) : M B :=
  fun g =>
    match m g with
    | (Ok a, g') => k a g'
    | (Raise e, g') => (Raise e, g')
    end.

Definition lift {A} (r : result A) : M A := fun g => (r, g).

Notation "x <- m ;; k" := (bind m (fun x => k))
  (at level 100, m at next level, right associativity).
Notation "m ;;; k" := (bind m (fun _ => k))
  (at level 100, right associativity).

Definition emit (e : event) : M unit :=
  fun g => (Ok tt, mk_globals (latest g) (paused g) (config g) (heap g)
                     (effects g ++ [e])).

(** [print(text)] and [print(f"{text}{arg}")] *)
Definition print (text : string) (arg : option value) : M unit :=
  emit (EvPrint text arg).

(** [latest[0]] *)
Definition latest_first : M snapshot :=
  fun g =>
    match items (latest g) with
    | s :: _ => (Ok s, g)
    | [] => (Raise IndexError, g)
    end.

(** [latest.append(s)] *)
Definition latest_append (s : snapshot) : M unit :=
  fun g => (Ok tt, mk_globals (deque_append (latest g) s) (paused g) (config g)
                     (heap g) (effects g ++ [EvLatest s])).

(** [paused.append(v)] *)
Definition paused_append (v : value) : M unit :=
  fun g => (Ok tt, mk_globals (latest g) (deque_append (paused g) v) (config g)
                     (heap g) (effects g ++ [EvPaused v])).

(** [config = v] *)
Definition set_config (v : value) : M unit :=
  fun g => (Ok tt, mk_globals (latest g) (paused g) v (heap g)
                     (effects g ++ [EvConfig v])).

(** The array object behind a reference. Python has no dangling
    references; the globals of a running process always satisfy
    [heap g !! r = Some _] for the references they hold. *)
Definition deref (r : ref) : M ndarray :=
  fun g =>
    match heap g !! r with
    | Some a => (Ok a, g)
    | None => (Raise ValueError, g)
    end.

(** A new array object. *)
Definition alloc (a : ndarray) : M ref :=
  fun g => (Ok (length (heap g)),
            mk_globals (latest g) (paused g) (config g) (heap g ++ [a])
              (effects g)).

(** Writing through a reference: the array object changes in place. *)
Definition store (r : ref) (a : ndarray) : M unit :=
  fun g => (Ok tt, mk_globals (latest g) (paused g) (config g)
                     (<[r := a]> (heap g)) (effects g)).

(** ** Code common to both plotters *)

Record MQTTMessage : Type := mk_msg {
  msg_topic : string;
  msg_payload : bytes
}.

(** [_publish]: starts a thread that connects, publishes at QoS 2, waits
    for that publish and disconnects. The handler does not wait for it. *)
Definition _publish (topic : string) (payload : bytes) : M unit :=
  emit (EvPublish topic payload).

Definition read_config (payload : value) : M unit :=
  print "reading config..." None ;;;
  c <- lift (getitem_key payload "config") ;;
  set_config c.

(** [paused.append(False)] at import time *)
Definition paused_init : deque value := mk_deque 1 [VBool false].

(** The message of the snapshot that each module appends at import time:
    [{"clear": True, "idn": "-"}] *)
Definition msg_init : value :=
  VDict [("clear", VBool true); ("idn", VStr "-")].

(** ** it_plotter.py: current against time *)

Module IT.

(** The globals once the module is loaded and [__main__] has set
    [config = {}]: [graph4_latest] holds the snapshot of an empty
    three-column array. *)
Definition init : globals :=
  mk_globals (mk_deque 1 [mk_snapshot msg_init 0]) paused_init (VDict [])
    [np_empty0 3] [].

(** Returns the list [data] and, with it, the payload dict as the
    function leaves it: [data] is the list object inside [payload], so
    the caller's [payload] holds the extended list. *)
Definition process_ivt (payload : value) (kind : string) : M (value * value) :=
  data <- lift (getitem_key payload "data") ;;
  pixel <- lift (getitem_key payload "pixel") ;;
  area <- lift (getitem_key pixel "area") ;;
  d1 <- lift (getitem_idx data 1) ;;
  d1k <- lift (py_mul d1 (VFloat 1000%float)) ;;
  j <- lift (py_truediv d1k area) ;;
  d0 <- lift (getitem_idx data 0) ;;
  p <- lift (py_mul d0 j) ;;
  data <- lift (list_append data j) ;;
  data <- lift (list_append data p) ;;
  payload <- lift (setitem_key payload "data" data) ;;
  _publish ("data/processed/" ++ kind) (pickle_dumps payload) ;;;
  ret (data, payload).

Definition on_message (msg : MQTTMessage) : M unit :=
  payload <- lift (pickle_loads (msg_payload msg)) ;;
  if String.eqb (msg_topic msg) "data/raw/it_measurement" then
    latest0 <- latest_first ;;
    let data := snap_data latest0 in
    clear <- lift (getitem_key payload "clear") ;;
    if is_True clear then
      print "it clear" None ;;;
      data <- alloc (np_empty0 3) ;;
      latest_append (mk_snapshot payload data)
    else
      processed <- process_ivt payload "it_measurement" ;;
      let pdata := fst processed in
      let payload := snd processed in
      t <- lift (getitem_idx pdata 2) ;;
      j <- lift (getitem_idx pdata 4) ;;
      row <- lift (np_array (VList [VList [VFloat 0%float; j; t]])) ;;
      old <- deref data ;;
      appended <- lift (append_axis0 old row) ;;
      t_scaled <- lift (last_column_minus_first appended) ;;
      scaled <- lift (set_column0 appended t_scaled) ;;
      data <- alloc scaled ;;
      latest_append (mk_snapshot payload data)
  else if String.eqb (msg_topic msg) "measurement/run" then
    read_config payload
  else if String.eqb (msg_topic msg) "plotter/pause" then
    print "pause: " (Some payload) ;;;
    paused_append payload
  else ret tt.

End IT.

(** ** iv_plotter.py: current against voltage *)

Module IV.

Definition init : globals :=
  mk_globals (mk_deque 1 [mk_snapshot msg_init 0]) paused_init (VDict [])
    [np_empty0 4] [].

(** The divisor of [data[:, 1] * 1000 / area] where it is a scalar: a
    float or a bool. A string or a dict makes the division raise. A list
    is outside the domain: numpy takes it as an array and broadcasts it
    against the column, where the model raises; statements that depend on
    the division carry [to_float area = Some a] as a hypothesis. *)
Definition scalar (v : value) : result float :=
  match to_float v with
  | Some x => Ok x
  | None => Raise TypeError
  end.

(** Returns the array [data] and the payload dict as the function
    leaves it. numpy's division does not raise on a zero divisor: the
    quotient is an infinity or a NaN. *)
Definition process_iv (payload : value) : M (ndarray * value) :=
  raw <- lift (getitem_key payload "data") ;;
  data <- lift (np_array raw) ;;
  pixel <- lift (getitem_key payload "pixel") ;;
  area <- lift (getitem_key pixel "area") ;;
  i <- lift (column 1 data) ;;
  a <- lift (scalar area) ;;
  let j := map (fun x => (x * 1000 / a)%float) i in
  v <- lift (column 0 data) ;;
  let p := zip_with (fun x y => (x * y)%float) v j in
  data <- lift (append_column data j) ;;
  data <- lift (append_column data p) ;;
  payload <- lift (setitem_key payload "data" (tolist data)) ;;
  _publish "data/processed/iv_measurement" (pickle_dumps payload) ;;;
  ret (data, payload).

Definition on_message (msg : MQTTMessage) : M unit :=
  payload <- lift (pickle_loads (msg_payload msg)) ;;
  if String.eqb (msg_topic msg) "data/raw/iv_measurement" then
    latest0 <- latest_first ;;
    let data := snap_data latest0 in
    clear <- lift (getitem_key payload "clear") ;;
    if is_True clear then
      print "iv clear" None ;;;
      data <- alloc (np_empty0 4) ;;
      latest_append (mk_snapshot payload data)
    else
      processed <- process_iv payload ;;
      let pdata := fst processed in
      let payload := snd processed in
      old <- deref data ;;
      if Nat.eqb (length (rows old)) 0 then
        data0 <- lift (columns [0; 4] pdata) ;;
        let data1 := np_zeros (length (rows data0)) (ncols data0) in
        seeded <- lift (append_axis1 data0 data1) ;;
        data <- alloc seeded ;;
        latest_append (mk_snapshot payload data)
      else
        scan <- lift (columns [0; 4] pdata) ;;
        written <- lift (assign_from_column2 old scan) ;;
        store data written ;;;
        latest_append (mk_snapshot payload data)
  else if String.eqb (msg_topic msg) "measurement/run" then
    read_config payload
  else if String.eqb (msg_topic msg) "plotter/pause" then
    print "pause: " (Some payload) ;;;
    paused_append payload
  else ret tt.

End IV.

(** ** What the presentation layer reads *)

(** [latest[0]], as [update_graph_live] takes it. *)
Definition read_latest (g : globals) : option snapshot := head (items (latest g)).

(** The series of a snapshot that a reader holds, as the reader finds it
    when it looks into the array in globals [g]. *)
Definition series_of (g : globals) (s : snapshot) : option ndarray :=
  heap g !! snap_data s.

(** The series on display: that of the latest snapshot. *)
Definition latest_series (g : globals) : option ndarray :=
  match read_latest g with
  | Some s => series_of g s
  | None => None
  end.

(** ** Vocabulary of the statements *)

(** [payload["pixel"]["area"]] *)
Definition area_of (payload : value) : result value :=
  match getitem_key payload "pixel" with
  | Ok pixel => getitem_key pixel "area"
  | Raise e => Raise e
  end.

(** [payload["clear"] is True] *)
Definition clear_flag (payload : value) : result bool :=
  match getitem_key payload "clear" with
  | Ok c => Ok (is_True c)
  | Raise e => Raise e
  end.

(** The globals [g] after further effects and nothing else. *)
Definition add_effects (evs : list event) (g : globals) : globals :=
  mk_globals (latest g) (paused g) (config g) (heap g) (effects g ++ evs).

(** The globals [g] with another pause deque. *)
Definition set_paused (q : deque value) (g : globals) : globals :=
  mk_globals (latest g) q (config g) (heap g) (effects g).

(** Current density in mA/cm2 and power in mW/cm2 from a raw current, a
    raw voltage and an area. *)
Definition current_density (i a : float) : float := (i * 1000 / a)%float.
Definition power (v j : float) : float := (v * j)%float.

(** A row of a sweep with its two derived columns. *)
Definition augment_row (a : float) (r : list float) : list float :=
  r ++ [current_density (nth 1 r 0%float) a;
        power (nth 0 r 0%float) (current_density (nth 1 r 0%float) a)].

(** Records and messages as the measurement server sends them. *)
Definition it_record (d : list float) (area : float) : value :=
  VDict [("data", VList (map VFloat d));
         ("pixel", VDict [("area", VFloat area)]);
         ("clear", VBool false); ("idn", VStr "pixel1")].

Definition iv_record (d : list (list float)) (area : float) : value :=
  VDict [("data", VList (map (fun r => VList (map VFloat r)) d));
         ("pixel", VDict [("area", VFloat area)]);
         ("clear", VBool false); ("idn", VStr "pixel1")].

Definition clear_record : value :=
  VDict [("clear", VBool true); ("idn", VStr "pixel1")].

Definition it_topic : string := "data/raw/it_measurement".
Definition iv_topic : string := "data/raw/iv_measurement".
Definition pause_topic : string := "plotter/pause".

Definition it_message (payload : value) : MQTTMessage :=
  mk_msg it_topic (pickle_dumps payload).
Definition iv_message (payload : value) : MQTTMessage :=
  mk_msg iv_topic (pickle_dumps payload).

(** Messages handled one after the other, in arrival order. An exception
    ends the handling of its message; what was changed stays. *)
Definition run (handler : MQTTMessage -> M unit) (msgs : list MQTTMessage)
  (g : globals) : globals :=
  fold_left (fun g m => snd (handler m g)) msgs g.

(** The rows of a current-vs-time series with the first column set to the
    raw time (column 2) minus the raw time of row 0. *)
Definition time_normalised (rs : list (list float)) : list (list float) :=
  match rs with
  | [] => []
  | r0 :: _ => map (fun r => (nth 2 r 0 - nth 2 r0 0)%float :: tail r) rs
  end.

(** The series that follows [old] when a row with current density [j] and
    raw time [t] is folded in. *)
Definition it_appended (old : ndarray) (j t : float) : ndarray :=
  mk_ndarray 3 (time_normalised (rows old ++ [[0%float; j; t]])).

(** The deque of the latest snapshot as it is in a running process: one
    slot, and a snapshot in it. *)
Definition single_slot {A} (d : deque A) : bool :=
  Nat.eqb (maxlen d) 1 && Nat.eqb (length (items d)) 1.

(** No publisher thread was started among these effects. *)
Definition no_publish (evs : list event) : bool :=
  forallb (fun e => match e with EvPublish _ _ => false | _ => true end) evs.

(** A row of a two-scan table that holds one sweep only: bias and
    current density of the row, then zeros. *)
Definition seeded_row (a : float) (r : list float) : list float :=
  [nth 0 r 0%float; current_density (nth 1 r 0%float) a; 0%float; 0%float].

(** A row of a two-scan table after a later sweep: its first two entries,
    then bias and current density of the row of the later sweep. *)
Definition overwritten_row (a : float) (old r : list float) : list float :=
  take 2 old ++ [nth 0 r 0%float; current_density (nth 1 r 0%float) a].

(** [pdata[:, [0, 4]]] row by row *)
Definition scan_rows (pdata : ndarray) : list (list float) :=
  map (fun r => [nth 0 r 0%float; nth 4 r 0%float]) (rows pdata).

(** Three sweeps of two rows each (voltage, current, time, status). *)
Definition sweep_a : list (list float) :=
  [[0; 0.002; 10; 0]; [0.6; 0.005; 11; 0]]%float.
Definition sweep_b : list (list float) :=
  [[0.6; 0.004; 12; 0]; [0; 0.001; 13; 0]]%float.
Definition sweep_c : list (list float) :=
  [[0.3; 0.003; 14; 0]; [0.9; 0.006; 15; 0]]%float.

(** Among these effects, the first append to the latest-snapshot deque
    comes before any start of a publisher. *)
Fixpoint push_before_publish (evs : list event) : bool :=
  match evs with
  | [] => true
  | EvLatest _ :: _ => true
  | EvPublish _ _ :: _ => false
  | _ :: rest => push_before_publish rest
  end.

(** An array of [c] columns whose rows all have [c] entries. *)
Definition has_columns (c : nat) (a : ndarray) : bool :=
  Nat.eqb (ncols a) c && forallb (fun r => Nat.eqb (length r) c) (rows a).

(** The globals of a running plotter whose series has [c] columns: each
    deque has one slot, the latest-snapshot deque holds a snapshot, and
    the array of that snapshot exists and has [c] columns. *)
Definition well_formed (c : nat) (g : globals) : bool :=
  single_slot (latest g) && Nat.eqb (maxlen (paused g)) 1 &&
  match latest_series g with
  | Some a => has_columns c a
  | None => false
  end.
Arguments well_formed : simpl never.

(** The globals that a plotter can be in: those of a freshly started
    process, and those after one more message. *)
Inductive reachable (handler : MQTTMessage -> M unit) (init : globals)
  : globals -> Prop :=
| reach_init : reachable handler init init
| reach_step g m :
    reachable handler init g -> reachable handler init (snd (handler m g)).

(** ** The presentation layer: figures and the Dash callback

    A figure reaches the callback as the JSON value of the graph's
    [figure] property: nested dicts and lists. An assignment
    [fig[s1]...[sn][k] = x] reads the objects along the path and assigns
    into the last one; the figure is a tree, so the change shows in the
    figure and nowhere else. *)

Inductive subscript : Type :=
| Key (k : string)
| Idx (i : nat).

(** [v[s]] *)
Definition getitem (v : value) (s : subscript) : result value :=
  match s with
  | Key k => getitem_key v k
  | Idx i => getitem_idx v i
  end.

(** The object [v] once the object that was read at [v[s]] has changed
    to [x]. *)
Definition put_back (v : value) (s : subscript) (x : value) : value :=
  match s, v with
  | Key k, VDict kvs => VDict (dict_set k x kvs)
  | Idx i, VList xs => VList (<[i := x]> xs)
  | _, _ => v
  end.

(** [v[s1]...[sn]] *)
Fixpoint lookup_path (path : list subscript) (v : value) : result value :=
  match path with
  | [] => Ok v
  | s :: rest =>
      match getitem v s with
      | Ok sub => lookup_path rest sub
      | Raise e => Raise e
      end
  end.

(** [v[s1]...[sn][k] = x] *)
Fixpoint assign_at (path : list subscript) (k : string) (x : value) (v : value)
  : result value :=
  match path with
  | [] => setitem_key v k x
  | s :: rest =>
      match getitem v s with
      | Ok sub =>
          match assign_at rest k x sub with
          | Ok sub' => Ok (put_back v s sub')
          | Raise e => Raise e
          end
      | Raise e => Raise e
      end
  end.

Definition and_then {A B} (r : result A) (k : A -> result B) : result B :=
  match r with
  | Ok a => k a
  | Raise e => Raise e
  end.

Notation "x <~ r ;; k" := (and_then r (fun x => k))
  (at level 100, r at next level, right associativity).

(** Python's [min] and [max] over the entries of an array: the first
    entry, replaced by each later entry that compares below (above) the
    one held. *)
Definition py_min (l : list float) : result float :=
  match l with
  | [] => Raise ValueError
  | x :: rest =>
      Ok (fold_left (fun m y => if PrimFloat.ltb y m then y else m) rest x)
  end.

Definition py_max (l : list float) : result float :=
  match l with
  | [] => Raise ValueError
  | x :: rest =>
      Ok (fold_left (fun m y => if PrimFloat.ltb m y then y else m) rest x)
  end.

(** A column of an array as it sits in a figure. *)
Definition floats (l : list float) : value := VList (map VFloat l).

(** [[min(l), max(l)]] *)
Definition range_of (l : list float) : result value :=
  lo <~ py_min l ;;
  hi <~ py_max l ;;
  Ok (VList [VFloat lo; VFloat hi]).

(** [v is False] *)
Definition is_False (v : value) : bool :=
  match v with
  | VBool false => true
  | _ => false
  end.

Module ITView.

(** it_plotter's [format_figure_1] *)
Definition format_figure_1 (data : ndarray) (fig : value) (title : value)
  : result value :=
  if Nat.eqb (length (rows data)) 0 then Ok fig
  else
    x <~ column 0 data ;;
    fig <~ assign_at [Key "data"; Idx 0] "x" (floats x) fig ;;
    y <~ column 1 data ;;
    fig <~ assign_at [Key "data"; Idx 0] "y" (floats y) fig ;;
    x <~ column 0 data ;;
    xrange <~ range_of x ;;
    fig <~ assign_at [Key "layout"; Key "xaxis"] "range" xrange fig ;;
    y <~ column 1 data ;;
    yrange <~ range_of y ;;
    fig <~ assign_at [Key "layout"; Key "yaxis"] "range" yrange fig ;;
    assign_at [Key "layout"; Key "annotations"; Idx 0] "text" title fig.

Definition format_figure_4 (data : ndarray) (fig : value) (title : value)
  : result value :=
  format_figure_1 data fig title.

(** The callback reads the globals and writes none of them. *)
Definition update_graph_live (g : globals) (g4 : value) : result (list value) :=
  match items (paused g) with
  | [] => Raise IndexError
  | p :: _ =>
      if is_False p then
        match items (latest g) with
        | [] => Raise IndexError
        | g4_latest :: _ =>
            idn <~ getitem_key (snap_msg g4_latest) "idn" ;;
            match heap g !! snap_data g4_latest with
            | Some data =>
                g4 <~ format_figure_4 data g4 idn ;;
                Ok [g4]
            | None => Raise ValueError
            end
        end
      else Ok [g4]
  end.

(** The topics [__main__] subscribes to, each at QoS 2. *)
Definition subscriptions : list string :=
  ["data/raw/it_measurement"; "plotter/pause"; "measurement/run"].

End ITView.

Module IVView.

(** [np.all(c != np.zeros(len(c)))] *)
Definition all_nonzero (c : list float) : bool :=
  forallb (fun x => negb (PrimFloat.eqb x 0%float)) c.

Definition format_figure_2 (data : ndarray) (fig : value) (title : value)
  : result value :=
  if Nat.eqb (length (rows data)) 0 then Ok fig
  else
    x <~ column 0 data ;;
    fig <~ assign_at [Key "data"; Idx 0] "x" (floats x) fig ;;
    y <~ column 1 data ;;
    fig <~ assign_at [Key "data"; Idx 0] "y" (floats y) fig ;;
    c2 <~ column 2 data ;;
    fig <~ (if all_nonzero c2 then
              x <~ column 2 data ;;
              fig <~ assign_at [Key "data"; Idx 1] "x" (floats x) fig ;;
              y <~ column 3 data ;;
              assign_at [Key "data"; Idx 1] "y" (floats y) fig
            else Ok fig) ;;
    x0 <~ column 0 data ;;
    x2 <~ column 2 data ;;
    xrange <~ range_of (x0 ++ x2) ;;
    y1 <~ column 1 data ;;
    y3 <~ column 3 data ;;
    yrange <~ range_of (y1 ++ y3) ;;
    fig <~ assign_at [Key "layout"; Key "xaxis"] "range" xrange fig ;;
    fig <~ assign_at [Key "layout"; Key "yaxis"] "range" yrange fig ;;
    assign_at [Key "layout"; Key "annotations"; Idx 0] "text" title fig.

Definition update_graph_live (g : globals) (g2 : value) : result (list value) :=
  match items (paused g) with
  | [] => Raise IndexError
  | p :: _ =>
      if is_False p then
        match items (latest g) with
        | [] => Raise IndexError
        | g2_latest :: _ =>
            idn <~ getitem_key (snap_msg g2_latest) "idn" ;;
            match heap g !! snap_data g2_latest with
            | Some data =>
                g2 <~ format_figure_2 data g2 idn ;;
                Ok [g2]
            | None => Raise ValueError
            end
        end
      else Ok [g2]
  end.

Definition subscriptions : list string :=
  ["data/raw/iv_measurement"; "plotter/pause"; "measurement/run"].

End IVView.

Definition subscript_eqb (s s' : subscript) : bool :=
  match s, s' with
  | Key k, Key k' => String.eqb k k'
  | Idx i, Idx i' => Nat.eqb i i'
  | _, _ => false
  end.

(** Two paths part ways: at some depth, below a common prefix, they take
    different subscripts. *)
Fixpoint apart (p q : list subscript) : bool :=
  match p, q with
  | s :: p', s' :: q' => if subscript_eqb s s' then apart p' q' else true
  | _, _ => false
  end.

(** The places of a figure that [format_figure_1] assigns to. *)
Definition figure_1_paths : list (list subscript) :=
  [[Key "data"; Idx 0; Key "x"];
   [Key "data"; Idx 0; Key "y"];
   [Key "layout"; Key "xaxis"; Key "range"];
   [Key "layout"; Key "yaxis"; Key "range"];
   [Key "layout"; Key "annotations"; Idx 0; Key "text"]].

(** The two further places that [format_figure_2] assigns to. *)
Definition figure_2_paths : list (list subscript) :=
  [[Key "data"; Idx 1; Key "x"]; [Key "data"; Idx 1; Key "y"]].

(** A path that parts ways with every one of the given paths. *)
Definition apart_from (ps : list (list subscript)) (q : list subscript) : bool :=
  forallb (fun p => apart p q) ps.

(** The figure that it_plotter builds at import time, as far as the
    source spells it out: one scatter trace without points, the axis
    titles, and the annotation that [make_subplots] makes of the subplot
    title. *)
Definition fig4 : value :=
  VDict [("data", VList [VDict [("x", VList []); ("y", VList []);
                                ("mode", VStr "lines+markers"); ("name", VStr "j")]]);
         ("layout",
          VDict [("annotations", VList [VDict [("text", VStr "-")]]);
                 ("xaxis", VDict [("title", VStr "time (s)"); ("autorange", VBool false)]);
                 ("yaxis", VDict [("title", VStr "J (mA/cm^2)"); ("autorange", VBool false)]);
                 ("font", VDict [("size", VFloat 16)])])].

(** And that of iv_plotter, with its two traces. *)
Definition fig2 : value :=
  VDict [("data", VList [VDict [("x", VList []); ("y", VList []);
                                ("mode", VStr "lines+markers"); ("name", VStr "scan0")];
                         VDict [("x", VList []); ("y", VList []);
                                ("mode", VStr "lines+markers"); ("name", VStr "scan1")]]);
         ("layout",
          VDict [("annotations", VList [VDict [("text", VStr "-")]]);
                 ("xaxis", VDict [("title", VStr "bias (V)"); ("autorange", VBool false)]);
                 ("yaxis", VDict [("title", VStr "J (mA/cm^2)"); ("autorange", VBool false)]);
                 ("font", VDict [("size", VFloat 16)])])].

(** [paused[0] is False]: the callback will redraw. *)
Definition redrawing (g : globals) : bool :=
  match items (paused g) with
  | p :: _ => is_False p
  | [] => false
  end.

Definition run_topic : string := "measurement/run".

(** A current-vs-time series whose offsets are in place: the first column
    of every row is its raw time (column 2) minus the raw time of row 0. *)
Definition offsets_in_place (a : ndarray) : Prop :=
  forall i r, rows a !! i = Some r ->
    exists r0, rows a !! 0 = Some r0 /\
               nth 0 r 0%float = (nth 2 r 0 - nth 2 r0 0)%float.

(** Columns 0-1 of a two-scan table, row by row. *)
Definition first_scan (a : ndarray) : list (list float) := map (take 2) (rows a).

(** A current-vs-time record as the measurement server sends it: not a
    clear, four numeric data fields [fs] (voltage, current, time,
    status) and a numeric area [a] that is not zero. *)
Definition it_sample (payload : value) (fs : list float) (a : float) : Prop :=
  clear_flag payload = Ok false /\
  exists raw area,
    getitem_key payload "data" = Ok (VList raw) /\ floats_of raw = Some fs /\
    area_of payload = Ok area /\ to_float area = Some a /\
    PrimFloat.eqb a 0 = false /\ length fs = 4.

(** The row that such a record adds to the series, before the offsets
    are set. *)
Definition it_row (fs : list float) (a : float) : list float :=
  [0%float; current_density (nth 1 fs 0%float) a; nth 2 fs 0%float].

(** The keys of a dict, in order. *)
Definition keys (v : value) : list string :=
  match v with
  | VDict kvs => map fst kvs
  | _ => []
  end.

(** The topics on which publishers were started among these effects. *)
Fixpoint published_topics (evs : list event) : list string :=
  match evs with
  | [] => []
  | EvPublish t _ :: rest => t :: published_topics rest
  | _ :: rest => published_topics rest
  end.

(** What the handler takes from one row of a sweep: entry 0 of the row
    and entry 4 of the row as [process_iv] leaves it. For a row of four
    fields entry 4 is the current density; for three fields it is the
    power, for five or more the fifth raw field. *)
Definition stored_pair (a : float) (r : list float) : list float :=
  [nth 0 r 0%float; nth 4 (augment_row a r) 0%float].

(** A row of a two-scan table after a later sweep of any width: its first
    two entries, then what the handler takes from the row of the later
    sweep. *)
Definition overwritten_with (a : float) (old r : list float) : list float :=
  take 2 old ++ stored_pair a r.

(** * Properties *)

Lemma process_ivt_ok payload kind raw d0 d1 area v i a g :
  getitem_key payload "data" = Ok (VList raw) ->
  raw !! 0 = Some d0 -> raw !! 1 = Some d1 ->
  to_float d0 = Some v -> to_float d1 = Some i ->
  area_of payload = Ok area -> to_float area = Some a ->
  PrimFloat.eqb a 0 = false ->
  exists payload',
    setitem_key payload "data"
      (VList (raw ++ [VFloat (current_density i a);
                      VFloat (power v (current_density i a))])) = Ok payload' /\
    IT.process_ivt payload kind g =
      (Ok (VList (raw ++ [VFloat (current_density i a);
                          VFloat (power v (current_density i a))]), payload'),
       add_effects
         [EvPublish ("data/processed/" ++ kind) (pickle_dumps payload')] g).
Proof.
  intros Hd H0 H1 Hv Hi Ha Haf Hnz.
  unfold area_of in Ha.
  destruct payload as [| | | |kvs]; try discriminate.
  eexists. split; [reflexivity|].
  unfold IT.process_ivt, bind, lift.
  rewrite Hd.
  destruct (getitem_key (VDict kvs) "pixel") as [pixel|] eqn:Hp; [|discriminate].
  rewrite Ha. cbn [getitem_idx]. rewrite H1, H0.
  unfold py_mul, py_truediv. rewrite Hi. cbn [to_float]. rewrite Haf, Hnz.
  rewrite Hv. cbn. rewrite <- app_assoc. reflexivity.
Qed.

Lemma append_two_columns (a : float) (l : list (list float)) :
  let j := map (fun x => (x * 1000 / a)%float) (map (fun r => nth 1 r 0%float) l) in
  let p := zip_with (fun x y => (x * y)%float) (map (fun r => nth 0 r 0%float) l) j in
  map (fun rc : list float * float => fst rc ++ [snd rc])
    (zip (map (fun rc : list float * float => fst rc ++ [snd rc]) (zip l j)) p)
  = map (augment_row a) l.
Proof.
  induction l as [|r l IH]; [reflexivity|].
  cbn -[augment_row] in *. rewrite IH.
  unfold augment_row, current_density, power.
  rewrite <- app_assoc. reflexivity.
Qed.

Lemma process_iv_ok payload raw m area a g :
  getitem_key payload "data" = Ok raw ->
  np_array raw = Ok m ->
  2 <= ncols m ->
  area_of payload = Ok area -> to_float area = Some a ->
  exists payload',
    setitem_key payload "data"
      (tolist (mk_ndarray (S (S (ncols m))) (map (augment_row a) (rows m))))
      = Ok payload' /\
    IV.process_iv payload g =
      (Ok (mk_ndarray (S (S (ncols m))) (map (augment_row a) (rows m)), payload'),
       add_effects
         [EvPublish "data/processed/iv_measurement" (pickle_dumps payload')] g).
Proof.
  intros Hd Hm Hc Ha Haf.
  unfold area_of in Ha.
  destruct payload as [| | | |kvs]; try discriminate.
  eexists. split; [reflexivity|].
  unfold IV.process_iv, bind, lift.
  rewrite Hd, Hm.
  destruct (getitem_key (VDict kvs) "pixel") as [pixel|] eqn:Hp; [|discriminate].
  rewrite Ha. unfold column, IV.scalar.
  assert (H1 : Nat.ltb 1 (ncols m) = true) by (apply Nat.ltb_lt; lia).
  assert (H0 : Nat.ltb 0 (ncols m) = true) by (apply Nat.ltb_lt; lia).
  rewrite H1, H0, Haf.
  unfold append_column. cbn [rows ncols].
  rewrite !length_map, Nat.eqb_refl.
  cbn [rows ncols].
  rewrite length_zip_with, !length_map, length_zip, !length_map.
  replace (length (rows m) `min` length (rows m)) with (length (rows m)) by lia.
  rewrite Nat.eqb_refl.
  cbn [setitem_key]. rewrite append_two_columns. reflexivity.
Qed.

Ltac step :=
  match goal with
  | H : context [match ?r with Ok _ => _ | Raise _ => _ end] |- _ =>
      let E := fresh "E" in destruct r eqn:E; cbn beta iota in H
  | H : (_, _) = (_, _) |- _ => inversion H; clear H; subst
  end.

Lemma py_mul_inv a b c :
  py_mul a b = Ok c ->
  exists x y, to_float a = Some x /\ to_float b = Some y /\ c = VFloat (x * y)%float.
Proof.
  unfold py_mul. destruct (to_float a), (to_float b); try discriminate.
  intros [= <-]. eauto.
Qed.

Lemma py_truediv_inv a b c :
  py_truediv a b = Ok c ->
  exists x y, to_float a = Some x /\ to_float b = Some y /\
              PrimFloat.eqb y 0 = false /\ c = VFloat (x / y)%float.
Proof.
  unfold py_truediv. destruct (to_float a), (to_float b); try discriminate.
  destruct (PrimFloat.eqb _ _) eqn:E; try discriminate.
  intros [= <-]. eauto 10.
Qed.

Lemma zip_map_self {A B C} (f : A * B -> C) (g : A -> B) (l : list A) :
  map f (zip l (map g l)) = map (fun x => f (x, g x)) l.
Proof. induction l as [|x l IH]; [reflexivity|]. cbn. by rewrite IH. Qed.

Lemma normalise_rows (a : ndarray) j t :
  ncols a = 3 ->
  exists ts,
    last_column_minus_first (mk_ndarray 3 (rows a ++ [[0%float; j; t]])) = Ok ts /\
    set_column0 (mk_ndarray 3 (rows a ++ [[0%float; j; t]])) ts = Ok (it_appended a j t).
Proof.
  intros Hc. unfold last_column_minus_first, set_column0, it_appended, time_normalised.
  cbn [ncols rows].
  destruct (rows a ++ [[0%float; j; t]]) as [|r0 l] eqn:E.
  { by destruct (rows a). }
  eexists. split; [reflexivity|].
  rewrite length_map, Nat.eqb_refl. f_equal. f_equal.
  apply (zip_map_self (fun rx : list float * float => snd rx :: tail (fst rx))).
Qed.

Lemma it_on_message_data g payload s0 rest old pdata payload' ev t j tf jf :
  items (latest g) = s0 :: rest ->
  heap g !! snap_data s0 = Some old ->
  ncols old = 3 ->
  clear_flag payload = Ok false ->
  IT.process_ivt payload "it_measurement" g = (Ok (pdata, payload'), add_effects [ev] g) ->
  getitem_idx pdata 2 = Ok t -> getitem_idx pdata 4 = Ok j ->
  to_float t = Some tf -> to_float j = Some jf ->
  IT.on_message (it_message payload) g =
    (Ok tt,
     mk_globals
       (deque_append (latest g) (mk_snapshot payload' (length (heap g))))
       (paused g) (config g) (heap g ++ [it_appended old jf tf])
       (effects g ++ [ev; EvLatest (mk_snapshot payload' (length (heap g)))])).
Proof.
  intros Hi Hh Hc Hcl Hp Ht Hj Htf Hjf.
  unfold clear_flag in Hcl.
  destruct (getitem_key payload "clear") as [c|] eqn:Ec; [|discriminate].
  injection Hcl as Hcl.
  unfold IT.on_message, it_message, bind, lift, latest_first. cbn [msg_topic msg_payload pickle_dumps pickle_loads].
  cbn [String.eqb it_topic Ascii.eqb Bool.eqb]. rewrite Hi, Ec, Hcl, Hp.
  cbn [fst snd]. rewrite Ht, Hj.
  cbn [np_array float_rows float_row floats_of to_float]. rewrite Htf, Hjf.
  cbn [forallb length]. unfold deref. cbn [heap add_effects]. rewrite Hh.
  unfold append_axis0. cbn [ncols rows]. rewrite Hc. cbn [Nat.eqb].
  destruct (normalise_rows old jf tf Hc) as (ts & -> & ->).
  unfold alloc, latest_append. cbn. rewrite <- app_assoc. reflexivity.
Qed.

Lemma getitem_idx_list_inv a i x :
  list_append a x = Ok (VList i) -> exists xs, a = VList xs /\ i = xs ++ [x].
Proof. destruct a; try discriminate. intros [= <-]. eauto. Qed.

Lemma process_ivt_inv payload kind g x g' :
  IT.process_ivt payload kind g = (Ok x, g') ->
  exists raw d0 d1 area v i a,
    getitem_key payload "data" = Ok (VList raw) /\
    raw !! 0 = Some d0 /\ raw !! 1 = Some d1 /\
    to_float d0 = Some v /\ to_float d1 = Some i /\
    area_of payload = Ok area /\ to_float area = Some a /\
    PrimFloat.eqb a 0 = false.
Proof.
  unfold IT.process_ivt, bind, lift, ret, _publish, emit. intros H.
  cbn beta iota in H.
  repeat step; try discriminate.
  destruct a; try discriminate.
  cbn in E2, E5.
  destruct (xs !! 1) as [d1|] eqn:H1; [|discriminate].
  destruct (xs !! 0) as [d0|] eqn:H0; [|discriminate].
  injection E2 as <-. injection E5 as <-.
  apply py_mul_inv in E3 as (i & k & Hi & Hk & ->).
  apply py_truediv_inv in E4 as (ik & ar & Hik & Har & Hnz & ->).
  apply py_mul_inv in E6 as (v & jj & Hv & Hjj & ->).
  exists xs, d0, d1, a1, v, i, ar.
  unfold area_of. rewrite E0. auto 10.
Qed.

Lemma process_ivt_spec payload kind g pdata payload' g' :
  IT.process_ivt payload kind g = (Ok (pdata, payload'), g') ->
  g' = add_effects [EvPublish ("data/processed/" ++ kind) (pickle_dumps payload')] g /\
  exists raw d0 d1 area v i a,
    getitem_key payload "data" = Ok (VList raw) /\
    raw !! 0 = Some d0 /\ raw !! 1 = Some d1 /\
    to_float d0 = Some v /\ to_float d1 = Some i /\
    area_of payload = Ok area /\ to_float area = Some a /\
    PrimFloat.eqb a 0 = false /\
    pdata = VList (raw ++ [VFloat (current_density i a);
                           VFloat (power v (current_density i a))]) /\
    setitem_key payload "data" pdata = Ok payload'.
Proof.
  intros H.
  destruct (process_ivt_inv _ _ _ _ _ H)
    as (raw & d0 & d1 & area & v & i & a & Hd & H0 & H1 & Hv & Hi & Ha & Haf & Hnz).
  destruct (process_ivt_ok payload kind raw d0 d1 area v i a g Hd H0 H1 Hv Hi Ha Haf Hnz)
    as (p' & Hset & Hrun).
  rewrite Hrun in H. injection H as <- <- <-.
  split; [reflexivity|].
  exists raw, d0, d1, area, v, i, a. auto 12.
Qed.

Lemma row_array_inv j t row :
  np_array (VList [VList [VFloat 0%float; j; t]]) = Ok row ->
  exists jf tf, to_float j = Some jf /\ to_float t = Some tf /\
                row = mk_ndarray 3 [[0%float; jf; tf]].
Proof.
  cbn [np_array float_rows float_row floats_of to_float].
  destruct (to_float j) as [jf|], (to_float t) as [tf|]; try discriminate.
  cbn. intros [= <-]. eauto.
Qed.

Lemma it_on_message_data_inv g payload g' :
  clear_flag payload = Ok false ->
  IT.on_message (it_message payload) g = (Ok tt, g') ->
  exists s0 rest old pdata payload' t j tf jf,
    items (latest g) = s0 :: rest /\
    heap g !! snap_data s0 = Some old /\
    ncols old = 3 /\
    IT.process_ivt payload "it_measurement" g =
      (Ok (pdata, payload'),
       add_effects [EvPublish "data/processed/it_measurement" (pickle_dumps payload')] g) /\
    getitem_idx pdata 2 = Ok t /\ getitem_idx pdata 4 = Ok j /\
    to_float t = Some tf /\ to_float j = Some jf.
Proof.
  intros Hcl H.
  unfold clear_flag in Hcl.
  destruct (getitem_key payload "clear") as [c|] eqn:Ec; [|discriminate].
  injection Hcl as Hcl.
  unfold IT.on_message, it_message, bind, lift, latest_first in H.
  cbn [msg_topic msg_payload pickle_dumps pickle_loads] in H.
  cbn [String.eqb it_topic Ascii.eqb Bool.eqb] in H.
  destruct (items (latest g)) as [|s0 rest] eqn:Hi; [discriminate|].
  rewrite Ec, Hcl in H.
  destruct (IT.process_ivt payload "it_measurement" g) as [[[pdata payload']|e] g1] eqn:Hp;
    [|discriminate].
  apply process_ivt_spec in Hp as Hs. destruct Hs as [-> _].
  cbn [fst snd] in H.
  destruct (getitem_idx pdata 2) as [t|] eqn:Ht; [|discriminate].
  destruct (getitem_idx pdata 4) as [j|] eqn:Hj; [|discriminate].
  destruct (np_array _) as [row|] eqn:Hrow; [|discriminate].
  apply row_array_inv in Hrow as (jf & tf & Hjf & Htf & ->).
  unfold deref in H. cbn [heap add_effects] in H.
  destruct (heap g !! snap_data s0) as [old|] eqn:Hh; [|discriminate].
  unfold append_axis0 in H. cbn [ncols] in H.
  destruct (Nat.eqb (ncols old) 3) eqn:Hc; [|discriminate].
  apply Nat.eqb_eq in Hc.
  exists s0, rest, old, pdata, payload', t, j, tf, jf. auto 12.
Qed.

Lemma map_fmap {A B} (f : A -> B) (l : list A) : map f l = f <$> l.
Proof. induction l as [|x l IH]; [reflexivity|]. cbn. by rewrite IH. Qed.

Lemma deque_append_single {A} (d : deque A) (x : A) :
  maxlen d = 1 -> items (deque_append d x) = [x].
Proof.
  intros H. unfold deque_append. cbn [items]. rewrite H, length_app. cbn [length].
  replace (length (items d) + 1 - 1) with (length (items d)) by lia.
  by rewrite drop_app_length.
Qed.

Lemma nth2_set_head (x : float) (r : list float) :
  nth 2 (x :: tail r) 0%float = nth 2 r 0%float.
Proof. by destruct r as [|a [|b [|c r]]]. Qed.

Lemma time_normalised_raw_times (rs : list (list float)) :
  map (fun r => nth 2 r 0%float) (time_normalised rs)
  = map (fun r => nth 2 r 0%float) rs.
Proof.
  destruct rs as [|r0 l]; [reflexivity|].
  unfold time_normalised. rewrite map_map. apply map_ext.
  intros r. apply nth2_set_head.
Qed.

Lemma time_normalised_offsets (rs : list (list float)) i r :
  time_normalised rs !! i = Some r ->
  exists r0, time_normalised rs !! 0 = Some r0 /\
             nth 0 r 0%float = (nth 2 r 0 - nth 2 r0 0)%float.
Proof.
  destruct rs as [|r0 l]; [intros H; by destruct i|].
  unfold time_normalised. rewrite map_fmap. intros H.
  apply list_lookup_fmap_Some in H as (ri & -> & _).
  eexists. split; [reflexivity|].
  by rewrite !nth2_set_head.
Qed.

Lemma latest_series_appended g q c e m a :
  maxlen (latest g) = 1 ->
  latest_series
    (mk_globals (deque_append (latest g) (mk_snapshot m (length (heap g))))
       q c (heap g ++ [a]) e) = Some a.
Proof.
  intros Hm. unfold latest_series, read_latest, series_of. cbn [latest heap].
  rewrite deque_append_single by done. cbn [head snap_data].
  by rewrite list_lookup_middle.
Qed.

(** C2: in the current-vs-time handler, once a non-clear data message has
    been folded in, every row of the series has as its first column its own
    raw time (column 2) minus the raw time of row 0. The new series is the
    old one with the new row appended and the first column recomputed for
    all rows, whatever the first column of the old series held; the raw
    times are those of the old series followed by the new one. Raw times
    100.0, 100.5, 101.2 folded in one message at a time give the offsets
    0.0, 0.5 and 101.2 - 100.0, which is 1.2 up to the rounding of
    binary64 (1.2000000000000028). *)
Theorem it_time_offsets_renormalised :
  (forall g payload g',
      maxlen (latest g) = 1 ->
      clear_flag payload = Ok false ->
      IT.on_message (it_message payload) g = (Ok tt, g') ->
      exists old new j t,
        latest_series g = Some old /\
        latest_series g' = Some new /\
        rows new = time_normalised (rows old ++ [[0%float; j; t]]) /\
        (forall i r, rows new !! i = Some r ->
           exists r0, rows new !! 0 = Some r0 /\
                      nth 0 r 0%float = (nth 2 r 0 - nth 2 r0 0)%float) /\
        map (fun r => nth 2 r 0%float) (rows new)
          = map (fun r => nth 2 r 0%float) (rows old) ++ [t])
  /\
  (let m t := it_message (it_record [0.6; 0.005; t; 0]%float 0.1) in
   let offsets g := option_map (fun a => map (fun r => nth 0 r 0%float) (rows a))
                      (latest_series g) in
   offsets (run IT.on_message [m 100.0%float] IT.init) = Some [0%float] /\
   offsets (run IT.on_message [m 100.0; m 100.5]%float IT.init)
     = Some [0; 0.5]%float /\
   offsets (run IT.on_message [m 100.0; m 100.5; m 101.2]%float IT.init)
     = Some [0; 0.5; 101.2 - 100.0]%float /\
   PrimFloat.ltb (abs ((101.2 - 100.0) - 1.2)) 1e-14 = true).
Proof.
  split.
  - intros g payload g' Hm Hcl H.
    destruct (it_on_message_data_inv g payload g' Hcl H)
      as (s0 & rest & old & pdata & payload' & t & j & tf & jf
          & Hi & Hh & Hc & Hp & Ht & Hj & Htf & Hjf).
    rewrite (it_on_message_data g payload s0 rest old pdata payload' _ t j tf jf
               Hi Hh Hc Hcl Hp Ht Hj Htf Hjf) in H.
    injection H as <-.
    exists old, (it_appended old jf tf), jf, tf.
    split; [|split; [|split; [|split]]].
    + unfold latest_series, read_latest, series_of. by rewrite Hi.
    + by apply latest_series_appended.
    + reflexivity.
    + intros i r. apply time_normalised_offsets.
    + cbn [it_appended rows]. rewrite time_normalised_raw_times, map_app.
      reflexivity.
  - repeat split; vm_compute; reflexivity.
Qed.

Lemma it_time_offsets_renormalised_witness :
  exists old new j t,
    latest_series IT.init = Some old /\
    latest_series (snd (IT.on_message (it_message (it_record [0.6; 0.005; 100; 0]%float 0.1)) IT.init)) = Some new /\
    rows new = time_normalised (rows old ++ [[0%float; j; t]]) /\
    (forall i r, rows new !! i = Some r ->
       exists r0, rows new !! 0 = Some r0 /\
                  nth 0 r 0%float = (nth 2 r 0 - nth 2 r0 0)%float) /\
    map (fun r => nth 2 r 0%float) (rows new)
      = map (fun r => nth 2 r 0%float) (rows old) ++ [t].
Proof.
  apply (proj1 it_time_offsets_renormalised IT.init
           (it_record [0.6; 0.005; 100; 0]%float 0.1)).
  - reflexivity.
  - reflexivity.
  - vm_compute. reflexivity.
Defined.

(** C1: the processor appends to each data row the current density
    j = raw_current * 1000 / area and the power p = raw_voltage * j as two
    trailing columns (raw voltage at index 0, raw current at index 1):
    [process_ivt] appends the two scalars to the single row of a
    current-vs-time record, [process_iv] appends them to every row of a
    current-vs-voltage sweep in one pass; both hand the record with the
    extended data to the publisher. With I = 0.005, V = 0.6 and A = 0.1,
    j = 50.0 and p = 30.0. *)
Theorem derived_quantities_appended :
  (forall payload kind raw d0 d1 area v i a g,
      getitem_key payload "data" = Ok (VList raw) ->
      raw !! 0 = Some d0 -> raw !! 1 = Some d1 ->
      to_float d0 = Some v -> to_float d1 = Some i ->
      area_of payload = Ok area -> to_float area = Some a ->
      PrimFloat.eqb a 0 = false ->
      exists payload',
        setitem_key payload "data"
          (VList (raw ++ [VFloat (current_density i a);
                          VFloat (power v (current_density i a))])) = Ok payload' /\
        IT.process_ivt payload kind g =
          (Ok (VList (raw ++ [VFloat (current_density i a);
                              VFloat (power v (current_density i a))]), payload'),
           add_effects
             [EvPublish ("data/processed/" ++ kind) (pickle_dumps payload')] g))
  /\
  (forall payload raw m area a g,
      getitem_key payload "data" = Ok raw ->
      np_array raw = Ok m ->
      2 <= ncols m ->
      area_of payload = Ok area -> to_float area = Some a ->
      exists payload',
        setitem_key payload "data"
          (tolist (mk_ndarray (S (S (ncols m))) (map (augment_row a) (rows m))))
          = Ok payload' /\
        IV.process_iv payload g =
          (Ok (mk_ndarray (S (S (ncols m))) (map (augment_row a) (rows m)), payload'),
           add_effects
             [EvPublish "data/processed/iv_measurement" (pickle_dumps payload')] g))
  /\
  (current_density 0.005 0.1 = 50%float /\
   power 0.6 (current_density 0.005 0.1) = 30%float /\
   fst (IT.process_ivt (it_record [0.6; 0.005; 100; 0]%float 0.1) "it_measurement" IT.init)
     = Ok (VList (map VFloat [0.6; 0.005; 100; 0; 50; 30]%float),
           it_record [0.6; 0.005; 100; 0; 50; 30]%float 0.1) /\
   fst (IV.process_iv (iv_record [[0.6; 0.005; 100; 0]; [0.7; 0.004; 100.1; 0]]%float 0.1) IV.init)
     = Ok (mk_ndarray 6 [[0.6; 0.005; 100; 0; 50; 30]; [0.7; 0.004; 100.1; 0; 40; 28]]%float,
           iv_record [[0.6; 0.005; 100; 0; 50; 30]; [0.7; 0.004; 100.1; 0; 40; 28]]%float 0.1) /\
   augment_row 0.1 [0.6; 0.005; 100; 0]%float = [0.6; 0.005; 100; 0; 50; 30]%float).
Proof.
  split; [|split].
  - intros. eapply process_ivt_ok; eassumption.
  - intros. eapply process_iv_ok; eassumption.
  - repeat split; vm_compute; reflexivity.
Qed.

Lemma derived_quantities_appended_witness :
  exists payload',
    setitem_key (it_record [0.6; 0.005; 100; 0]%float 0.1) "data"
      (VList (map VFloat [0.6; 0.005; 100; 0]%float ++
              [VFloat (current_density 0.005 0.1);
               VFloat (power 0.6 (current_density 0.005 0.1))])) = Ok payload' /\
    IT.process_ivt (it_record [0.6; 0.005; 100; 0]%float 0.1) "it_measurement" IT.init =
      (Ok (VList (map VFloat [0.6; 0.005; 100; 0]%float ++
                  [VFloat (current_density 0.005 0.1);
                   VFloat (power 0.6 (current_density 0.005 0.1))]), payload'),
       add_effects
         [EvPublish ("data/processed/" ++ "it_measurement") (pickle_dumps payload')]
         IT.init).
Proof.
  apply (proj1 derived_quantities_appended
           (it_record [0.6; 0.005; 100; 0]%float 0.1) "it_measurement"
           (map VFloat [0.6; 0.005; 100; 0]%float)
           (VFloat 0.6) (VFloat 0.005) (VFloat 0.1) 0.6%float 0.005%float 0.1%float);
    reflexivity.
Defined.

Lemma single_slot_inv {A} (d : deque A) :
  single_slot d = true -> maxlen d = 1 /\ exists s, items d = [s].
Proof.
  unfold single_slot. intros H. apply andb_true_iff in H as [Hm Hl].
  apply Nat.eqb_eq in Hm, Hl. split; [done|].
  destruct (items d) as [|s [|? ?]]; try discriminate. eauto.
Qed.

Lemma it_on_message_clear g payload s0 rest :
  items (latest g) = s0 :: rest ->
  clear_flag payload = Ok true ->
  IT.on_message (it_message payload) g =
    (Ok tt,
     mk_globals
       (deque_append (latest g) (mk_snapshot payload (length (heap g))))
       (paused g) (config g) (heap g ++ [np_empty0 3])
       (effects g ++ [EvPrint "it clear" None;
                      EvLatest (mk_snapshot payload (length (heap g)))])).
Proof.
  intros Hi Hcl. unfold clear_flag in Hcl.
  destruct (getitem_key payload "clear") as [c|] eqn:Ec; [|discriminate].
  injection Hcl as Hcl.
  unfold IT.on_message, it_message, bind, lift, latest_first.
  cbn [msg_topic msg_payload pickle_dumps pickle_loads].
  cbn [String.eqb it_topic Ascii.eqb Bool.eqb]. rewrite Hi, Ec, Hcl.
  unfold print, emit, alloc, latest_append. cbn. rewrite <- app_assoc. reflexivity.
Qed.

Lemma iv_on_message_clear g payload s0 rest :
  items (latest g) = s0 :: rest ->
  clear_flag payload = Ok true ->
  IV.on_message (iv_message payload) g =
    (Ok tt,
     mk_globals
       (deque_append (latest g) (mk_snapshot payload (length (heap g))))
       (paused g) (config g) (heap g ++ [np_empty0 4])
       (effects g ++ [EvPrint "iv clear" None;
                      EvLatest (mk_snapshot payload (length (heap g)))])).
Proof.
  intros Hi Hcl. unfold clear_flag in Hcl.
  destruct (getitem_key payload "clear") as [c|] eqn:Ec; [|discriminate].
  injection Hcl as Hcl.
  unfold IV.on_message, iv_message, bind, lift, latest_first.
  cbn [msg_topic msg_payload pickle_dumps pickle_loads].
  cbn [String.eqb iv_topic Ascii.eqb Bool.eqb]. rewrite Hi, Ec, Hcl.
  unfold print, emit, alloc, latest_append. cbn. rewrite <- app_assoc. reflexivity.
Qed.

(** C6: a data message whose [clear] is [True] resets the series of its
    kind to an array of zero rows, with 3 columns for current-vs-time and
    4 for current-vs-voltage, whatever had been accumulated. The handler
    does not call the processor for it: its only effects are the line on
    stdout and the append of the new snapshot, whose message is the
    payload as it was decoded; no publisher is started. *)
Theorem clear_resets_series :
  forall g payload,
    single_slot (latest g) = true ->
    clear_flag payload = Ok true ->
    (exists g' snap,
        IT.on_message (it_message payload) g = (Ok tt, g') /\
        latest_series g' = Some (np_empty0 3) /\
        shape (np_empty0 3) = (0, 3) /\
        read_latest g' = Some snap /\ snap_msg snap = payload /\
        effects g' = effects g ++ [EvPrint "it clear" None; EvLatest snap] /\
        no_publish [EvPrint "it clear" None; EvLatest snap] = true)
    /\
    (exists g' snap,
        IV.on_message (iv_message payload) g = (Ok tt, g') /\
        latest_series g' = Some (np_empty0 4) /\
        shape (np_empty0 4) = (0, 4) /\
        read_latest g' = Some snap /\ snap_msg snap = payload /\
        effects g' = effects g ++ [EvPrint "iv clear" None; EvLatest snap] /\
        no_publish [EvPrint "iv clear" None; EvLatest snap] = true).
Proof.
  intros g payload Hs Hcl.
  apply single_slot_inv in Hs as [Hm [s0 Hi]].
  split.
  - eexists _, (mk_snapshot payload (length (heap g))).
    split; [exact (it_on_message_clear g payload s0 [] Hi Hcl)|].
    split; [by apply latest_series_appended|].
    split; [reflexivity|].
    split; [|auto].
    unfold read_latest. cbn [latest]. by rewrite deque_append_single.
  - eexists _, (mk_snapshot payload (length (heap g))).
    split; [exact (iv_on_message_clear g payload s0 [] Hi Hcl)|].
    split; [by apply latest_series_appended|].
    split; [reflexivity|].
    split; [|auto].
    unfold read_latest. cbn [latest]. by rewrite deque_append_single.
Qed.

Lemma clear_resets_series_witness :
  let g := run IT.on_message
             [it_message (it_record [0.6; 0.005; 100.0; 0]%float 0.1);
              it_message (it_record [0.6; 0.005; 100.5; 0]%float 0.1);
              it_message (it_record [0.6; 0.005; 101.2; 0]%float 0.1)] IT.init in
  option_map shape (latest_series g) = Some (3, 3) /\
  exists g' snap,
    IT.on_message (it_message clear_record) g = (Ok tt, g') /\
    latest_series g' = Some (np_empty0 3) /\
    shape (np_empty0 3) = (0, 3) /\
    read_latest g' = Some snap /\ snap_msg snap = clear_record /\
    effects g' = effects g ++ [EvPrint "it clear" None; EvLatest snap] /\
    no_publish [EvPrint "it clear" None; EvLatest snap] = true.
Proof.
  split; [reflexivity|].
  apply (clear_resets_series
           (run IT.on_message
             [it_message (it_record [0.6; 0.005; 100.0; 0]%float 0.1);
              it_message (it_record [0.6; 0.005; 100.5; 0]%float 0.1);
              it_message (it_record [0.6; 0.005; 101.2; 0]%float 0.1)] IT.init)
           clear_record); reflexivity.
Defined.

Lemma columns_04 (pdata : ndarray) :
  5 <= ncols pdata ->
  columns [0; 4] pdata = Ok (mk_ndarray 2 (scan_rows pdata)).
Proof.
  intros H. unfold columns. cbn [forallb].
  assert (H0 : Nat.ltb 0 (ncols pdata) = true) by (apply Nat.ltb_lt; lia).
  assert (H4 : Nat.ltb 4 (ncols pdata) = true) by (apply Nat.ltb_lt; lia).
  by rewrite H0, H4.
Qed.

Lemma columns_04_inv (pdata scan : ndarray) :
  columns [0; 4] pdata = Ok scan ->
  5 <= ncols pdata /\ scan = mk_ndarray 2 (scan_rows pdata).
Proof.
  unfold columns. cbn [forallb].
  destruct (Nat.ltb 0 (ncols pdata)) eqn:H0; [|discriminate].
  destruct (Nat.ltb 4 (ncols pdata)) eqn:H4; [|discriminate].
  cbn. intros [= <-]. apply Nat.ltb_lt in H4. split; [lia|reflexivity].
Qed.

Lemma zip_replicate_r {A B C} (f : A * B -> C) (l : list A) (z : B) :
  map f (zip l (replicate (length l) z)) = map (fun x => f (x, z)) l.
Proof. induction l as [|x l IH]; [reflexivity|]. cbn. by rewrite IH. Qed.

Lemma iv_on_message_seed g payload s0 rest old pdata payload' ev :
  items (latest g) = s0 :: rest ->
  heap g !! snap_data s0 = Some old ->
  rows old = [] ->
  clear_flag payload = Ok false ->
  IV.process_iv payload g = (Ok (pdata, payload'), add_effects [ev] g) ->
  5 <= ncols pdata ->
  IV.on_message (iv_message payload) g =
    (Ok tt,
     mk_globals
       (deque_append (latest g) (mk_snapshot payload' (length (heap g))))
       (paused g) (config g)
       (heap g ++ [mk_ndarray 4 (map (fun r => r ++ [0; 0]%float) (scan_rows pdata))])
       (effects g ++ [ev; EvLatest (mk_snapshot payload' (length (heap g)))])).
Proof.
  intros Hi Hh Hr Hcl Hp Hc.
  unfold clear_flag in Hcl.
  destruct (getitem_key payload "clear") as [c|] eqn:Ec; [|discriminate].
  injection Hcl as Hcl.
  unfold IV.on_message, iv_message, bind, lift, latest_first.
  cbn [msg_topic msg_payload pickle_dumps pickle_loads].
  cbn [String.eqb iv_topic Ascii.eqb Bool.eqb]. rewrite Hi, Ec, Hcl, Hp.
  cbn [fst snd]. unfold deref. cbn [heap add_effects]. rewrite Hh, Hr.
  cbn [length Nat.eqb]. rewrite (columns_04 pdata Hc).
  unfold append_axis1, np_zeros. cbn [rows ncols].
  rewrite length_replicate, Nat.eqb_refl.
  rewrite (zip_replicate_r (fun rr : list float * list float => fst rr ++ snd rr)).
  unfold alloc, latest_append. cbn. rewrite <- app_assoc. reflexivity.
Qed.

Lemma iv_on_message_overwrite g payload s0 rest old pdata payload' ev :
  items (latest g) = s0 :: rest ->
  heap g !! snap_data s0 = Some old ->
  rows old <> [] ->
  clear_flag payload = Ok false ->
  IV.process_iv payload g = (Ok (pdata, payload'), add_effects [ev] g) ->
  5 <= ncols pdata ->
  ncols old = 4 ->
  IV.on_message (iv_message payload) g =
    match broadcast_rows (length (rows old)) (scan_rows pdata) with
    | Some brows =>
        (Ok tt,
         mk_globals
           (deque_append (latest g) (mk_snapshot payload' (snap_data s0)))
           (paused g) (config g)
           (<[snap_data s0 :=
                mk_ndarray 4 (map (fun rr => take 2 (fst rr) ++ snd rr)
                                (zip (rows old) brows))]> (heap g))
           (effects g ++ [ev; EvLatest (mk_snapshot payload' (snap_data s0))]))
    | None => (Raise ValueError, add_effects [ev] g)
    end.
Proof.
  intros Hi Hh Hr Hcl Hp Hc Ho.
  unfold clear_flag in Hcl.
  destruct (getitem_key payload "clear") as [c|] eqn:Ec; [|discriminate].
  injection Hcl as Hcl.
  unfold IV.on_message, iv_message, bind, lift, latest_first.
  cbn [msg_topic msg_payload pickle_dumps pickle_loads].
  cbn [String.eqb iv_topic Ascii.eqb Bool.eqb]. rewrite Hi, Ec, Hcl, Hp.
  cbn [fst snd]. unfold deref. cbn [heap add_effects]. rewrite Hh.
  destruct (rows old) as [|r0 rs] eqn:Hrows; [done|].
  cbn [length Nat.eqb]. rewrite (columns_04 pdata Hc).
  unfold assign_from_column2, broadcast, broadcast_cols. cbn [ncols rows].
  rewrite Ho, Hrows. cbn [Nat.sub Nat.eqb length].
  destruct (broadcast_rows (S (length rs)) (scan_rows pdata)) as [brows|]; [|reflexivity].
  unfold store, latest_append. cbn. rewrite <- app_assoc. reflexivity.
Qed.

Lemma floats_of_length vs fs : floats_of vs = Some fs -> length fs = length vs.
Proof.
  revert fs. induction vs as [|v vs IH]; intros fs; cbn.
  - by intros [= <-].
  - destruct (to_float v); [|discriminate].
    destruct (floats_of vs) as [xs|]; [|discriminate].
    intros [= <-]. cbn. by rewrite (IH xs).
Qed.

Lemma np_array_shape raw m :
  np_array raw = Ok m ->
  rows m <> [] /\ Forall (fun r => length r = ncols m) (rows m).
Proof.
  unfold np_array. destruct raw as [| | |[|v vs]|]; try discriminate.
  destruct (float_rows (v :: vs)) as [[|fr frs]|]; try discriminate.
  destruct (forallb _ frs) eqn:Hall; [|discriminate].
  intros [= <-]. cbn [rows ncols]. split; [done|].
  constructor; [reflexivity|].
  apply Forall_forall. intros r Hr.
  rewrite forallb_forall in Hall. apply Nat.eqb_eq, Hall.
  by apply list_elem_of_In.
Qed.

Lemma scan_rows_augmented (a : float) (l : list (list float)) c :
  Forall (fun r => length r = 4) l ->
  scan_rows (mk_ndarray c (map (augment_row a) l))
  = map (fun r => [nth 0 r 0%float; current_density (nth 1 r 0%float) a]) l.
Proof.
  intros H. unfold scan_rows. cbn [rows]. rewrite map_map.
  induction H as [|r l Hr _ IH]; [reflexivity|].
  cbn [map]. rewrite IH. f_equal.
  destruct r as [|x0 [|x1 [|x2 [|x3 [|x4 r]]]]]; try discriminate.
  reflexivity.
Qed.

Lemma zip_map_r {A B C D} (f : A * B -> C) (g : D -> B) (l : list A) (l' : list D) :
  map f (zip l (map g l')) = zip_with (fun x y => f (x, g y)) l l'.
Proof.
  revert l'. induction l as [|x l IH]; intros [|y l']; try reflexivity.
  cbn. by rewrite IH.
Qed.

Lemma latest_series_inv g a :
  single_slot (latest g) = true ->
  latest_series g = Some a ->
  maxlen (latest g) = 1 /\
  exists s0, items (latest g) = [s0] /\ heap g !! snap_data s0 = Some a.
Proof.
  intros Hs Ha. apply single_slot_inv in Hs as [Hm [s0 Hi]].
  split; [done|]. exists s0. split; [done|].
  unfold latest_series, read_latest, series_of in Ha. by rewrite Hi in Ha.
Qed.

Lemma latest_series_stored g q c e m r a :
  maxlen (latest g) = 1 ->
  r < length (heap g) ->
  latest_series
    (mk_globals (deque_append (latest g) (mk_snapshot m r))
       q c (<[r := a]> (heap g)) e) = Some a.
Proof.
  intros Hm Hr. unfold latest_series, read_latest, series_of. cbn [latest heap].
  rewrite deque_append_single by done. cbn [head snap_data].
  by apply list_lookup_insert_eq.
Qed.

Lemma iv_seed_series g old p raw m area a :
  single_slot (latest g) = true ->
  latest_series g = Some old -> rows old = [] ->
  clear_flag p = Ok false ->
  getitem_key p "data" = Ok raw -> np_array raw = Ok m -> ncols m = 4 ->
  area_of p = Ok area -> to_float area = Some a ->
  exists g',
    IV.on_message (iv_message p) g = (Ok tt, g') /\
    latest_series g' = Some (mk_ndarray 4 (map (seeded_row a) (rows m))).
Proof.
  intros Hs Hold Hr Hcl Hd Hm Hc Ha Haf.
  destruct (latest_series_inv g old Hs Hold) as (Hml & s0 & Hi & Hh).
  destruct (process_iv_ok p raw m area a g Hd Hm ltac:(lia) Ha Haf) as (p' & _ & Hp).
  destruct (np_array_shape raw m Hm) as [_ Hlen]. rewrite Hc in Hlen.
  eexists. split.
  - eapply iv_on_message_seed; try eassumption. cbn [ncols]. lia.
  - rewrite scan_rows_augmented, map_map by done.
    by apply latest_series_appended.
Qed.

Lemma iv_overwrite_series g cur p raw m area a :
  single_slot (latest g) = true ->
  latest_series g = Some cur -> rows cur <> [] -> ncols cur = 4 ->
  clear_flag p = Ok false ->
  getitem_key p "data" = Ok raw -> np_array raw = Ok m -> ncols m = 4 ->
  area_of p = Ok area -> to_float area = Some a ->
  length (rows m) = length (rows cur) ->
  exists g',
    IV.on_message (iv_message p) g = (Ok tt, g') /\
    latest_series g' =
      Some (mk_ndarray 4 (zip_with (overwritten_row a) (rows cur) (rows m))).
Proof.
  intros Hs Hcur Hr Hcc Hcl Hd Hm Hc Ha Haf Hlen.
  destruct (latest_series_inv g cur Hs Hcur) as (Hml & s0 & Hi & Hh).
  destruct (process_iv_ok p raw m area a g Hd Hm ltac:(lia) Ha Haf) as (p' & _ & Hp).
  destruct (np_array_shape raw m Hm) as [_ Hl]. rewrite Hc in Hl.
  eexists. split.
  - rewrite (iv_on_message_overwrite g p s0 [] cur _ p' _ Hi Hh Hr Hcl Hp
               ltac:(cbn [ncols]; lia) Hcc).
    rewrite scan_rows_augmented by done.
    unfold broadcast_rows. rewrite length_map, Hlen, Nat.eqb_refl. reflexivity.
  - rewrite (zip_map_r (fun rr : list float * list float => take 2 (fst rr) ++ snd rr)).
    apply latest_series_stored; [done|].
    by eapply lookup_lt_Some.
Qed.

(** C3, as the code has it: in the current-vs-voltage handler, for sweeps
    whose rows have exactly four fields (voltage, current, time, status)
    and a numeric area, a non-clear sweep folded into an empty series
    gives a table with the sweep's (bias, j) in columns 0-1 and zeros in
    columns 2-3; a further non-clear sweep of as many rows as the stored
    series folded into a non-empty series puts its (bias, j) into columns
    2-3 and leaves the first two entries of every row as they were, so
    that columns 0-1 stay those of the first sweep through any number of
    later sweeps; a clear makes the series empty again. *)
Theorem iv_two_scan_overwrite :
  (forall g old p raw m area a,
      single_slot (latest g) = true ->
      latest_series g = Some old -> rows old = [] ->
      clear_flag p = Ok false ->
      getitem_key p "data" = Ok raw -> np_array raw = Ok m -> ncols m = 4 ->
      area_of p = Ok area -> to_float area = Some a ->
      exists g',
        IV.on_message (iv_message p) g = (Ok tt, g') /\
        latest_series g' = Some (mk_ndarray 4 (map (seeded_row a) (rows m))))
  /\
  (forall g cur p raw m area a,
      single_slot (latest g) = true ->
      latest_series g = Some cur -> rows cur <> [] -> ncols cur = 4 ->
      clear_flag p = Ok false ->
      getitem_key p "data" = Ok raw -> np_array raw = Ok m -> ncols m = 4 ->
      area_of p = Ok area -> to_float area = Some a ->
      length (rows m) = length (rows cur) ->
      exists g',
        IV.on_message (iv_message p) g = (Ok tt, g') /\
        latest_series g' =
          Some (mk_ndarray 4 (zip_with (overwritten_row a) (rows cur) (rows m))))
  /\
  (forall g p,
      single_slot (latest g) = true ->
      clear_flag p = Ok true ->
      exists g',
        IV.on_message (iv_message p) g = (Ok tt, g') /\
        latest_series g' = Some (np_empty0 4))
  /\
  (let A := iv_message (iv_record sweep_a 0.1) in
   let B := iv_message (iv_record sweep_b 0.1) in
   let C := iv_message (iv_record sweep_c 0.1) in
   let K := iv_message clear_record in
   latest_series (run IV.on_message [A] IV.init)
     = Some (mk_ndarray 4 [[0; 20; 0; 0]; [0.6; 50; 0; 0]]%float) /\
   latest_series (run IV.on_message [A; B] IV.init)
     = Some (mk_ndarray 4 [[0; 20; 0.6; 40]; [0.6; 50; 0; 10]]%float) /\
   latest_series (run IV.on_message [A; B; C] IV.init)
     = Some (mk_ndarray 4 [[0; 20; 0.3; 30]; [0.6; 50; 0.9; 60]]%float) /\
   latest_series (run IV.on_message [A; B; C; K] IV.init)
     = Some (np_empty0 4) /\
   latest_series (run IV.on_message [A; B; C; K; B] IV.init)
     = Some (mk_ndarray 4 [[0.6; 40; 0; 0]; [0; 10; 0; 0]]%float)).
Proof.
  split; [|split; [|split]].
  - intros. eapply iv_seed_series; eassumption.
  - intros. eapply iv_overwrite_series; eassumption.
  - intros g p Hs Hcl. apply single_slot_inv in Hs as [Hm [s0 Hi]].
    eexists. split; [exact (iv_on_message_clear g p s0 [] Hi Hcl)|].
    by apply latest_series_appended.
  - repeat split; vm_compute; reflexivity.
Qed.

Lemma iv_two_scan_overwrite_witness :
  (exists g',
      IV.on_message (iv_message (iv_record sweep_a 0.1)) IV.init = (Ok tt, g') /\
      latest_series g' = Some (mk_ndarray 4 (map (seeded_row 0.1) sweep_a)))
  /\
  (exists g',
      IV.on_message (iv_message (iv_record sweep_b 0.1))
        (run IV.on_message [iv_message (iv_record sweep_a 0.1)] IV.init) = (Ok tt, g') /\
      latest_series g' =
        Some (mk_ndarray 4 (zip_with (overwritten_row 0.1)
                              (map (seeded_row 0.1) sweep_a) sweep_b))).
Proof.
  split.
  - apply (proj1 iv_two_scan_overwrite IV.init (np_empty0 4)
             (iv_record sweep_a 0.1)
             (VList (map (fun r => VList (map VFloat r)) sweep_a))
             (mk_ndarray 4 sweep_a) (VFloat 0.1) 0.1%float); reflexivity.
  - apply (proj1 (proj2 iv_two_scan_overwrite)
             (run IV.on_message [iv_message (iv_record sweep_a 0.1)] IV.init)
             (mk_ndarray 4 (map (seeded_row 0.1) sweep_a))
             (iv_record sweep_b 0.1)
             (VList (map (fun r => VList (map VFloat r)) sweep_b))
             (mk_ndarray 4 sweep_b) (VFloat 0.1) 0.1%float);
      try reflexivity.
    discriminate.
Defined.

(** C3 as stated fails on a sweep whose rows do not have four fields, and
    on a later sweep of another number of rows. The sweep of one row
    (0.6, 0.005, 100) with area 0.1 is folded into the empty series and
    column 1 of the table holds the power 30, not the current density 50.
    A sweep of three rows folded into a series of two rows raises and the
    series stays as it was. *)
Lemma iv_three_field_sweep_stores_power :
  let p := iv_record [[0.6; 0.005; 100]]%float 0.1 in
  let g := run IV.on_message [iv_message (iv_record sweep_a 0.1)] IV.init in
  let q := iv_record [[0; 0.001; 20; 0]; [0.3; 0.002; 21; 0]; [0.6; 0.004; 22; 0]]%float 0.1 in
  latest_series IV.init = Some (np_empty0 4) /\
  fst (IV.on_message (iv_message p) IV.init) = Ok tt /\
  latest_series (snd (IV.on_message (iv_message p) IV.init))
    = Some (mk_ndarray 4 [[0.6; 30; 0; 0]]%float) /\
  current_density 0.005 0.1 = 50%float /\
  power 0.6 50 = 30%float /\
  latest_series g = Some (mk_ndarray 4 [[0; 20; 0; 0]; [0.6; 50; 0; 0]]%float) /\
  fst (IV.on_message (iv_message q) g) = Raise ValueError /\
  latest_series (snd (IV.on_message (iv_message q) g)) = latest_series g.
Proof. repeat split; vm_compute; reflexivity. Qed.

Lemma broadcast_rows_map (f : list float -> list float) n (l : list (list float)) :
  broadcast_rows n (map f l) = option_map (map f) (broadcast_rows n l).
Proof.
  unfold broadcast_rows. rewrite length_map.
  destruct (Nat.eqb (length l) n); [reflexivity|].
  destruct l as [|r [|r' l]]; try reflexivity.
  cbn. f_equal. induction n as [|n IH]; [reflexivity|]. cbn. by rewrite IH.
Qed.

Lemma zip_with_replicate_r {A B C} (f : A -> B -> C) (l : list A) (z : B) :
  zip_with f l (replicate (length l) z) = map (fun x => f x z) l.
Proof. induction l as [|x l IH]; [reflexivity|]. cbn. by rewrite IH. Qed.

Lemma scan_rows_processed (a : float) (l : list (list float)) c :
  Forall (fun r => r <> []) l ->
  scan_rows (mk_ndarray c (map (augment_row a) l)) = map (stored_pair a) l.
Proof.
  intros H. unfold scan_rows. cbn [rows]. rewrite map_map.
  induction H as [|r l Hr _ IH]; [reflexivity|].
  cbn [map]. rewrite IH. f_equal.
  by destruct r.
Qed.

Lemma stored_pair_four (a : float) (r : list float) :
  length r = 4 ->
  stored_pair a r = [nth 0 r 0%float; current_density (nth 1 r 0%float) a].
Proof.
  intros H. by destruct r as [|x0 [|x1 [|x2 [|x3 [|x4 r]]]]].
Qed.

Lemma rows_nonempty_of_width (l : list (list float)) n :
  1 <= n -> Forall (fun r => length r = n) l -> Forall (fun r => r <> []) l.
Proof.
  intros Hn H. eapply Forall_impl; [exact H|].
  intros [|x r]; cbn; [lia|done].
Qed.

Lemma iv_overwrite_any_width g cur p raw m area a :
  single_slot (latest g) = true ->
  latest_series g = Some cur -> rows cur <> [] -> ncols cur = 4 ->
  clear_flag p = Ok false ->
  getitem_key p "data" = Ok raw -> np_array raw = Ok m -> 3 <= ncols m ->
  area_of p = Ok area -> to_float area = Some a ->
  exists ev,
    match broadcast_rows (length (rows cur)) (rows m) with
    | Some brows =>
        exists g',
          IV.on_message (iv_message p) g = (Ok tt, g') /\
          latest_series g' =
            Some (mk_ndarray 4 (zip_with (overwritten_with a) (rows cur) brows))
    | None =>
        IV.on_message (iv_message p) g = (Raise ValueError, add_effects [ev] g)
    end.
Proof.
  intros Hs Hcur Hr Hcc Hcl Hd Hm Hc Ha Haf.
  destruct (latest_series_inv g cur Hs Hcur) as (Hml & s0 & Hi & Hh).
  destruct (process_iv_ok p raw m area a g Hd Hm ltac:(lia) Ha Haf) as (p' & _ & Hp).
  destruct (np_array_shape raw m Hm) as [_ Hl].
  apply (rows_nonempty_of_width _ (ncols m) ltac:(lia)) in Hl.
  eexists.
  rewrite (iv_on_message_overwrite g p s0 [] cur _ p' _ Hi Hh Hr Hcl Hp
             ltac:(cbn [ncols]; lia) Hcc).
  rewrite scan_rows_processed, broadcast_rows_map by done.
  destruct (broadcast_rows (length (rows cur)) (rows m)) as [brows|]; cbn [option_map].
  - eexists. split; [reflexivity|].
    rewrite (zip_map_r (fun rr : list float * list float => take 2 (fst rr) ++ snd rr)).
    apply latest_series_stored; [done|].
    by eapply lookup_lt_Some.
  - reflexivity.
Qed.

Lemma iv_narrow_sweep_raise g s0 rest old p raw m area a :
  items (latest g) = s0 :: rest ->
  heap g !! snap_data s0 = Some old ->
  clear_flag p = Ok false ->
  getitem_key p "data" = Ok raw -> np_array raw = Ok m -> ncols m < 3 ->
  area_of p = Ok area -> to_float area = Some a ->
  exists g',
    IV.on_message (iv_message p) g = (Raise IndexError, g') /\
    latest g' = latest g /\ heap g' = heap g.
Proof.
  intros Hi Hh Hcl Hd Hm Hc Ha Haf.
  unfold clear_flag in Hcl.
  destruct (getitem_key p "clear") as [c|] eqn:Ec; [|discriminate].
  injection Hcl as Hcl.
  destruct (Nat.le_gt_cases 2 (ncols m)) as [H2|H2].
  - destruct (process_iv_ok p raw m area a g Hd Hm H2 Ha Haf) as (p' & _ & Hp).
    eexists.
    unfold IV.on_message, iv_message, bind, lift, latest_first.
    cbn [msg_topic msg_payload pickle_dumps pickle_loads].
    cbn [String.eqb iv_topic Ascii.eqb Bool.eqb]. rewrite Hi, Ec, Hcl, Hp.
    cbn [fst snd]. unfold deref. cbn [heap add_effects]. rewrite Hh.
    unfold columns. cbn [forallb ncols].
    replace (ncols m) with 2 by lia. cbn [Nat.ltb Nat.leb andb].
    destruct (Nat.eqb (length (rows old)) 0); split; done.
  - exists g.
    unfold area_of in Ha.
    destruct (getitem_key p "pixel") as [pixel|] eqn:Hp; [|discriminate].
    unfold IV.on_message, iv_message, bind, lift, latest_first.
    cbn [msg_topic msg_payload pickle_dumps pickle_loads].
    cbn [String.eqb iv_topic Ascii.eqb Bool.eqb]. rewrite Hi, Ec, Hcl.
    unfold IV.process_iv, bind, lift. rewrite Hd, Hm, Hp, Ha.
    unfold column.
    assert (H1 : Nat.ltb 1 (ncols m) = false) by (apply Nat.ltb_ge; lia).
    rewrite H1. done.
Qed.

(** C9, as the code has it: folding a non-clear sweep into a non-empty
    current-vs-voltage series returns normally only if the sweep has as
    many rows as the series or exactly one row, and only if its rows have
    at least three fields. With rows of at least three fields it does
    return in both cases: a sweep of as many rows is written row by row
    into columns 2-3, a sweep of one row is broadcast into columns 2-3 of
    every stored row. For any other number of rows the handler raises
    (the assignment itself, with a ValueError, when the rows have at
    least three fields), and the series, the latest snapshot and the
    arrays stay as they were. What is written is entry 0 and entry 4 of
    the processed row, which for rows of four fields is (bias, j). *)
Theorem iv_overwrite_row_counts :
  forall g cur p raw m area a,
    single_slot (latest g) = true ->
    latest_series g = Some cur -> rows cur <> [] -> ncols cur = 4 ->
    clear_flag p = Ok false ->
    getitem_key p "data" = Ok raw -> np_array raw = Ok m ->
    area_of p = Ok area -> to_float area = Some a ->
    (forall g',
       IV.on_message (iv_message p) g = (Ok tt, g') ->
       3 <= ncols m /\
       (length (rows m) = length (rows cur) \/ length (rows m) = 1))
    /\
    (3 <= ncols m -> length (rows m) = length (rows cur) ->
     exists g',
       IV.on_message (iv_message p) g = (Ok tt, g') /\
       latest_series g' =
         Some (mk_ndarray 4 (zip_with (overwritten_with a) (rows cur) (rows m))))
    /\
    (3 <= ncols m -> forall r, rows m = [r] ->
     exists g',
       IV.on_message (iv_message p) g = (Ok tt, g') /\
       latest_series g' =
         Some (mk_ndarray 4 (map (fun old => overwritten_with a old r) (rows cur))))
    /\
    (length (rows m) <> length (rows cur) -> length (rows m) <> 1 ->
     exists e g',
       IV.on_message (iv_message p) g = (Raise e, g') /\
       (3 <= ncols m -> e = ValueError) /\
       latest_series g' = Some cur /\
       latest g' = latest g /\ heap g' = heap g)
    /\
    (ncols m = 4 ->
     forall old r, In r (rows m) -> overwritten_with a old r = overwritten_row a old r).
Proof.
  intros g cur p raw m area a Hs Hcur Hr Hcc Hcl Hd Hm Ha Haf.
  destruct (latest_series_inv g cur Hs Hcur) as (Hml & s0 & Hi & Hh).
  assert (Hnarrow : ncols m < 3 ->
            exists g', IV.on_message (iv_message p) g = (Raise IndexError, g') /\
                       latest g' = latest g /\ heap g' = heap g).
  { intros Hc. by eapply iv_narrow_sweep_raise. }
  assert (Hwide : 3 <= ncols m ->
            exists ev,
              match broadcast_rows (length (rows cur)) (rows m) with
              | Some brows =>
                  exists g',
                    IV.on_message (iv_message p) g = (Ok tt, g') /\
                    latest_series g' =
                      Some (mk_ndarray 4 (zip_with (overwritten_with a) (rows cur) brows))
              | None =>
                  IV.on_message (iv_message p) g = (Raise ValueError, add_effects [ev] g)
              end).
  { intros Hc. by eapply iv_overwrite_any_width. }
  assert (Hkeep : forall g', latest g' = latest g -> heap g' = heap g ->
                             latest_series g' = Some cur).
  { intros g' Hl Hhp. unfold latest_series, read_latest, series_of in *.
    by rewrite Hl, Hhp. }
  unfold broadcast_rows in Hwide.
  split; [|split; [|split; [|split]]].
  - intros g' Hok.
    destruct (Nat.le_gt_cases 3 (ncols m)) as [Hc|Hc].
    2:{ destruct (Hnarrow Hc) as (g'' & Hrun & _). congruence. }
    split; [done|]. destruct (Hwide Hc) as [ev H].
    destruct (Nat.eqb (length (rows m)) (length (rows cur))) eqn:E.
    { left. by apply Nat.eqb_eq. }
    destruct (rows m) as [|r [|r' l]]; [congruence|by right|congruence].
  - intros Hc Hlen. destruct (Hwide Hc) as [ev H].
    rewrite Hlen, Nat.eqb_refl in H. exact H.
  - intros Hc r Hrows. destruct (Hwide Hc) as [ev H].
    rewrite Hrows in H. cbn [length] in H.
    destruct (Nat.eqb 1 (length (rows cur))) eqn:E.
    + apply Nat.eqb_eq in E.
      destruct (rows cur) as [|old [|? ?]]; try discriminate. exact H.
    + by rewrite zip_with_replicate_r in H.
  - intros Hne H1.
    destruct (Nat.le_gt_cases 3 (ncols m)) as [Hc|Hc].
    2:{ destruct (Hnarrow Hc) as (g' & Hrun & Hl & Hhp).
        exists IndexError, g'. split; [done|]. split; [lia|]. auto. }
    destruct (Hwide Hc) as [ev H].
    destruct (Nat.eqb (length (rows m)) (length (rows cur))) eqn:E.
    { apply Nat.eqb_eq in E. done. }
    exists ValueError, (add_effects [ev] g).
    destruct (rows m) as [|r [|r' l]] eqn:Hrows; [|done|]; by repeat split.
  - intros Hc old r Hin. unfold overwritten_with, overwritten_row.
    rewrite stored_pair_four; [done|].
    destruct (np_array_shape raw m Hm) as [_ Hl]. rewrite Hc in Hl.
    rewrite Forall_forall in Hl. apply Hl. by apply list_elem_of_In.
Qed.

Lemma iv_overwrite_row_counts_witness :
  (exists g',
     IV.on_message (iv_message (iv_record [[0.3; 0.003; 14; 0]]%float 0.1))
       (run IV.on_message [iv_message (iv_record sweep_a 0.1)] IV.init) = (Ok tt, g') /\
     latest_series g' =
       Some (mk_ndarray 4
               (map (fun old => overwritten_with 0.1 old [0.3; 0.003; 14; 0]%float)
                  (map (seeded_row 0.1) sweep_a))))
  /\
  (exists g',
     IV.on_message (iv_message (iv_record [[0.3; 0.003; 14]]%float 0.1))
       (run IV.on_message [iv_message (iv_record sweep_a 0.1)] IV.init) = (Ok tt, g') /\
     latest_series g' =
       Some (mk_ndarray 4
               (map (fun old => overwritten_with 0.1 old [0.3; 0.003; 14]%float)
                  (map (seeded_row 0.1) sweep_a)))).
Proof.
  split.
  - apply (proj1 (proj2 (proj2 (iv_overwrite_row_counts
             (run IV.on_message [iv_message (iv_record sweep_a 0.1)] IV.init)
             (mk_ndarray 4 (map (seeded_row 0.1) sweep_a))
             (iv_record [[0.3; 0.003; 14; 0]]%float 0.1)
             (VList [VList (map VFloat [0.3; 0.003; 14; 0]%float)])
             (mk_ndarray 4 [[0.3; 0.003; 14; 0]%float]) (VFloat 0.1) 0.1%float
             eq_refl eq_refl ltac:(discriminate) eq_refl eq_refl eq_refl eq_refl
             eq_refl eq_refl)))).
    + cbn. lia.
    + reflexivity.
  - apply (proj1 (proj2 (proj2 (iv_overwrite_row_counts
             (run IV.on_message [iv_message (iv_record sweep_a 0.1)] IV.init)
             (mk_ndarray 4 (map (seeded_row 0.1) sweep_a))
             (iv_record [[0.3; 0.003; 14]]%float 0.1)
             (VList [VList (map VFloat [0.3; 0.003; 14]%float)])
             (mk_ndarray 3 [[0.3; 0.003; 14]%float]) (VFloat 0.1) 0.1%float
             eq_refl eq_refl ltac:(discriminate) eq_refl eq_refl eq_refl eq_refl
             eq_refl eq_refl)))).
    + cbn. lia.
    + reflexivity.
Defined.

(** C9 as stated fails: a series of two rows is stored, the incoming
    sweep has one row, and the handler returns normally with that row
    written into columns 2-3 of both stored rows. *)
Lemma iv_single_row_sweep_is_stored :
  let g := run IV.on_message [iv_message (iv_record sweep_a 0.1)] IV.init in
  let p := iv_record [[0.3; 0.003; 14; 0]]%float 0.1 in
  latest_series g = Some (mk_ndarray 4 [[0; 20; 0; 0]; [0.6; 50; 0; 0]]%float) /\
  fst (IV.on_message (iv_message p) g) = Ok tt /\
  latest_series (snd (IV.on_message (iv_message p) g))
    = Some (mk_ndarray 4 [[0; 20; 0.3; 30]; [0.6; 50; 0.3; 30]]%float).
Proof. repeat split; vm_compute; reflexivity. Qed.

Ltac unfold_handler H :=
  unfold IT.on_message, IV.on_message, read_config,
    bind, lift, ret, _publish, print, emit, latest_first, latest_append,
    paused_append, set_config, deref, alloc, store in H;
  cbn beta iota in H.

Ltac unfold_processor H :=
  unfold IT.process_ivt, IV.process_iv, bind, lift, ret, _publish, emit in H;
  cbn beta iota in H.

Lemma process_ivt_raise payload kind g e g' :
  IT.process_ivt payload kind g = (Raise e, g') -> g' = g.
Proof.
  intros H. unfold_processor H. by repeat (case_match; simplify_eq/=).
Qed.

Lemma process_iv_raise payload g e g' :
  IV.process_iv payload g = (Raise e, g') -> g' = g.
Proof.
  intros H. unfold_processor H. by repeat (case_match; simplify_eq/=).
Qed.

Lemma process_iv_effects payload g x g' :
  IV.process_iv payload g = (Ok x, g') ->
  g' = add_effects
         [EvPublish "data/processed/iv_measurement" (pickle_dumps (snd x))] g.
Proof.
  intros H. unfold_processor H. by repeat (case_match; simplify_eq/=).
Qed.

Lemma process_ivt_effects payload kind g x g' :
  IT.process_ivt payload kind g = (Ok x, g') ->
  g' = add_effects
         [EvPublish ("data/processed/" ++ kind) (pickle_dumps (snd x))] g.
Proof.
  intros H. unfold_processor H. by repeat (case_match; simplify_eq/=).
Qed.

Lemma it_raise_frame payload g e g' :
  IT.on_message (it_message payload) g = (Raise e, g') ->
  g' = g \/ exists x, IT.process_ivt payload "it_measurement" g = (Ok x, g').
Proof.
  intros H. unfold_handler H.
  cbn [it_message msg_topic msg_payload pickle_dumps pickle_loads
       String.eqb it_topic Ascii.eqb Bool.eqb] in H.
  repeat (case_match; simplify_eq/=); eauto using process_ivt_raise.
Qed.

Lemma iv_raise_frame payload g e g' :
  IV.on_message (iv_message payload) g = (Raise e, g') ->
  g' = g \/ exists x, IV.process_iv payload g = (Ok x, g').
Proof.
  intros H. unfold_handler H.
  cbn [iv_message msg_topic msg_payload pickle_dumps pickle_loads
       String.eqb iv_topic Ascii.eqb Bool.eqb] in H.
  repeat (case_match; simplify_eq/=); eauto using process_iv_raise.
Qed.
Lemma add_effects_frame evs g :
  latest (add_effects evs g) = latest g /\ heap (add_effects evs g) = heap g /\
  paused (add_effects evs g) = paused g /\ config (add_effects evs g) = config g.
Proof. done. Qed.




Lemma it_data_effects payload g g' :
  clear_flag payload = Ok false ->
  IT.on_message (it_message payload) g = (Ok tt, g') ->
  exists pdata payload' r,
    IT.process_ivt payload "it_measurement" g =
      (Ok (pdata, payload'),
       add_effects
         [EvPublish "data/processed/it_measurement" (pickle_dumps payload')] g) /\
    latest g' = deque_append (latest g) (mk_snapshot payload' r) /\
    effects g' = effects g ++
      [EvPublish "data/processed/it_measurement" (pickle_dumps payload');
       EvLatest (mk_snapshot payload' r)].
Proof.
  intros Hcl H.
  destruct (it_on_message_data_inv g payload g' Hcl H)
    as (s0 & rest & old & pdata & payload' & t & j & tf & jf
        & Hi & Hh & Hc & Hp & Ht & Hj & Htf & Hjf).
  rewrite (it_on_message_data g payload s0 rest old pdata payload' _ t j tf jf
             Hi Hh Hc Hcl Hp Ht Hj Htf Hjf) in H.
  injection H as <-. by exists pdata, payload', (length (heap g)).
Qed.

Lemma iv_data_effects payload g g' :
  clear_flag payload = Ok false ->
  IV.on_message (iv_message payload) g = (Ok tt, g') ->
  exists pdata payload' r,
    IV.process_iv payload g =
      (Ok (pdata, payload'),
       add_effects
         [EvPublish "data/processed/iv_measurement" (pickle_dumps payload')] g) /\
    latest g' = deque_append (latest g) (mk_snapshot payload' r) /\
    effects g' = effects g ++
      [EvPublish "data/processed/iv_measurement" (pickle_dumps payload');
       EvLatest (mk_snapshot payload' r)].
Proof.
  intros Hcl H. unfold clear_flag in Hcl.
  destruct (getitem_key payload "clear") as [c|] eqn:Ec; [|discriminate].
  injection Hcl as Hcl.
  unfold_handler H.
  cbn [iv_message msg_topic msg_payload pickle_dumps pickle_loads
       String.eqb iv_topic Ascii.eqb Bool.eqb] in H.
  rewrite Ec, Hcl in H.
  repeat (case_match; simplify_eq/=).
  all: match goal with
       | Hp : IV.process_iv _ _ = (Ok ?x, _) |- _ =>
           pose proof (process_iv_effects _ _ _ _ Hp); subst;
           destruct x as [pdata payload']
       end.
  all: eexists pdata, payload', _; cbn; rewrite <- ?app_assoc; eauto.
Qed.
(** C7, as the code has it: the payload is decoded first, and a payload
    that does not decode ends the handling with no effect. For a non-clear
    data message the processor computes the derived quantities and starts
    the publisher of the augmented record before it returns; only then
    does the handler fold the result into the series and append the new
    snapshot. The effects of such a message are the start of the publisher
    followed by the append to the latest-snapshot deque, both carrying the
    augmented record. *)
Theorem republish_precedes_cache_push :
  (forall t g,
      IT.on_message (mk_msg t garbage) g = (Raise UnpicklingError, g) /\
      IV.on_message (mk_msg t garbage) g = (Raise UnpicklingError, g))
  /\
  (forall payload g g',
      clear_flag payload = Ok false ->
      IT.on_message (it_message payload) g = (Ok tt, g') ->
      exists pdata payload' r,
        IT.process_ivt payload "it_measurement" g =
          (Ok (pdata, payload'),
           add_effects
             [EvPublish "data/processed/it_measurement" (pickle_dumps payload')] g) /\
        latest g' = deque_append (latest g) (mk_snapshot payload' r) /\
        effects g' = effects g ++
          [EvPublish "data/processed/it_measurement" (pickle_dumps payload');
           EvLatest (mk_snapshot payload' r)] /\
        push_before_publish
          [EvPublish "data/processed/it_measurement" (pickle_dumps payload');
           EvLatest (mk_snapshot payload' r)] = false)
  /\
  (forall payload g g',
      clear_flag payload = Ok false ->
      IV.on_message (iv_message payload) g = (Ok tt, g') ->
      exists pdata payload' r,
        IV.process_iv payload g =
          (Ok (pdata, payload'),
           add_effects
             [EvPublish "data/processed/iv_measurement" (pickle_dumps payload')] g) /\
        latest g' = deque_append (latest g) (mk_snapshot payload' r) /\
        effects g' = effects g ++
          [EvPublish "data/processed/iv_measurement" (pickle_dumps payload');
           EvLatest (mk_snapshot payload' r)] /\
        push_before_publish
          [EvPublish "data/processed/iv_measurement" (pickle_dumps payload');
           EvLatest (mk_snapshot payload' r)] = false).
Proof.
  split; [|split].
  - intros t g. split; reflexivity.
  - intros payload g g' Hcl H.
    destruct (it_data_effects payload g g' Hcl H) as (pdata & payload' & r & Hp & Hl & He).
    exists pdata, payload', r. auto.
  - intros payload g g' Hcl H.
    destruct (iv_data_effects payload g g' Hcl H) as (pdata & payload' & r & Hp & Hl & He).
    exists pdata, payload', r. auto.
Qed.

Lemma republish_precedes_cache_push_witness :
  exists pdata payload' r,
    IT.process_ivt (it_record [0.6; 0.005; 100; 0]%float 0.1) "it_measurement" IT.init =
      (Ok (pdata, payload'),
       add_effects
         [EvPublish "data/processed/it_measurement" (pickle_dumps payload')] IT.init) /\
    latest (snd (IT.on_message (it_message (it_record [0.6; 0.005; 100; 0]%float 0.1)) IT.init))
      = deque_append (latest IT.init) (mk_snapshot payload' r) /\
    effects (snd (IT.on_message (it_message (it_record [0.6; 0.005; 100; 0]%float 0.1)) IT.init))
      = effects IT.init ++
        [EvPublish "data/processed/it_measurement" (pickle_dumps payload');
         EvLatest (mk_snapshot payload' r)] /\
    push_before_publish
      [EvPublish "data/processed/it_measurement" (pickle_dumps payload');
       EvLatest (mk_snapshot payload' r)] = false.
Proof.
  apply (proj1 (proj2 republish_precedes_cache_push)
           (it_record [0.6; 0.005; 100; 0]%float 0.1) IT.init).
  - reflexivity.
  - vm_compute. reflexivity.
Defined.

(** C7 as stated fails: in the effects of one non-clear data message,
    from the initial globals of either plotter, the publisher of the
    augmented record is started before the snapshot is appended to the
    latest-snapshot deque. *)
Lemma publisher_started_before_push :
  effects (snd (IT.on_message (it_message (it_record [0.6; 0.005; 100; 0]%float 0.1)) IT.init))
    = [EvPublish "data/processed/it_measurement"
         (pickle_dumps (it_record [0.6; 0.005; 100; 0; 50; 30]%float 0.1));
       EvLatest (mk_snapshot (it_record [0.6; 0.005; 100; 0; 50; 30]%float 0.1) 1)]
  /\
  push_before_publish
    (effects (snd (IT.on_message
                     (it_message (it_record [0.6; 0.005; 100; 0]%float 0.1)) IT.init)))
    = false
  /\
  push_before_publish
    (effects (snd (IV.on_message (iv_message (iv_record sweep_a 0.1)) IV.init)))
    = false.
Proof. repeat split; vm_compute; reflexivity. Qed.

Lemma on_message_pause v g :
  IT.on_message (mk_msg pause_topic (pickle_dumps v)) g =
    (Ok tt,
     mk_globals (latest g) (deque_append (paused g) v) (config g) (heap g)
       (effects g ++ [EvPrint "pause: " (Some v); EvPaused v])) /\
  IV.on_message (mk_msg pause_topic (pickle_dumps v)) g =
    (Ok tt,
     mk_globals (latest g) (deque_append (paused g) v) (config g) (heap g)
       (effects g ++ [EvPrint "pause: " (Some v); EvPaused v])).
Proof.
  split.
  - unfold IT.on_message, bind, lift, print, emit, paused_append. cbn.
    rewrite <- app_assoc. reflexivity.
  - unfold IV.on_message, bind, lift, print, emit, paused_append. cbn.
    rewrite <- app_assoc. reflexivity.
Qed.

Lemma process_ivt_paused payload kind q g :
  IT.process_ivt payload kind (set_paused q g) =
    (fst (IT.process_ivt payload kind g),
     set_paused q (snd (IT.process_ivt payload kind g))).
Proof.
  unfold IT.process_ivt, bind, lift, ret, _publish, emit. cbn beta iota.
  repeat (case_match; simplify_eq/=); reflexivity.
Qed.

Lemma process_iv_paused payload q g :
  IV.process_iv payload (set_paused q g) =
    (fst (IV.process_iv payload g), set_paused q (snd (IV.process_iv payload g))).
Proof.
  unfold IV.process_iv, bind, lift, ret, _publish, emit. cbn beta iota.
  repeat (case_match; simplify_eq/=); reflexivity.
Qed.

Lemma it_on_message_paused m q g :
  msg_topic m <> pause_topic ->
  IT.on_message m (set_paused q g) =
    (fst (IT.on_message m g), set_paused q (snd (IT.on_message m g))).
Proof.
  intros Ht.
  unfold IT.on_message, read_config, bind, lift, ret, print, emit, latest_first,
    latest_append, paused_append, set_config, deref, alloc, store.
  cbn beta iota.
  repeat (first [rewrite process_ivt_paused | case_match; simplify_eq/=]);
    try reflexivity.
  all: match goal with H : String.eqb _ _ = true |- _ =>
         apply String.eqb_eq in H; contradiction end.
Qed.

Lemma iv_on_message_paused m q g :
  msg_topic m <> pause_topic ->
  IV.on_message m (set_paused q g) =
    (fst (IV.on_message m g), set_paused q (snd (IV.on_message m g))).
Proof.
  intros Ht.
  unfold IV.on_message, read_config, bind, lift, ret, print, emit, latest_first,
    latest_append, paused_append, set_config, deref, alloc, store.
  cbn beta iota.
  repeat (first [rewrite process_iv_paused | case_match; simplify_eq/=]);
    try reflexivity.
  all: match goal with H : String.eqb _ _ = true |- _ =>
         apply String.eqb_eq in H; contradiction end.
Qed.
(** C8: a pause message replaces the content of the one-slot pause deque
    by the decoded payload and, a line on stdout apart, changes nothing
    else: the latest snapshot, the arrays (so the series) and the config
    are as before. No handler reads the pause deque: for every message on
    another topic, handling it with any pause flag gives the same result
    and the same globals, the flag apart, as with any other. Both
    plotters. *)
Theorem pause_only_replaces_flag :
  (forall v g,
      maxlen (paused g) = 1 ->
      exists g',
        IT.on_message (mk_msg pause_topic (pickle_dumps v)) g = (Ok tt, g') /\
        IV.on_message (mk_msg pause_topic (pickle_dumps v)) g = (Ok tt, g') /\
        items (paused g') = [v] /\
        latest g' = latest g /\ heap g' = heap g /\ config g' = config g /\
        read_latest g' = read_latest g /\
        latest_series g' = latest_series g /\
        effects g' = effects g ++ [EvPrint "pause: " (Some v); EvPaused v])
  /\
  (forall m q g,
      msg_topic m <> pause_topic ->
      IT.on_message m (set_paused q g) =
        (fst (IT.on_message m g), set_paused q (snd (IT.on_message m g))))
  /\
  (forall m q g,
      msg_topic m <> pause_topic ->
      IV.on_message m (set_paused q g) =
        (fst (IV.on_message m g), set_paused q (snd (IV.on_message m g)))).
Proof.
  split; [|split].
  - intros v g Hm. destruct (on_message_pause v g) as [Hit Hiv].
    eexists. split; [exact Hit|]. split; [exact Hiv|].
    cbn [paused latest heap config effects].
    split; [by apply deque_append_single|]. auto 10.
  - apply it_on_message_paused.
  - apply iv_on_message_paused.
Qed.

Lemma pause_only_replaces_flag_witness :
  (exists g',
      IT.on_message (mk_msg pause_topic (pickle_dumps (VBool true))) IT.init = (Ok tt, g') /\
      IV.on_message (mk_msg pause_topic (pickle_dumps (VBool true))) IT.init = (Ok tt, g') /\
      items (paused g') = [VBool true] /\
      latest g' = latest IT.init /\ heap g' = heap IT.init /\
      config g' = config IT.init /\
      read_latest g' = read_latest IT.init /\
      latest_series g' = latest_series IT.init /\
      effects g' = effects IT.init ++
        [EvPrint "pause: " (Some (VBool true)); EvPaused (VBool true)])
  /\
  IT.on_message (it_message (it_record [0.6; 0.005; 100; 0]%float 0.1))
    (set_paused (mk_deque 1 [VBool true]) IT.init) =
    (fst (IT.on_message (it_message (it_record [0.6; 0.005; 100; 0]%float 0.1)) IT.init),
     set_paused (mk_deque 1 [VBool true])
       (snd (IT.on_message (it_message (it_record [0.6; 0.005; 100; 0]%float 0.1)) IT.init))).
Proof.
  split.
  - apply (proj1 pause_only_replaces_flag (VBool true) IT.init). reflexivity.
  - apply (proj1 (proj2 pause_only_replaces_flag)). discriminate.
Defined.

Lemma floats_of_lookup raw fs i v :
  floats_of raw = Some fs -> raw !! i = Some v -> to_float v = Some (nth i fs 0%float).
Proof.
  revert fs i. induction raw as [|w raw IH]; intros fs i; cbn.
  - intros _ H. by destruct i.
  - destruct (to_float w) as [x|] eqn:Hw; [|discriminate].
    destruct (floats_of raw) as [xs|]; [|discriminate].
    intros [= <-]. destruct i as [|i]; cbn.
    + by intros [= <-].
    + by apply IH.
Qed.

Lemma floats_of_app raw fs j p :
  floats_of raw = Some fs ->
  floats_of (raw ++ [VFloat j; VFloat p]) = Some (fs ++ [j; p]).
Proof.
  revert fs. induction raw as [|w raw IH]; intros fs; cbn.
  - by intros [= <-].
  - destruct (to_float w) as [x|]; [|discriminate].
    destruct (floats_of raw) as [xs|]; [|discriminate].
    intros [= <-]. by rewrite (IH xs).
Qed.

Lemma it_fold_numeric g old payload raw fs area a :
  single_slot (latest g) = true ->
  latest_series g = Some old -> ncols old = 3 ->
  clear_flag payload = Ok false ->
  getitem_key payload "data" = Ok (VList raw) -> floats_of raw = Some fs ->
  area_of payload = Ok area -> to_float area = Some a ->
  PrimFloat.eqb a 0 = false ->
  3 <= length fs ->
  let j := current_density (nth 1 fs 0%float) a in
  let p := power (nth 0 fs 0%float) j in
  exists g',
    IT.on_message (it_message payload) g = (Ok tt, g') /\
    latest_series g' =
      Some (it_appended old (nth 4 (fs ++ [j; p]) 0%float) (nth 2 fs 0%float)).
Proof.
  intros Hs Hold Hc Hcl Hd Hfs Ha Haf Hnz Hlen j p.
  destruct (latest_series_inv g old Hs Hold) as (Hml & s0 & Hi & Hh).
  pose proof (floats_of_length raw fs Hfs) as Hl.
  destruct (lookup_lt_is_Some_2 raw 0 ltac:(lia)) as [d0 H0].
  destruct (lookup_lt_is_Some_2 raw 1 ltac:(lia)) as [d1 H1].
  destruct (lookup_lt_is_Some_2 raw 2 ltac:(lia)) as [d2 H2].
  destruct (lookup_lt_is_Some_2 (raw ++ [VFloat j; VFloat p]) 4
              ltac:(rewrite length_app; cbn; lia)) as [d4 H4].
  destruct (process_ivt_ok payload "it_measurement" raw d0 d1 area _ _ a g Hd H0 H1
              (floats_of_lookup raw fs 0 d0 Hfs H0)
              (floats_of_lookup raw fs 1 d1 Hfs H1) Ha Haf Hnz) as (p' & _ & Hp).
  eexists. split.
  - eapply (it_on_message_data g payload s0 [] old _ p' _ d2 d4); try eassumption.
    + cbn [getitem_idx]. by rewrite (lookup_app_l_Some _ _ _ _ H2).
    + cbn [getitem_idx]. fold j p. by rewrite H4.
    + exact (floats_of_lookup raw fs 2 d2 Hfs H2).
    + exact (floats_of_lookup _ _ 4 d4 (floats_of_app raw fs j p Hfs) H4).
  - by apply latest_series_appended.
Qed.
Lemma it_two_fields_raise g s0 rest payload raw fs area a :
  items (latest g) = s0 :: rest ->
  clear_flag payload = Ok false ->
  getitem_key payload "data" = Ok (VList raw) -> floats_of raw = Some fs ->
  area_of payload = Ok area -> to_float area = Some a ->
  PrimFloat.eqb a 0 = false ->
  length fs = 2 ->
  exists ev,
    IT.on_message (it_message payload) g = (Raise IndexError, add_effects [ev] g).
Proof.
  intros Hi Hcl Hd Hfs Ha Haf Hnz Hlen.
  pose proof (floats_of_length raw fs Hfs) as Hl.
  destruct raw as [|d0 [|d1 [|d2 raw]]]; cbn in Hl; try lia.
  destruct (process_ivt_ok payload "it_measurement" [d0; d1] d0 d1 area _ _ a g Hd
              eq_refl eq_refl
              (floats_of_lookup [d0; d1] fs 0 d0 Hfs eq_refl)
              (floats_of_lookup [d0; d1] fs 1 d1 Hfs eq_refl) Ha Haf Hnz)
    as (p' & _ & Hp).
  unfold clear_flag in Hcl.
  destruct (getitem_key payload "clear") as [c|] eqn:Ec; [|discriminate].
  injection Hcl as Hcl.
  eexists.
  unfold IT.on_message, it_message, bind, lift, latest_first.
  cbn [msg_topic msg_payload pickle_dumps pickle_loads].
  cbn [String.eqb it_topic Ascii.eqb Bool.eqb]. rewrite Hi, Ec, Hcl, Hp.
  reflexivity.
Qed.

Lemma it_short_record_raise g s0 rest payload raw fs area :
  items (latest g) = s0 :: rest ->
  clear_flag payload = Ok false ->
  getitem_key payload "data" = Ok (VList raw) -> floats_of raw = Some fs ->
  area_of payload = Ok area ->
  length fs < 2 ->
  IT.on_message (it_message payload) g = (Raise IndexError, g).
Proof.
  intros Hi Hcl Hd Hfs Ha Hlen.
  pose proof (floats_of_length raw fs Hfs) as Hl.
  unfold clear_flag in Hcl.
  destruct (getitem_key payload "clear") as [c|] eqn:Ec; [|discriminate].
  injection Hcl as Hcl.
  unfold area_of in Ha.
  destruct (getitem_key payload "pixel") as [pixel|] eqn:Hp; [|discriminate].
  unfold IT.on_message, it_message, bind, lift, latest_first.
  cbn [msg_topic msg_payload pickle_dumps pickle_loads].
  cbn [String.eqb it_topic Ascii.eqb Bool.eqb]. rewrite Hi, Ec, Hcl.
  unfold IT.process_ivt, bind, lift. rewrite Hd, Hp, Ha.
  destruct raw as [|d0 [|d1 raw]]; cbn in Hl; try lia; reflexivity.
Qed.

(** C10, as the code has it: the current-vs-time handler takes the current
    density of the new row from index 4 of the processed data, where
    [process_ivt] has put j exactly when the raw data has four fields
    (raw time at index 2). With three fields index 4 holds the power p,
    and p is stored as current density; with five or more it holds the
    fifth raw field, which is stored; with two the lookup of index 4
    raises (after the record went to the publisher); with fewer the
    processor's own lookup raises. The value taken from the other place
    can be equal to j. *)
Theorem it_needs_four_fields :
  forall g old payload raw fs area a,
    single_slot (latest g) = true ->
    latest_series g = Some old -> ncols old = 3 ->
    clear_flag payload = Ok false ->
    getitem_key payload "data" = Ok (VList raw) -> floats_of raw = Some fs ->
    area_of payload = Ok area -> to_float area = Some a ->
    PrimFloat.eqb a 0 = false ->
    let j := current_density (nth 1 fs 0%float) a in
    let p := power (nth 0 fs 0%float) j in
    let t := nth 2 fs 0%float in
    (length fs = 4 ->
     exists g', IT.on_message (it_message payload) g = (Ok tt, g') /\
                latest_series g' = Some (it_appended old j t))
    /\
    (length fs = 3 ->
     exists g', IT.on_message (it_message payload) g = (Ok tt, g') /\
                latest_series g' = Some (it_appended old p t))
    /\
    (5 <= length fs ->
     exists g', IT.on_message (it_message payload) g = (Ok tt, g') /\
                latest_series g' = Some (it_appended old (nth 4 fs 0%float) t))
    /\
    (length fs = 2 ->
     exists ev,
       IT.on_message (it_message payload) g = (Raise IndexError, add_effects [ev] g))
    /\
    (length fs < 2 ->
     IT.on_message (it_message payload) g = (Raise IndexError, g)).
Proof.
  intros g old payload raw fs area a Hs Hold Hc Hcl Hd Hfs Ha Haf Hnz j p t.
  pose proof (it_fold_numeric g old payload raw fs area a Hs Hold Hc Hcl Hd Hfs Ha Haf Hnz)
    as Hfold. cbn zeta in Hfold. fold j p t in Hfold.
  destruct (latest_series_inv g old Hs Hold) as (Hml & s0 & Hi & Hh).
  split; [|split; [|split; [|split]]].
  - intros Hlen. destruct (Hfold ltac:(lia)) as (g' & Hrun & Hser).
    exists g'. split; [done|]. rewrite Hser.
    by destruct fs as [|x0 [|x1 [|x2 [|x3 [|x4 fs]]]]].
  - intros Hlen. destruct (Hfold ltac:(lia)) as (g' & Hrun & Hser).
    exists g'. split; [done|]. rewrite Hser.
    by destruct fs as [|x0 [|x1 [|x2 [|x3 fs]]]].
  - intros Hlen. destruct (Hfold ltac:(lia)) as (g' & Hrun & Hser).
    exists g'. split; [done|]. rewrite Hser.
    by rewrite app_nth1 by lia.
  - intros Hlen. by eapply it_two_fields_raise.
  - intros Hlen. by eapply it_short_record_raise.
Qed.

Lemma it_needs_four_fields_witness :
  (exists g',
      IT.on_message (it_message (it_record [0.6; 0.005; 100; 0]%float 0.1)) IT.init
        = (Ok tt, g') /\
      latest_series g' = Some (mk_ndarray 3 [[0; 50; 100]]%float))
  /\
  (exists g',
      IT.on_message (it_message (it_record [0.6; 0.005; 100]%float 0.1)) IT.init
        = (Ok tt, g') /\
      latest_series g' = Some (mk_ndarray 3 [[0; 30; 100]]%float)).
Proof.
  split.
  - apply (proj1 (it_needs_four_fields IT.init (np_empty0 3)
             (it_record [0.6; 0.005; 100; 0]%float 0.1)
             (map VFloat [0.6; 0.005; 100; 0]%float) [0.6; 0.005; 100; 0]%float
             (VFloat 0.1) 0.1%float
             eq_refl eq_refl eq_refl eq_refl eq_refl eq_refl eq_refl eq_refl eq_refl)).
    reflexivity.
  - apply (proj1 (proj2 (it_needs_four_fields IT.init (np_empty0 3)
             (it_record [0.6; 0.005; 100]%float 0.1)
             (map VFloat [0.6; 0.005; 100]%float) [0.6; 0.005; 100]%float
             (VFloat 0.1) 0.1%float
             eq_refl eq_refl eq_refl eq_refl eq_refl eq_refl eq_refl eq_refl eq_refl))).
    reflexivity.
Defined.

(** C10 as stated fails: the record (1.0, 0.005, 100) with area 0.1 has
    three fields, the handler returns normally and stores the power
    1.0 * 50 = 50 as current density, which is the computed j = 50. *)
Lemma it_three_fields_can_store_j :
  let p := it_record [1; 0.005; 100]%float 0.1 in
  fst (IT.on_message (it_message p) IT.init) = Ok tt /\
  latest_series (snd (IT.on_message (it_message p) IT.init))
    = Some (mk_ndarray 3 [[0; 50; 100]]%float) /\
  current_density 0.005 0.1 = 50%float /\
  power 1 50 = 50%float.
Proof. repeat split; vm_compute; reflexivity. Qed.

Lemma process_ivt_heap payload kind g r g' :
  IT.process_ivt payload kind g = (r, g') -> heap g' = heap g.
Proof.
  intros H. unfold_processor H. by repeat (case_match; simplify_eq/=).
Qed.

(** The current-vs-time handler never writes into an array that exists:
    it only adds array objects. A snapshot that a reader took keeps the
    series it had. *)
Lemma it_keeps_published_series m g r g' s a :
  IT.on_message m g = (r, g') ->
  series_of g s = Some a -> series_of g' s = Some a.
Proof.
  intros H Hs. unfold series_of in *.
  assert (exists ext, heap g' = heap g ++ ext) as [ext ->].
  { unfold_handler H.
    repeat (case_match; simplify_eq/=);
      repeat match goal with
        | Hp : IT.process_ivt _ _ _ = _ |- _ => apply process_ivt_heap in Hp
        end;
      cbn in *; try (exists []; rewrite app_nil_r; congruence);
      try (eexists; f_equal; congruence). }
  by apply lookup_app_l_Some.
Qed.

(** C4 on the current-vs-voltage handler: the reader's snapshot after the
    first sweep and the snapshot appended for the second sweep hold the
    same array object, and the second sweep is written into it. The
    snapshot taken after the first sweep, whose message is still the first
    record, then shows the second sweep in columns 2-3. *)
Theorem iv_prior_snapshot_overwritten :
  let g1 := run IV.on_message [iv_message (iv_record sweep_a 0.1)] IV.init in
  let g2 := run IV.on_message [iv_message (iv_record sweep_b 0.1)] g1 in
  exists s1 s2,
    read_latest g1 = Some s1 /\ read_latest g2 = Some s2 /\
    snap_data s2 = snap_data s1 /\
    snap_msg s1 = iv_record (map (augment_row 0.1) sweep_a) 0.1 /\
    snap_msg s2 = iv_record (map (augment_row 0.1) sweep_b) 0.1 /\
    series_of g1 s1 = Some (mk_ndarray 4 [[0; 20; 0; 0]; [0.6; 50; 0; 0]]%float) /\
    series_of g2 s1 = Some (mk_ndarray 4 [[0; 20; 0.6; 40]; [0.6; 50; 0; 10]]%float).
Proof.
  eexists _, _. repeat split; vm_compute; reflexivity.
Qed.

Lemma well_formed_inv c g :
  well_formed c g = true ->
  single_slot (latest g) = true /\ maxlen (paused g) = 1 /\
  exists a, latest_series g = Some a /\ ncols a = c /\
            Forall (fun r => length r = c) (rows a).
Proof.
  unfold well_formed, has_columns. intros H.
  apply andb_true_iff in H as [H Ha]. apply andb_true_iff in H as [Hs Hp].
  apply Nat.eqb_eq in Hp.
  destruct (latest_series g) as [a|]; [|discriminate].
  apply andb_true_iff in Ha as [Hc Hr]. apply Nat.eqb_eq in Hc.
  split; [done|]. split; [done|]. exists a. split; [done|]. split; [done|].
  apply Forall_forall. intros r Hin. rewrite forallb_forall in Hr.
  apply Nat.eqb_eq, Hr. by apply list_elem_of_In.
Qed.

Lemma has_columns_intro c a :
  ncols a = c -> Forall (fun r => length r = c) (rows a) -> has_columns c a = true.
Proof.
  intros Hc Hr. unfold has_columns. apply andb_true_iff. split.
  - by apply Nat.eqb_eq.
  - apply forallb_forall. intros r Hin. apply Nat.eqb_eq.
    rewrite Forall_forall in Hr. by apply Hr, list_elem_of_In.
Qed.

Lemma well_formed_frame c g g' :
  latest g' = latest g -> heap g' = heap g ->
  maxlen (paused g') = maxlen (paused g) ->
  well_formed c g' = well_formed c g.
Proof.
  intros Hl Hh Hp. unfold well_formed, latest_series, read_latest, series_of.
  by rewrite Hl, Hh, Hp.
Qed.

Lemma single_slot_append {A} (d : deque A) x :
  single_slot d = true -> single_slot (deque_append d x) = true.
Proof.
  intros H. apply single_slot_inv in H as [Hm _].
  unfold single_slot. rewrite deque_append_single by done.
  unfold deque_append. cbn [maxlen length]. by rewrite Hm.
Qed.

Lemma well_formed_alloc c g q cfg e m a :
  well_formed c g = true ->
  maxlen q = 1 ->
  has_columns c a = true ->
  well_formed c
    (mk_globals (deque_append (latest g) (mk_snapshot m (length (heap g))))
       q cfg (heap g ++ [a]) e) = true.
Proof.
  intros Hw Hq Ha. apply well_formed_inv in Hw as (Hs & _ & _).
  unfold well_formed.
  rewrite latest_series_appended by (by apply single_slot_inv in Hs as [? _]).
  cbn [latest paused]. rewrite single_slot_append, Hq, Ha by done. reflexivity.
Qed.

Lemma well_formed_store c g q cfg e m s0 a :
  well_formed c g = true ->
  read_latest g = Some s0 ->
  maxlen q = 1 ->
  has_columns c a = true ->
  well_formed c
    (mk_globals (deque_append (latest g) (mk_snapshot m (snap_data s0)))
       q cfg (<[snap_data s0 := a]> (heap g)) e) = true.
Proof.
  intros Hw H0 Hq Ha. apply well_formed_inv in Hw as (Hs & _ & old & Hold & _).
  unfold well_formed.
  rewrite latest_series_stored.
  - cbn [latest paused]. rewrite single_slot_append, Hq, Ha by done. reflexivity.
  - by apply single_slot_inv in Hs as [? _].
  - unfold latest_series in Hold. rewrite H0 in Hold. by eapply lookup_lt_Some.
Qed.

Lemma it_appended_columns old j t :
  has_columns 3 old = true -> has_columns 3 (it_appended old j t) = true.
Proof.
  unfold has_columns. intros H. apply andb_true_iff in H as [_ Hr].
  cbn [it_appended ncols rows Nat.eqb andb].
  unfold time_normalised.
  destruct (rows old ++ [[0%float; j; t]]) as [|r0 l] eqn:E; [reflexivity|].
  rewrite <- E. clear E.
  apply forallb_forall. intros r Hin. apply in_map_iff in Hin as (r' & <- & Hin).
  apply in_app_or in Hin as [Hin|Hin].
  - rewrite forallb_forall in Hr. specialize (Hr r' Hin).
    apply Nat.eqb_eq in Hr. by destruct r' as [|x0 [|x1 [|x2 [|x3 r']]]].
  - destruct Hin as [<-|[]]. reflexivity.
Qed.

Lemma it_well_formed_step m g :
  well_formed 3 g = true -> well_formed 3 (snd (IT.on_message m g)) = true.
Proof.
  intros Hw.
  destruct (well_formed_inv 3 g Hw) as (Hs & Hq & old0 & Hold0 & Hc0 & Hr0).
  destruct (IT.on_message m g) as [r g'] eqn:H. cbn [snd].
  destruct m as [t [payload|]].
  2:{ cbn in H. by injection H as <- <-. }
  destruct (String.eqb t it_topic) eqn:Et.
  - apply String.eqb_eq in Et as ->.
    change (IT.on_message (it_message payload) g = (r, g')) in H.
    destruct (clear_flag payload) as [[|]|e] eqn:Hcl.
    + apply single_slot_inv in Hs as Hs'. destruct Hs' as [_ [s0 Hi]].
      rewrite (it_on_message_clear g payload s0 [] Hi Hcl) in H.
      injection H as <- <-. by apply well_formed_alloc.
    + destruct r as [[]|e].
      * destruct (it_on_message_data_inv g payload g' Hcl H)
          as (s0 & rest & old & pdata & payload' & tv & j & tf & jf
              & Hi & Hh & Hc & Hp & Ht & Hj & Htf & Hjf).
        rewrite (it_on_message_data g payload s0 rest old pdata payload' _ tv j tf jf
                   Hi Hh Hc Hcl Hp Ht Hj Htf Hjf) in H.
        injection H as <-. apply well_formed_alloc; [done..|].
        apply it_appended_columns.
        unfold latest_series, read_latest, series_of in Hold0.
        rewrite Hi in Hold0. cbn [head] in Hold0. rewrite Hh in Hold0.
        injection Hold0 as ->. by apply has_columns_intro.
      * destruct (it_raise_frame payload g e g' H) as [->|[x Hp]]; [done|].
        apply process_ivt_effects in Hp as ->.
        by rewrite (well_formed_frame 3 g).
    + unfold clear_flag in Hcl.
      destruct (getitem_key payload "clear") as [c|] eqn:Ec; [discriminate|].
      unfold_handler H.
      cbn [it_message msg_topic msg_payload pickle_dumps pickle_loads
           String.eqb it_topic Ascii.eqb Bool.eqb] in H.
      rewrite Ec in H.
      repeat (case_match; simplify_eq/=); done.
  - unfold_handler H. cbn [msg_topic msg_payload pickle_loads] in H.
    unfold it_topic in Et. rewrite Et in H.
    repeat (case_match; simplify_eq/=);
      first [done
            | match goal with
              | Hw' : well_formed 3 ?g0 = true |- _ =>
                  by rewrite (well_formed_frame 3 g0)
              end].
Qed.

Lemma seeded_columns pdata scan a :
  columns [0; 4] pdata = Ok scan ->
  append_axis1 scan (np_zeros (length (rows scan)) (ncols scan)) = Ok a ->
  has_columns 4 a = true.
Proof.
  intros Hs Ha. apply columns_04_inv in Hs as [_ ->].
  unfold append_axis1, np_zeros in Ha. cbn [rows ncols] in Ha.
  rewrite length_replicate, Nat.eqb_refl in Ha. injection Ha as <-.
  rewrite (zip_replicate_r (fun rr : list float * list float => fst rr ++ snd rr)).
  unfold has_columns, scan_rows. cbn [ncols rows Nat.add Nat.eqb andb].
  rewrite map_map. apply forallb_forall. intros r Hin.
  by apply in_map_iff in Hin as (r' & <- & _).
Qed.

Lemma broadcast_rows_Forall (P : list float -> Prop) n l brows :
  Forall P l -> broadcast_rows n l = Some brows -> Forall P brows.
Proof.
  intros Hl. unfold broadcast_rows.
  destruct (Nat.eqb (length l) n); [by intros [= <-]|].
  destruct l as [|r [|r' l]]; try discriminate.
  intros [= <-]. apply Forall_replicate. by inversion Hl.
Qed.

Lemma overwritten_columns old pdata scan a :
  has_columns 4 old = true ->
  columns [0; 4] pdata = Ok scan ->
  assign_from_column2 old scan = Ok a ->
  has_columns 4 a = true.
Proof.
  intros Hold Hs Ha. apply columns_04_inv in Hs as [_ ->].
  unfold has_columns in Hold. apply andb_true_iff in Hold as [Hc Hr].
  apply Nat.eqb_eq in Hc.
  unfold assign_from_column2, broadcast, broadcast_cols in Ha.
  cbn [ncols rows] in Ha. rewrite Hc in Ha. cbn [Nat.sub Nat.eqb] in Ha.
  destruct (broadcast_rows _ _) as [brows|] eqn:Hb; [|discriminate].
  injection Ha as <-.
  assert (Hbr : Forall (fun r => length r = 2) brows).
  { eapply broadcast_rows_Forall; [|exact Hb].
    unfold scan_rows. apply Forall_forall. intros r Hin.
    apply list_elem_of_In, in_map_iff in Hin as (r' & <- & _). reflexivity. }
  apply has_columns_intro; [done|]. cbn [rows].
  apply Forall_forall. intros r Hin.
  apply list_elem_of_In, in_map_iff in Hin as ([ro rb] & <- & Hin).
  apply in_combine_l in Hin as Hl. apply in_combine_r in Hin as Hrb.
  rewrite forallb_forall in Hr. specialize (Hr ro Hl). apply Nat.eqb_eq in Hr.
  rewrite Forall_forall in Hbr. specialize (Hbr rb (proj2 (list_elem_of_In _ _) Hrb)).
  cbn [fst snd]. rewrite length_app, length_take, Hr, Hbr. reflexivity.
Qed.

Lemma iv_well_formed_step m g :
  well_formed 4 g = true -> well_formed 4 (snd (IV.on_message m g)) = true.
Proof.
  intros Hw.
  destruct (well_formed_inv 4 g Hw) as (Hs & Hq & old0 & Hold0 & Hc0 & Hr0).
  pose proof (has_columns_intro 4 old0 Hc0 Hr0) as Hcols.
  apply single_slot_inv in Hs as Hs'. destruct Hs' as [_ [s0 Hi]].
  assert (Hh0 : heap g !! snap_data s0 = Some old0).
  { unfold latest_series, read_latest, series_of in Hold0. by rewrite Hi in Hold0. }
  assert (H0 : read_latest g = Some s0) by (unfold read_latest; by rewrite Hi).
  clear Hr0 Hc0 Hold0.
  destruct (IV.on_message m g) as [r g'] eqn:H. cbn [snd].
  destruct m as [t [payload|]].
  2:{ cbn in H. by injection H as <- <-. }
  destruct (String.eqb t iv_topic) eqn:Et.
  - apply String.eqb_eq in Et as ->.
    change (IV.on_message (iv_message payload) g = (r, g')) in H.
    destruct r as [[]|e].
    + destruct (clear_flag payload) as [[|]|e] eqn:Hcl.
      * rewrite (iv_on_message_clear g payload s0 [] Hi Hcl) in H.
        injection H as <-. by apply well_formed_alloc.
      * unfold clear_flag in Hcl.
        destruct (getitem_key payload "clear") as [c|] eqn:Ec; [|discriminate].
        injection Hcl as Hcl.
        unfold_handler H.
        cbn [iv_message msg_topic msg_payload pickle_dumps pickle_loads
             String.eqb iv_topic Ascii.eqb Bool.eqb] in H.
        rewrite Hi, Ec, Hcl in H.
        destruct (IV.process_iv payload g) as [[x|e] g1] eqn:Hp; [|discriminate].
        apply process_iv_effects in Hp as ->.
        cbn [heap add_effects latest paused config effects] in H.
        rewrite Hh0 in H.
        repeat (case_match; simplify_eq/=).
        -- apply well_formed_alloc; [done..|]. by eapply seeded_columns.
        -- apply well_formed_store; [done..|]. by eapply overwritten_columns.
      * unfold clear_flag in Hcl.
        destruct (getitem_key payload "clear") as [c|] eqn:Ec; [discriminate|].
        unfold_handler H.
        cbn [iv_message msg_topic msg_payload pickle_dumps pickle_loads
             String.eqb iv_topic Ascii.eqb Bool.eqb] in H.
        rewrite Hi, Ec in H. discriminate.
    + destruct (iv_raise_frame payload g e g' H) as [->|[x Hp]]; [done|].
      apply process_iv_effects in Hp as ->.
      by rewrite (well_formed_frame 4 g).
  - unfold_handler H. cbn [msg_topic msg_payload pickle_loads] in H.
    unfold iv_topic in Et. rewrite Et in H.
    repeat (case_match; simplify_eq/=);
      first [done
            | match goal with
              | Hw' : well_formed 4 ?g0 = true |- _ =>
                  by rewrite (well_formed_frame 4 g0)
              end].
Qed.

(** The hypotheses of the properties on the globals hold in every state
    that a plotter can reach. *)
Lemma it_reachable_well_formed g :
  reachable IT.on_message IT.init g -> well_formed 3 g = true.
Proof.
  induction 1 as [|g m _ IH]; [reflexivity|]. by apply it_well_formed_step.
Qed.

Lemma iv_reachable_well_formed g :
  reachable IV.on_message IV.init g -> well_formed 4 g = true.
Proof.
  induction 1 as [|g m _ IH]; [reflexivity|]. by apply iv_well_formed_step.
Qed.

Lemma run_reachable handler init msgs g :
  reachable handler init g -> reachable handler init (run handler msgs g).
Proof.
  unfold run. revert g. induction msgs as [|m l IH]; intros g Hg; [done|].
  cbn. apply IH. by constructor.
Qed.

Lemma dict_get_set_eq k v d : dict_get k (dict_set k v d) = Some v.
Proof.
  induction d as [|[k' v'] d IH]; cbn.
  - by rewrite String.eqb_refl.
  - destruct (String.eqb k k') eqn:E; cbn.
    + by rewrite String.eqb_refl.
    + by rewrite E.
Qed.

Lemma dict_get_set_ne k k' v d :
  k <> k' -> dict_get k' (dict_set k v d) = dict_get k' d.
Proof.
  intros Hne. induction d as [|[k0 v0] d IH]; cbn.
  - destruct (String.eqb k' k) eqn:E; [|reflexivity].
    apply String.eqb_eq in E. congruence.
  - destruct (String.eqb k k0) eqn:E; cbn.
    + apply String.eqb_eq in E as <-.
      destruct (String.eqb k' k) eqn:E'; [|reflexivity].
      apply String.eqb_eq in E'. congruence.
    + by rewrite IH.
Qed.

Lemma subscript_eqb_eq s s' : subscript_eqb s s' = true <-> s = s'.
Proof.
  destruct s as [k|i], s' as [k'|i']; cbn; try (split; [discriminate|congruence]).
  - rewrite String.eqb_eq. split; congruence.
  - rewrite Nat.eqb_eq. split; congruence.
Qed.

Lemma getitem_put_back_eq v s sub x :
  getitem v s = Ok sub ->
  (forall c, v <> VStr c) ->
  getitem (put_back v s x) s = Ok x.
Proof.
  destruct s as [k|i], v as [| | |xs|kvs]; cbn; try discriminate.
  - intros _ _. by rewrite dict_get_set_eq.
  - intros _ H. by destruct (H s).
  - destruct (xs !! i) as [y|] eqn:E; [|discriminate]. intros _ _.
    by rewrite list_lookup_insert_eq by (by eapply lookup_lt_Some).
Qed.

Lemma getitem_put_back_ne v s s' x :
  subscript_eqb s s' = false ->
  getitem (put_back v s x) s' = getitem v s'.
Proof.
  intros Hne.
  destruct s as [k|i], s' as [k'|i'], v as [| | |xs|kvs]; cbn in *; try reflexivity.
  - rewrite dict_get_set_ne; [reflexivity|].
    intros ->. by rewrite String.eqb_refl in Hne.
  - rewrite list_lookup_insert_ne; [reflexivity|].
    intros ->. by rewrite Nat.eqb_refl in Hne.
Qed.

Lemma assign_at_str p k x c : is_ok (assign_at p k x (VStr c)) = false.
Proof.
  revert c. induction p as [|[k'|i] p IH]; intros c; cbn; try reflexivity.
  destruct (String.get i c) as [ch|]; [|reflexivity].
  specialize (IH (String ch EmptyString)).
  by destruct (assign_at p k x (VStr (String ch EmptyString))).
Qed.

Lemma assign_at_not_str p k x v v' :
  assign_at p k x v = Ok v' -> forall c, v <> VStr c.
Proof.
  intros H c ->. pose proof (assign_at_str p k x c) as Hs. by rewrite H in Hs.
Qed.

Lemma lookup_path_app p q v :
  lookup_path (p ++ q) v =
    match lookup_path p v with
    | Ok sub => lookup_path q sub
    | Raise e => Raise e
    end.
Proof.
  revert v. induction p as [|s p IH]; intros v; cbn; [reflexivity|].
  destruct (getitem v s); [apply IH|reflexivity].
Qed.

(** What was assigned is what is read back along the same path. *)
Lemma lookup_assign_eq p k x v v' :
  assign_at p k x v = Ok v' -> lookup_path (p ++ [Key k]) v' = Ok x.
Proof.
  revert v v'. induction p as [|s p IH]; intros v v' H; cbn in *.
  - destruct v; try discriminate. injection H as <-. cbn.
    by rewrite dict_get_set_eq.
  - destruct (getitem v s) as [sub|] eqn:Hg; [|discriminate].
    destruct (assign_at p k x sub) as [sub'|] eqn:Ha; [|discriminate].
    injection H as <-.
    rewrite (getitem_put_back_eq v s sub sub' Hg).
    + by apply (IH sub).
    + intros c ->. destruct s as [k'|i]; cbn in Hg; [discriminate|].
      destruct (String.get i c); [|discriminate]. injection Hg as <-.
      by eapply assign_at_not_str.
Qed.

(** An assignment leaves alone what is read along a path that parts ways
    with the path of the assignment. *)
Lemma lookup_assign_apart p k x v v' q :
  assign_at p k x v = Ok v' ->
  apart (p ++ [Key k]) q = true ->
  lookup_path q v' = lookup_path q v.
Proof.
  revert v v' q.
  induction p as [|s p IH]; intros v v' q H Hq; cbn [assign_at] in H;
    cbn [app] in Hq.
  - destruct q as [|s' q]; [discriminate|]. cbn [apart] in Hq.
    destruct (subscript_eqb (Key k) s') eqn:E.
    { rewrite ?E in Hq. cbn in Hq. discriminate. }
    destruct v as [| | | |kvs]; try discriminate. injection H as <-.
    cbn [lookup_path].
    change (VDict (dict_set k x kvs)) with (put_back (VDict kvs) (Key k) x).
    by rewrite getitem_put_back_ne.
  - destruct (getitem v s) as [sub|] eqn:Hg; [|discriminate].
    destruct (assign_at p k x sub) as [sub'|] eqn:Ha; [|discriminate].
    injection H as <-.
    destruct q as [|s' q]; [discriminate|].
    cbn [lookup_path]. cbn [apart] in Hq.
    destruct (subscript_eqb s s') eqn:E.
    + rewrite ?E in Hq. apply subscript_eqb_eq in E as <-.
      rewrite (getitem_put_back_eq v s sub sub' Hg), Hg.
      * by apply (IH sub).
      * intros c ->. destruct s as [k'|i]; cbn in Hg; [discriminate|].
        destruct (String.get i c); [|discriminate]. injection Hg as <-.
        by eapply assign_at_not_str.
    + by rewrite getitem_put_back_ne.
Qed.

Lemma SFltb_trans (a b c : spec_float) :
  SFltb a b = true -> SFltb b c = true -> SFltb a c = true.
Proof.
  unfold SFltb, SFcompare.
  destruct a as [sa|sa| |sa ma ea], b as [sb|sb| |sb mb eb], c as [sc|sc| |sc mc ec];
    try discriminate;
    repeat match goal with s : bool |- _ => destruct s end;
    try discriminate; try reflexivity.
  - destruct (Z.compare_spec ea eb), (Z.compare_spec eb ec), (Z.compare_spec ea ec);
      try discriminate; try reflexivity; try lia; subst; rewrite ?Pos.compare_cont_spec;
      cbn [Pos.switch_Eq CompOpp];
      destruct (Pos.compare_spec ma mb), (Pos.compare_spec mb mc), (Pos.compare_spec ma mc);
      cbn; try discriminate; try reflexivity; lia.
  - destruct (Z.compare_spec ea eb), (Z.compare_spec eb ec), (Z.compare_spec ea ec);
      try discriminate; try reflexivity; try lia; subst; rewrite ?Pos.compare_cont_spec;
      cbn [Pos.switch_Eq CompOpp];
      destruct (Pos.compare_spec ma mb), (Pos.compare_spec mb mc), (Pos.compare_spec ma mc);
      cbn; try discriminate; try reflexivity; lia.
Qed.

Lemma ltb_trans (x y z : float) :
  PrimFloat.ltb x y = true -> PrimFloat.ltb y z = true -> PrimFloat.ltb x z = true.
Proof. rewrite !ltb_spec. apply SFltb_trans. Qed.

Lemma SFltb_irrefl (a : spec_float) : SFltb a a = false.
Proof.
  unfold SFltb, SFcompare. destruct a as [[|]|[|]| |[|] m e]; try reflexivity.
  - by rewrite Z.compare_refl, Pos.compare_cont_refl.
  - by rewrite Z.compare_refl, Pos.compare_cont_refl.
Qed.

Lemma ltb_irrefl (x : float) : PrimFloat.ltb x x = false.
Proof. rewrite ltb_spec. apply SFltb_irrefl. Qed.

Lemma fold_min_spec (rest seen : list float) (m : float) :
  In m seen -> (forall y, In y seen -> PrimFloat.ltb y m = false) ->
  let r := fold_left (fun m y => if PrimFloat.ltb y m then y else m) rest m in
  In r (seen ++ rest) /\ forall y, In y (seen ++ rest) -> PrimFloat.ltb y r = false.
Proof.
  revert seen m. induction rest as [|y rest IH]; intros seen m Hin Hlow; cbn.
  - rewrite app_nil_r. by split.
  - replace (seen ++ y :: rest) with ((seen ++ [y]) ++ rest)
      by (by rewrite <- app_assoc).
    apply IH.
    + destruct (PrimFloat.ltb y m); apply in_or_app; [right; by left|by left].
    + intros z Hz. apply in_app_or in Hz as [Hz|[<-|[]]].
      * destruct (PrimFloat.ltb y m) eqn:E; [|by apply Hlow].
        destruct (PrimFloat.ltb z y) eqn:E'; [|reflexivity].
        rewrite <- (Hlow z Hz). symmetry. by eapply ltb_trans.
      * destruct (PrimFloat.ltb y m) eqn:E; [apply ltb_irrefl|done].
Qed.

Lemma fold_max_spec (rest seen : list float) (m : float) :
  In m seen -> (forall y, In y seen -> PrimFloat.ltb m y = false) ->
  let r := fold_left (fun m y => if PrimFloat.ltb m y then y else m) rest m in
  In r (seen ++ rest) /\ forall y, In y (seen ++ rest) -> PrimFloat.ltb r y = false.
Proof.
  revert seen m. induction rest as [|y rest IH]; intros seen m Hin Hup; cbn.
  - rewrite app_nil_r. by split.
  - replace (seen ++ y :: rest) with ((seen ++ [y]) ++ rest)
      by (by rewrite <- app_assoc).
    apply IH.
    + destruct (PrimFloat.ltb m y); apply in_or_app; [right; by left|by left].
    + intros z Hz. apply in_app_or in Hz as [Hz|[<-|[]]].
      * destruct (PrimFloat.ltb m y) eqn:E; [|by apply Hup].
        destruct (PrimFloat.ltb y z) eqn:E'; [|reflexivity].
        rewrite <- (Hup z Hz). symmetry. by eapply ltb_trans.
      * destruct (PrimFloat.ltb m y) eqn:E; [apply ltb_irrefl|done].
Qed.

Lemma py_min_spec l m :
  py_min l = Ok m -> In m l /\ forall y, In y l -> PrimFloat.ltb y m = false.
Proof.
  destruct l as [|x rest]; [discriminate|]. intros [= <-].
  apply (fold_min_spec rest [x] x); [by left|].
  intros y [<-|[]]. apply ltb_irrefl.
Qed.

Lemma py_max_spec l m :
  py_max l = Ok m -> In m l /\ forall y, In y l -> PrimFloat.ltb m y = false.
Proof.
  destruct l as [|x rest]; [discriminate|]. intros [= <-].
  apply (fold_max_spec rest [x] x); [by left|].
  intros y [<-|[]]. apply ltb_irrefl.
Qed.

Lemma range_of_inv l r :
  range_of l = Ok r ->
  exists lo hi, r = VList [VFloat lo; VFloat hi] /\ py_min l = Ok lo /\ py_max l = Ok hi.
Proof.
  unfold range_of, and_then.
  destruct (py_min l) as [lo|]; [|discriminate].
  destruct (py_max l) as [hi|]; [|discriminate].
  intros [= <-]. eauto.
Qed.

Lemma format_figure_1_inv data fig title fig' :
  rows data <> [] ->
  ITView.format_figure_1 data fig title = Ok fig' ->
  exists x y xr yr f1 f2 f3 f4,
    column 0 data = Ok x /\ column 1 data = Ok y /\
    range_of x = Ok xr /\ range_of y = Ok yr /\
    assign_at [Key "data"; Idx 0] "x" (floats x) fig = Ok f1 /\
    assign_at [Key "data"; Idx 0] "y" (floats y) f1 = Ok f2 /\
    assign_at [Key "layout"; Key "xaxis"] "range" xr f2 = Ok f3 /\
    assign_at [Key "layout"; Key "yaxis"] "range" yr f3 = Ok f4 /\
    assign_at [Key "layout"; Key "annotations"; Idx 0] "text" title f4 = Ok fig'.
Proof.
  intros Hr H. unfold ITView.format_figure_1 in H.
  destruct (rows data) as [|r0 rs] eqn:Hrows; [done|].
  cbn [length Nat.eqb] in H. unfold and_then in H.
  destruct (column 0 data) as [x|] eqn:Hx; [|discriminate].
  destruct (assign_at _ "x" _ fig) as [f1|] eqn:H1; [|discriminate].
  destruct (column 1 data) as [y|] eqn:Hy; [|discriminate].
  destruct (assign_at _ "y" _ f1) as [f2|] eqn:H2; [|discriminate].
  destruct (range_of x) as [xr|] eqn:Hxr; [|discriminate].
  destruct (assign_at _ "range" xr f2) as [f3|] eqn:H3; [|discriminate].
  destruct (range_of y) as [yr|] eqn:Hyr; [|discriminate].
  destruct (assign_at _ "range" yr f3) as [f4|] eqn:H4; [|discriminate].
  exists x, y, xr, yr, f1, f2, f3, f4. repeat (split; [done|]). done.
Qed.

Ltac keep_through H :=
  rewrite (lookup_assign_apart _ _ _ _ _ _ H) by reflexivity.

Lemma format_figure_1_lookups data fig title fig' :
  rows data <> [] ->
  ITView.format_figure_1 data fig title = Ok fig' ->
  exists x y xr yr,
    column 0 data = Ok x /\ column 1 data = Ok y /\
    range_of x = Ok xr /\ range_of y = Ok yr /\
    lookup_path [Key "data"; Idx 0; Key "x"] fig' = Ok (floats x) /\
    lookup_path [Key "data"; Idx 0; Key "y"] fig' = Ok (floats y) /\
    lookup_path [Key "layout"; Key "xaxis"; Key "range"] fig' = Ok xr /\
    lookup_path [Key "layout"; Key "yaxis"; Key "range"] fig' = Ok yr /\
    lookup_path [Key "layout"; Key "annotations"; Idx 0; Key "text"] fig' = Ok title /\
    forall q, apart_from figure_1_paths q = true ->
              lookup_path q fig' = lookup_path q fig.
Proof.
  intros Hr H.
  destruct (format_figure_1_inv data fig title fig' Hr H)
    as (x & y & xr & yr & f1 & f2 & f3 & f4 & Hx & Hy & Hxr & Hyr
        & H1 & H2 & H3 & H4 & H5).
  exists x, y, xr, yr. repeat (split; [done|]).
  split; [|split; [|split; [|split; [|split]]]].
  - keep_through H5. keep_through H4. keep_through H3. keep_through H2.
    exact (lookup_assign_eq _ _ _ _ _ H1).
  - keep_through H5. keep_through H4. keep_through H3.
    exact (lookup_assign_eq _ _ _ _ _ H2).
  - keep_through H5. keep_through H4.
    exact (lookup_assign_eq _ _ _ _ _ H3).
  - keep_through H5. exact (lookup_assign_eq _ _ _ _ _ H4).
  - exact (lookup_assign_eq _ _ _ _ _ H5).
  - intros q Hq. unfold apart_from, figure_1_paths in Hq. cbn [forallb] in Hq.
    repeat (apply andb_true_iff in Hq as [? Hq]).
    rewrite (lookup_assign_apart _ _ _ _ _ q H5) by done.
    rewrite (lookup_assign_apart _ _ _ _ _ q H4) by done.
    rewrite (lookup_assign_apart _ _ _ _ _ q H3) by done.
    rewrite (lookup_assign_apart _ _ _ _ _ q H2) by done.
    by rewrite (lookup_assign_apart _ _ _ _ _ q H1).
Qed.
Lemma format_figure_2_inv data fig title fig' :
  rows data <> [] ->
  IVView.format_figure_2 data fig title = Ok fig' ->
  exists c0 c1 c2 c3 xr yr f1 f2 f2' f3 f4,
    column 0 data = Ok c0 /\ column 1 data = Ok c1 /\
    column 2 data = Ok c2 /\ column 3 data = Ok c3 /\
    range_of (c0 ++ c2) = Ok xr /\ range_of (c1 ++ c3) = Ok yr /\
    assign_at [Key "data"; Idx 0] "x" (floats c0) fig = Ok f1 /\
    assign_at [Key "data"; Idx 0] "y" (floats c1) f1 = Ok f2 /\
    (if IVView.all_nonzero c2
     then exists f, assign_at [Key "data"; Idx 1] "x" (floats c2) f2 = Ok f /\
                    assign_at [Key "data"; Idx 1] "y" (floats c3) f = Ok f2'
     else f2' = f2) /\
    assign_at [Key "layout"; Key "xaxis"] "range" xr f2' = Ok f3 /\
    assign_at [Key "layout"; Key "yaxis"] "range" yr f3 = Ok f4 /\
    assign_at [Key "layout"; Key "annotations"; Idx 0] "text" title f4 = Ok fig'.
Proof.
  intros Hr H. unfold IVView.format_figure_2 in H.
  destruct (rows data) as [|r0 rs] eqn:Hrows; [done|].
  cbn [length Nat.eqb] in H. unfold and_then in H.
  destruct (column 0 data) as [c0|] eqn:H0; [|discriminate].
  destruct (assign_at _ "x" _ fig) as [f1|] eqn:H1; [|discriminate].
  destruct (column 1 data) as [c1|] eqn:Hc1; [|discriminate].
  destruct (assign_at _ "y" _ f1) as [f2|] eqn:H2; [|discriminate].
  destruct (column 2 data) as [c2|] eqn:Hc2; [|discriminate].
  destruct (column 3 data) as [c3|] eqn:Hc3.
  - destruct (IVView.all_nonzero c2) eqn:Hnz.
    + destruct (assign_at _ "x" _ f2) as [f|] eqn:H3; [|discriminate].
      destruct (assign_at _ "y" _ f) as [f2'|] eqn:H4; [|discriminate].
      destruct (range_of (c0 ++ c2)) as [xr|] eqn:Hxr; [|discriminate].
      destruct (range_of (c1 ++ c3)) as [yr|] eqn:Hyr; [|discriminate].
      destruct (assign_at _ "range" xr f2') as [f3|] eqn:H5; [|discriminate].
      destruct (assign_at _ "range" yr f3) as [f4|] eqn:H6; [|discriminate].
      exists c0, c1, c2, c3, xr, yr, f1, f2, f2', f3, f4.
      rewrite Hnz. repeat (split; [done|]). split; [by exists f|]. done.
    + destruct (range_of (c0 ++ c2)) as [xr|] eqn:Hxr; [|discriminate].
      destruct (range_of (c1 ++ c3)) as [yr|] eqn:Hyr; [|discriminate].
      destruct (assign_at _ "range" xr f2) as [f3|] eqn:H5; [|discriminate].
      destruct (assign_at _ "range" yr f3) as [f4|] eqn:H6; [|discriminate].
      exists c0, c1, c2, c3, xr, yr, f1, f2, f2, f3, f4.
      rewrite Hnz. repeat (split; [done|]). done.
  - destruct (IVView.all_nonzero c2).
    + destruct (assign_at _ "x" _ f2) as [f|]; discriminate.
    + destruct (range_of (c0 ++ c2)); discriminate.
Qed.

(** X1: for a series with at least one row, [format_figure_1] (and
    [format_figure_4], which calls it) returns the figure with column 0 of
    the series as x and column 1 as y of trace 0, the [min, max] of each
    of the two columns as the axis ranges, and the title as text of
    annotation 0; whatever is read from the figure along a path that parts
    ways with these five places is as before. *)
Theorem format_figure_1_contents data fig title fig' :
  rows data <> [] ->
  ITView.format_figure_4 data fig title = Ok fig' ->
  exists x y xr yr,
    column 0 data = Ok x /\ column 1 data = Ok y /\
    range_of x = Ok xr /\ range_of y = Ok yr /\
    lookup_path [Key "data"; Idx 0; Key "x"] fig' = Ok (floats x) /\
    lookup_path [Key "data"; Idx 0; Key "y"] fig' = Ok (floats y) /\
    lookup_path [Key "layout"; Key "xaxis"; Key "range"] fig' = Ok xr /\
    lookup_path [Key "layout"; Key "yaxis"; Key "range"] fig' = Ok yr /\
    lookup_path [Key "layout"; Key "annotations"; Idx 0; Key "text"] fig' = Ok title /\
    forall q, apart_from figure_1_paths q = true ->
              lookup_path q fig' = lookup_path q fig.
Proof. apply format_figure_1_lookups. Qed.

Lemma format_figure_1_contents_witness :
  exists fig',
    ITView.format_figure_4 (mk_ndarray 3 [[0; 50; 100]; [0.5; 40; 100.5]]%float)
      fig4 (VStr "pixel1") = Ok fig' /\
    exists x y xr yr,
    column 0 (mk_ndarray 3 [[0; 50; 100]; [0.5; 40; 100.5]]%float) = Ok x /\
    column 1 (mk_ndarray 3 [[0; 50; 100]; [0.5; 40; 100.5]]%float) = Ok y /\
    range_of x = Ok xr /\ range_of y = Ok yr /\
    lookup_path [Key "data"; Idx 0; Key "x"] fig' = Ok (floats x) /\
    lookup_path [Key "data"; Idx 0; Key "y"] fig' = Ok (floats y) /\
    lookup_path [Key "layout"; Key "xaxis"; Key "range"] fig' = Ok xr /\
    lookup_path [Key "layout"; Key "yaxis"; Key "range"] fig' = Ok yr /\
    lookup_path [Key "layout"; Key "annotations"; Idx 0; Key "text"] fig'
      = Ok (VStr "pixel1") /\
    forall q, apart_from figure_1_paths q = true ->
              lookup_path q fig' = lookup_path q fig4.
Proof.
  eexists. split; [vm_compute; reflexivity|].
  apply (format_figure_1_contents
           (mk_ndarray 3 [[0; 50; 100]; [0.5; 40; 100.5]]%float) fig4 (VStr "pixel1")).
  - discriminate.
  - vm_compute. reflexivity.
Defined.

(** X2: the axis ranges that [format_figure_1] puts into the figure
    enclose the points: each range is [lo, hi] with lo and hi entries of
    the column, no entry of the column compares below lo and none
    compares above hi. *)
Theorem format_figure_1_ranges_enclose data fig title fig' :
  rows data <> [] ->
  ITView.format_figure_1 data fig title = Ok fig' ->
  exists x y xlo xhi ylo yhi,
    column 0 data = Ok x /\ column 1 data = Ok y /\
    lookup_path [Key "layout"; Key "xaxis"; Key "range"] fig'
      = Ok (VList [VFloat xlo; VFloat xhi]) /\
    lookup_path [Key "layout"; Key "yaxis"; Key "range"] fig'
      = Ok (VList [VFloat ylo; VFloat yhi]) /\
    In xlo x /\ In xhi x /\ In ylo y /\ In yhi y /\
    (forall v, In v x -> PrimFloat.ltb v xlo = false /\ PrimFloat.ltb xhi v = false) /\
    (forall v, In v y -> PrimFloat.ltb v ylo = false /\ PrimFloat.ltb yhi v = false).
Proof.
  intros Hr H.
  destruct (format_figure_1_lookups data fig title fig' Hr H)
    as (x & y & xr & yr & Hx & Hy & Hxr & Hyr & _ & _ & Lx & Ly & _).
  apply range_of_inv in Hxr as (xlo & xhi & -> & Hxlo & Hxhi).
  apply range_of_inv in Hyr as (ylo & yhi & -> & Hylo & Hyhi).
  apply py_min_spec in Hxlo as [? ?]. apply py_max_spec in Hxhi as [? ?].
  apply py_min_spec in Hylo as [? ?]. apply py_max_spec in Hyhi as [? ?].
  exists x, y, xlo, xhi, ylo, yhi. repeat (split; [done|]). split; auto.
Qed.

Lemma format_figure_1_ranges_enclose_witness :
  exists fig',
    ITView.format_figure_1 (mk_ndarray 3 [[0; 50; 100]; [0.5; 40; 100.5]]%float)
      fig4 (VStr "pixel1") = Ok fig' /\
    exists x y xlo xhi ylo yhi,
    column 0 (mk_ndarray 3 [[0; 50; 100]; [0.5; 40; 100.5]]%float) = Ok x /\
    column 1 (mk_ndarray 3 [[0; 50; 100]; [0.5; 40; 100.5]]%float) = Ok y /\
    lookup_path [Key "layout"; Key "xaxis"; Key "range"] fig'
      = Ok (VList [VFloat xlo; VFloat xhi]) /\
    lookup_path [Key "layout"; Key "yaxis"; Key "range"] fig'
      = Ok (VList [VFloat ylo; VFloat yhi]) /\
    In xlo x /\ In xhi x /\ In ylo y /\ In yhi y /\
    (forall v, In v x -> PrimFloat.ltb v xlo = false /\ PrimFloat.ltb xhi v = false) /\
    (forall v, In v y -> PrimFloat.ltb v ylo = false /\ PrimFloat.ltb yhi v = false).
Proof.
  eexists. split; [vm_compute; reflexivity|].
  apply (format_figure_1_ranges_enclose
           (mk_ndarray 3 [[0; 50; 100]; [0.5; 40; 100.5]]%float) fig4 (VStr "pixel1")).
  - discriminate.
  - vm_compute. reflexivity.
Defined.

(** X3: [format_figure_2] draws the second scan only when no entry of
    column 2 of the series is zero: then x and y of trace 1 are columns 2
    and 3. When column 2 holds a zero, as it does in every row after the
    first sweep of a run, and as it does when the second sweep passes
    through 0 V, the function assigns to the five places of
    [format_figure_1] only, and trace 1 of the figure stays as it was.
    Trace 0 gets columns 0 and 1 in both cases, and the axis ranges are
    taken over both scans: columns 0 and 2 for x, 1 and 3 for y. *)
Theorem format_figure_2_second_trace data fig title fig' :
  rows data <> [] ->
  IVView.format_figure_2 data fig title = Ok fig' ->
  exists c0 c1 c2 c3 xr yr,
    column 0 data = Ok c0 /\ column 1 data = Ok c1 /\
    column 2 data = Ok c2 /\ column 3 data = Ok c3 /\
    range_of (c0 ++ c2) = Ok xr /\ range_of (c1 ++ c3) = Ok yr /\
    lookup_path [Key "data"; Idx 0; Key "x"] fig' = Ok (floats c0) /\
    lookup_path [Key "data"; Idx 0; Key "y"] fig' = Ok (floats c1) /\
    lookup_path [Key "layout"; Key "xaxis"; Key "range"] fig' = Ok xr /\
    lookup_path [Key "layout"; Key "yaxis"; Key "range"] fig' = Ok yr /\
    lookup_path [Key "layout"; Key "annotations"; Idx 0; Key "text"] fig' = Ok title /\
    (if IVView.all_nonzero c2
     then lookup_path [Key "data"; Idx 1; Key "x"] fig' = Ok (floats c2) /\
          lookup_path [Key "data"; Idx 1; Key "y"] fig' = Ok (floats c3) /\
          forall q, apart_from (figure_1_paths ++ figure_2_paths) q = true ->
                    lookup_path q fig' = lookup_path q fig
     else lookup_path [Key "data"; Idx 1] fig' = lookup_path [Key "data"; Idx 1] fig /\
          forall q, apart_from figure_1_paths q = true ->
                    lookup_path q fig' = lookup_path q fig).
Proof.
  intros Hr H.
  destruct (format_figure_2_inv data fig title fig' Hr H)
    as (c0 & c1 & c2 & c3 & xr & yr & f1 & f2 & f2' & f3 & f4
        & H0 & H1 & H2 & H3 & Hxr & Hyr & A1 & A2 & Hbr & A5 & A6 & A7).
  exists c0, c1, c2, c3, xr, yr. repeat (split; [done|]).
  destruct (IVView.all_nonzero c2).
  - destruct Hbr as (f & A3 & A4).
    split; [|split; [|split; [|split; [|split; [|split; [|split]]]]]].
    + keep_through A7. keep_through A6. keep_through A5. keep_through A4.
      keep_through A3. keep_through A2. exact (lookup_assign_eq _ _ _ _ _ A1).
    + keep_through A7. keep_through A6. keep_through A5. keep_through A4.
      keep_through A3. exact (lookup_assign_eq _ _ _ _ _ A2).
    + keep_through A7. keep_through A6. exact (lookup_assign_eq _ _ _ _ _ A5).
    + keep_through A7. exact (lookup_assign_eq _ _ _ _ _ A6).
    + exact (lookup_assign_eq _ _ _ _ _ A7).
    + keep_through A7. keep_through A6. keep_through A5. keep_through A4.
      exact (lookup_assign_eq _ _ _ _ _ A3).
    + keep_through A7. keep_through A6. keep_through A5.
      exact (lookup_assign_eq _ _ _ _ _ A4).
    + intros q Hq. unfold apart_from, figure_1_paths, figure_2_paths in Hq.
      cbn [forallb app] in Hq.
      repeat (apply andb_true_iff in Hq as [? Hq]).
      rewrite (lookup_assign_apart _ _ _ _ _ q A7) by done.
      rewrite (lookup_assign_apart _ _ _ _ _ q A6) by done.
      rewrite (lookup_assign_apart _ _ _ _ _ q A5) by done.
      rewrite (lookup_assign_apart _ _ _ _ _ q A4) by done.
      rewrite (lookup_assign_apart _ _ _ _ _ q A3) by done.
      rewrite (lookup_assign_apart _ _ _ _ _ q A2) by done.
      by rewrite (lookup_assign_apart _ _ _ _ _ q A1).
  - subst f2'.
    assert (Hframe : forall q, apart_from figure_1_paths q = true ->
                               lookup_path q fig' = lookup_path q fig).
    { intros q Hq. unfold apart_from, figure_1_paths in Hq. cbn [forallb] in Hq.
      repeat (apply andb_true_iff in Hq as [? Hq]).
      rewrite (lookup_assign_apart _ _ _ _ _ q A7) by done.
      rewrite (lookup_assign_apart _ _ _ _ _ q A6) by done.
      rewrite (lookup_assign_apart _ _ _ _ _ q A5) by done.
      rewrite (lookup_assign_apart _ _ _ _ _ q A2) by done.
      by rewrite (lookup_assign_apart _ _ _ _ _ q A1). }
    split; [|split; [|split; [|split; [|split; [|split]]]]].
    + keep_through A7. keep_through A6. keep_through A5. keep_through A2.
      exact (lookup_assign_eq _ _ _ _ _ A1).
    + keep_through A7. keep_through A6. keep_through A5.
      exact (lookup_assign_eq _ _ _ _ _ A2).
    + keep_through A7. keep_through A6. exact (lookup_assign_eq _ _ _ _ _ A5).
    + keep_through A7. exact (lookup_assign_eq _ _ _ _ _ A6).
    + exact (lookup_assign_eq _ _ _ _ _ A7).
    + by apply Hframe.
    + exact Hframe.
Qed.

Lemma format_figure_2_second_trace_witness :
  exists fig',
    IVView.format_figure_2 (mk_ndarray 4 [[0; 20; 0; 0]; [0.6; 50; 0; 0]]%float)
      fig2 (VStr "pixel1") = Ok fig' /\
    lookup_path [Key "data"; Idx 0; Key "x"] fig' = Ok (floats [0; 0.6]%float) /\
    lookup_path [Key "layout"; Key "xaxis"; Key "range"] fig'
      = Ok (VList [VFloat 0; VFloat 0.6]) /\
    lookup_path [Key "data"; Idx 1] fig' = lookup_path [Key "data"; Idx 1] fig2.
Proof.
  eexists. split; [vm_compute; reflexivity|].
  destruct (format_figure_2_second_trace
              (mk_ndarray 4 [[0; 20; 0; 0]; [0.6; 50; 0; 0]]%float) fig2 (VStr "pixel1")
              _ ltac:(discriminate) eq_refl)
    as (c0 & c1 & c2 & c3 & xr & yr & H0 & H1 & H2 & H3 & Hxr & Hyr
        & L0 & _ & Lx & _ & _ & Hbr).
  injection H0 as <-. injection H2 as <-. injection Hxr as <-.
  cbn in Hbr. destruct Hbr as [Hbr _].
  split; [exact L0|]. split; [exact Lx|exact Hbr].
Defined.

Lemma set_paused_same g : set_paused (paused g) g = g.
Proof. by destruct g. Qed.

Lemma it_keeps_paused m g :
  msg_topic m <> pause_topic -> paused (snd (IT.on_message m g)) = paused g.
Proof.
  intros Ht. pose proof (it_on_message_paused m (paused g) g Ht) as H.
  rewrite set_paused_same in H.
  destruct (IT.on_message m g) as [r g']. cbn [fst snd] in *.
  injection H as ->. reflexivity.
Qed.

Lemma iv_keeps_paused m g :
  msg_topic m <> pause_topic -> paused (snd (IV.on_message m g)) = paused g.
Proof.
  intros Ht. pose proof (iv_on_message_paused m (paused g) g Ht) as H.
  rewrite set_paused_same in H.
  destruct (IV.on_message m g) as [r g']. cbn [fst snd] in *.
  injection H as ->. reflexivity.
Qed.

Lemma run_keeps_paused handler msgs g :
  (forall m g, msg_topic m <> pause_topic -> paused (snd (handler m g)) = paused g) ->
  Forall (fun m => msg_topic m <> pause_topic) msgs ->
  paused (run handler msgs g) = paused g.
Proof.
  intros Hh Hall. revert g. unfold run.
  induction Hall as [|m msgs Hm _ IH]; intros g; [reflexivity|].
  cbn. by rewrite IH, Hh.
Qed.

(** X4: the callback redraws only while [paused[0]] is the bool [False].
    Once a pause message with any other payload has been handled, the
    callback of either plotter returns the figure it was given, whatever
    messages on other topics have been handled since and whatever the
    latest snapshot holds. *)
Theorem paused_callback_returns_figure :
  forall v msgs g fig,
    is_False v = false ->
    maxlen (paused g) = 1 ->
    Forall (fun m => msg_topic m <> pause_topic) msgs ->
    ITView.update_graph_live
      (run IT.on_message (mk_msg pause_topic (pickle_dumps v) :: msgs) g) fig
      = Ok [fig] /\
    IVView.update_graph_live
      (run IV.on_message (mk_msg pause_topic (pickle_dumps v) :: msgs) g) fig
      = Ok [fig].
Proof.
  intros v msgs g fig Hv Hm Hall.
  destruct (on_message_pause v g) as [Hit Hiv].
  split.
  - unfold ITView.update_graph_live.
    change (run IT.on_message (?m :: msgs) g)
      with (run IT.on_message msgs (snd (IT.on_message m g))).
    rewrite (run_keeps_paused IT.on_message msgs _ it_keeps_paused Hall), Hit.
    cbn [snd paused]. rewrite deque_append_single by done. by rewrite Hv.
  - unfold IVView.update_graph_live.
    change (run IV.on_message (?m :: msgs) g)
      with (run IV.on_message msgs (snd (IV.on_message m g))).
    rewrite (run_keeps_paused IV.on_message msgs _ iv_keeps_paused Hall), Hiv.
    cbn [snd paused]. rewrite deque_append_single by done. by rewrite Hv.
Qed.

Lemma paused_callback_returns_figure_witness :
  ITView.update_graph_live
    (run IT.on_message
       [mk_msg pause_topic (pickle_dumps (VStr ""));
        it_message (it_record [0.6; 0.005; 100; 0]%float 0.1)] IT.init) fig4
    = Ok [fig4] /\
  IVView.update_graph_live
    (run IV.on_message
       [mk_msg pause_topic (pickle_dumps (VStr ""));
        it_message (it_record [0.6; 0.005; 100; 0]%float 0.1)] IT.init) fig4
    = Ok [fig4].
Proof.
  apply (paused_callback_returns_figure (VStr "")
           [it_message (it_record [0.6; 0.005; 100; 0]%float 0.1)] IT.init fig4).
  - reflexivity.
  - reflexivity.
  - repeat constructor. discriminate.
Defined.

(** X5: a clear does not wipe the chart. After a message whose [clear] is
    [True], with the pause flag [False], the callback of either plotter
    returns the figure it was given, traces and ranges included, when the
    message has an [idn]; when it has none, the handler has accepted the
    message all the same and the callback raises the [KeyError] of the
    lookup. *)
Theorem cleared_series_keeps_figure :
  forall g payload fig,
    single_slot (latest g) = true ->
    redrawing g = true ->
    clear_flag payload = Ok true ->
    fst (IT.on_message (it_message payload) g) = Ok tt /\
    fst (IV.on_message (iv_message payload) g) = Ok tt /\
    (forall idn, getitem_key payload "idn" = Ok idn ->
       ITView.update_graph_live (snd (IT.on_message (it_message payload) g)) fig
         = Ok [fig] /\
       IVView.update_graph_live (snd (IV.on_message (iv_message payload) g)) fig
         = Ok [fig]) /\
    (forall e, getitem_key payload "idn" = Raise e ->
       ITView.update_graph_live (snd (IT.on_message (it_message payload) g)) fig
         = Raise e /\
       IVView.update_graph_live (snd (IV.on_message (iv_message payload) g)) fig
         = Raise e).
Proof.
  intros g payload fig Hs Hp Hcl.
  apply single_slot_inv in Hs as [Hm [s0 Hi]].
  rewrite (it_on_message_clear g payload s0 [] Hi Hcl).
  rewrite (iv_on_message_clear g payload s0 [] Hi Hcl).
  cbn [fst snd]. split; [done|]. split; [done|].
  unfold ITView.update_graph_live, IVView.update_graph_live.
  cbn [paused latest heap]. unfold redrawing in Hp.
  destruct (items (paused g)) as [|p rest]; [discriminate|]. rewrite Hp.
  rewrite deque_append_single by done. cbn [snap_msg snap_data].
  rewrite !list_lookup_middle by done.
  split.
  - intros idn ->. split; reflexivity.
  - intros e ->. split; reflexivity.
Qed.

Lemma cleared_series_keeps_figure_witness :
  let g := run IT.on_message [it_message (it_record [0.6; 0.005; 100; 0]%float 0.1)]
             IT.init in
  fst (IT.on_message (it_message clear_record) g) = Ok tt /\
  fst (IV.on_message (iv_message clear_record) g) = Ok tt /\
  (forall idn, getitem_key clear_record "idn" = Ok idn ->
     ITView.update_graph_live (snd (IT.on_message (it_message clear_record) g)) fig4
       = Ok [fig4] /\
     IVView.update_graph_live (snd (IV.on_message (iv_message clear_record) g)) fig4
       = Ok [fig4]) /\
  (forall e, getitem_key clear_record "idn" = Raise e ->
     ITView.update_graph_live (snd (IT.on_message (it_message clear_record) g)) fig4
       = Raise e /\
     IVView.update_graph_live (snd (IV.on_message (iv_message clear_record) g)) fig4
       = Raise e).
Proof.
  apply (cleared_series_keeps_figure
           (run IT.on_message [it_message (it_record [0.6; 0.005; 100; 0]%float 0.1)]
              IT.init) clear_record fig4); reflexivity.
Defined.

(** X6: a message on [measurement/run] replaces the config by the value
    under the payload's [config] key, whatever the config was (nothing of
    the old one is kept), and changes neither the latest snapshot nor the
    arrays nor the pause flag. When the payload has no [config] key the
    lookup raises after the line on stdout and the config stays. Both
    plotters. *)
Theorem run_message_replaces_config :
  forall payload g,
    (forall c, getitem_key payload "config" = Ok c ->
       IT.on_message (mk_msg run_topic (pickle_dumps payload)) g =
         (Ok tt,
          mk_globals (latest g) (paused g) c (heap g)
            (effects g ++ [EvPrint "reading config..." None; EvConfig c])) /\
       IV.on_message (mk_msg run_topic (pickle_dumps payload)) g =
         (Ok tt,
          mk_globals (latest g) (paused g) c (heap g)
            (effects g ++ [EvPrint "reading config..." None; EvConfig c])))
    /\
    (forall e, getitem_key payload "config" = Raise e ->
       IT.on_message (mk_msg run_topic (pickle_dumps payload)) g =
         (Raise e, add_effects [EvPrint "reading config..." None] g) /\
       IV.on_message (mk_msg run_topic (pickle_dumps payload)) g =
         (Raise e, add_effects [EvPrint "reading config..." None] g)).
Proof.
  intros payload g. split.
  - intros c Hc.
    unfold IT.on_message, IV.on_message, read_config, bind, lift, print, emit, set_config.
    cbn. rewrite Hc. cbn. rewrite <- app_assoc. by split.
  - intros e Hc.
    unfold IT.on_message, IV.on_message, read_config, bind, lift, print, emit, set_config.
    cbn. rewrite Hc. by split.
Qed.

Lemma run_message_replaces_config_witness :
  IT.on_message
    (mk_msg run_topic
       (pickle_dumps (VDict [("config", VDict [("smu", VStr "k2400")])])))
    (mk_globals (latest IT.init) (paused IT.init) (VDict [("old", VBool true)])
       (heap IT.init) []) =
    (Ok tt,
     mk_globals (latest IT.init) (paused IT.init) (VDict [("smu", VStr "k2400")])
       (heap IT.init)
       [EvPrint "reading config..." None; EvConfig (VDict [("smu", VStr "k2400")])]).
Proof.
  apply (proj1 (run_message_replaces_config
                  (VDict [("config", VDict [("smu", VStr "k2400")])])
                  (mk_globals (latest IT.init) (paused IT.init)
                     (VDict [("old", VBool true)]) (heap IT.init) []))
               (VDict [("smu", VStr "k2400")]) eq_refl).
Defined.

(** X7: a handler does nothing for a topic that its process does not
    subscribe to: for a topic outside the subscriptions, the other
    plotter's data topic included, a payload that unpickles leaves the
    globals as they are. The payload is unpickled before the topic is
    looked at, so one that does not unpickle raises on any topic. *)
Theorem other_topics_are_ignored :
  forall t v g,
    (~ In t ITView.subscriptions -> IT.on_message (mk_msg t (pickle_dumps v)) g = (Ok tt, g))
    /\
    (~ In t IVView.subscriptions -> IV.on_message (mk_msg t (pickle_dumps v)) g = (Ok tt, g))
    /\
    IT.on_message (mk_msg iv_topic (pickle_dumps v)) g = (Ok tt, g) /\
    IV.on_message (mk_msg it_topic (pickle_dumps v)) g = (Ok tt, g) /\
    IT.on_message (mk_msg t garbage) g = (Raise UnpicklingError, g) /\
    IV.on_message (mk_msg t garbage) g = (Raise UnpicklingError, g).
Proof.
  intros t v g.
  assert (Hne : forall s, t <> s -> String.eqb t s = false).
  { intros s Hs. by apply String.eqb_neq. }
  split; [|split; [|repeat split]].
  - intros Hn. unfold ITView.subscriptions in Hn. cbn [In] in Hn.
    unfold IT.on_message, bind, lift, ret. cbn [msg_topic msg_payload pickle_dumps pickle_loads].
    rewrite !Hne by (intros ->; tauto). reflexivity.
  - intros Hn. unfold IVView.subscriptions in Hn. cbn [In] in Hn.
    unfold IV.on_message, bind, lift, ret. cbn [msg_topic msg_payload pickle_dumps pickle_loads].
    rewrite !Hne by (intros ->; tauto). reflexivity.
Qed.

Lemma other_topics_are_ignored_witness :
  IT.on_message
    (mk_msg "data/raw/eqe_measurement"
       (pickle_dumps (it_record [0.6; 0.005; 100; 0]%float 0.1))) IT.init
    = (Ok tt, IT.init).
Proof.
  apply (proj1 (other_topics_are_ignored "data/raw/eqe_measurement"
                  (it_record [0.6; 0.005; 100; 0]%float 0.1) IT.init)).
  cbn. intros [H|[H|[H|[]]]]; discriminate.
Defined.

Lemma latest_series_frame g g' :
  latest g' = latest g -> heap g' = heap g -> latest_series g' = latest_series g.
Proof.
  intros Hl Hh. unfold latest_series, read_latest, series_of. by rewrite Hl, Hh.
Qed.

(** What one message can make of the current-vs-time series: leave it,
    empty it, or append one row and renormalise. *)
Lemma it_step_series m g old :
  well_formed 3 g = true ->
  latest_series g = Some old ->
  latest_series (snd (IT.on_message m g)) = Some old \/
  latest_series (snd (IT.on_message m g)) = Some (np_empty0 3) \/
  exists j t, latest_series (snd (IT.on_message m g)) = Some (it_appended old j t).
Proof.
  intros Hw Hold.
  destruct (well_formed_inv 3 g Hw) as (Hs & Hq & old0 & Hold0 & Hc0 & Hr0).
  apply single_slot_inv in Hs as Hs'. destruct Hs' as [Hml [s0 Hi]].
  destruct (IT.on_message m g) as [r g'] eqn:H. cbn [snd].
  destruct m as [t [payload|]].
  2:{ cbn in H. injection H as <- <-. by left. }
  destruct (String.eqb t it_topic) eqn:Et.
  - apply String.eqb_eq in Et as ->.
    change (IT.on_message (it_message payload) g = (r, g')) in H.
    destruct r as [[]|e].
    + destruct (clear_flag payload) as [[|]|e] eqn:Hcl.
      * rewrite (it_on_message_clear g payload s0 [] Hi Hcl) in H.
        injection H as <-. right. left. by apply latest_series_appended.
      * destruct (it_on_message_data_inv g payload g' Hcl H)
          as (s1 & rest & old1 & pdata & payload' & tv & j & tf & jf
              & Hi1 & Hh & Hc & Hp & Ht & Hj & Htf & Hjf).
        rewrite (it_on_message_data g payload s1 rest old1 pdata payload' _ tv j tf jf
                   Hi1 Hh Hc Hcl Hp Ht Hj Htf Hjf) in H.
        injection H as <-. right. right. exists jf, tf.
        rewrite latest_series_appended by done.
        unfold latest_series, read_latest, series_of in Hold.
        rewrite Hi1 in Hold. cbn [head] in Hold. rewrite Hh in Hold.
        by injection Hold as ->.
      * unfold clear_flag in Hcl.
        destruct (getitem_key payload "clear") as [c|] eqn:Ec; [discriminate|].
        unfold_handler H.
        cbn [it_message msg_topic msg_payload pickle_dumps pickle_loads
             String.eqb it_topic Ascii.eqb Bool.eqb] in H.
        rewrite Hi, Ec in H. discriminate.
    + left. destruct (it_raise_frame payload g e g' H) as [->|[x Hp]]; [done|].
      apply process_ivt_effects in Hp as ->. exact Hold.
  - left. rewrite <- Hold. apply latest_series_frame.
    + unfold_handler H. cbn [msg_topic msg_payload pickle_loads] in H.
      unfold it_topic in Et. rewrite Et in H.
      repeat (case_match; simplify_eq/=); reflexivity.
    + unfold_handler H. cbn [msg_topic msg_payload pickle_loads] in H.
      unfold it_topic in Et. rewrite Et in H.
      repeat (case_match; simplify_eq/=); reflexivity.
Qed.

Lemma broadcast_rows_length n l brows :
  broadcast_rows n l = Some brows -> length brows = n.
Proof.
  unfold broadcast_rows. destruct (Nat.eqb (length l) n) eqn:E.
  - intros [= <-]. by apply Nat.eqb_eq.
  - destruct l as [|r [|r' l]]; try discriminate.
    intros [= <-]. apply length_replicate.
Qed.

(** What one message can make of the current-vs-voltage series: leave
    it, empty it, seed it when it is empty, or write two columns into
    every row of it when it is not. *)
Lemma iv_step_series m g old :
  well_formed 4 g = true ->
  latest_series g = Some old ->
  latest_series (snd (IV.on_message m g)) = Some old \/
  latest_series (snd (IV.on_message m g)) = Some (np_empty0 4) \/
  (rows old = [] /\
   exists sc, latest_series (snd (IV.on_message m g))
              = Some (mk_ndarray 4 (map (fun r => r ++ [0; 0]%float) sc))) \/
  (rows old <> [] /\
   exists brows,
     length brows = length (rows old) /\
     latest_series (snd (IV.on_message m g))
     = Some (mk_ndarray 4 (map (fun rr => take 2 (fst rr) ++ snd rr)
                             (zip (rows old) brows)))).
Proof.
  intros Hw Hold.
  destruct (well_formed_inv 4 g Hw) as (Hs & Hq & old0 & Hold0 & Hc0 & Hr0).
  rewrite Hold in Hold0. injection Hold0 as <-.
  apply single_slot_inv in Hs as Hs'. destruct Hs' as [Hml [s0 Hi]].
  assert (Hh0 : heap g !! snap_data s0 = Some old).
  { unfold latest_series, read_latest, series_of in Hold. by rewrite Hi in Hold. }
  destruct (IV.on_message m g) as [r g'] eqn:H. cbn [snd].
  destruct m as [t [payload|]].
  2:{ cbn in H. injection H as <- <-. by left. }
  destruct (String.eqb t iv_topic) eqn:Et.
  - apply String.eqb_eq in Et as ->.
    change (IV.on_message (iv_message payload) g = (r, g')) in H.
    destruct r as [[]|e].
    + destruct (clear_flag payload) as [[|]|e] eqn:Hcl.
      * rewrite (iv_on_message_clear g payload s0 [] Hi Hcl) in H.
        injection H as <-. right. left. by apply latest_series_appended.
      * destruct (iv_data_effects payload g g' Hcl H)
          as (pdata & payload' & r & Hp & _ & _).
        assert (Hc5 : 5 <= ncols pdata).
        { pose proof H as H'. unfold clear_flag in Hcl.
          destruct (getitem_key payload "clear") as [c|] eqn:Ec; [|discriminate].
          injection Hcl as Hcl.
          unfold IV.on_message, iv_message, bind, lift, latest_first in H'.
          cbn [msg_topic msg_payload pickle_dumps pickle_loads
               String.eqb iv_topic Ascii.eqb Bool.eqb] in H'.
          rewrite Hi, Ec, Hcl, Hp in H'. cbn [fst snd] in H'.
          unfold deref in H'. cbn [heap add_effects] in H'. rewrite Hh0 in H'.
          destruct (Nat.eqb (length (rows old)) 0);
            (destruct (columns [0; 4] pdata) as [scan|] eqn:Hsc; [|discriminate]);
            by apply columns_04_inv in Hsc as [? _]. }
        destruct (rows old) as [|r0 rs] eqn:Hrows.
        -- right. right. left. split; [done|].
           rewrite (iv_on_message_seed g payload s0 [] old pdata payload' _
                      Hi Hh0 Hrows Hcl Hp Hc5) in H.
           injection H as <-. eexists. by apply latest_series_appended.
        -- right. right. right. split; [done|].
           rewrite (iv_on_message_overwrite g payload s0 [] old pdata payload' _
                      Hi Hh0 ltac:(by rewrite Hrows) Hcl Hp Hc5 Hc0) in H.
           destruct (broadcast_rows (length (rows old)) (scan_rows pdata))
             as [brows|] eqn:Hb; [|discriminate].
           injection H as <-. exists brows. rewrite <- Hrows. split.
           ++ by eapply broadcast_rows_length.
           ++ apply latest_series_stored; [done|]. by eapply lookup_lt_Some.
      * unfold clear_flag in Hcl.
        destruct (getitem_key payload "clear") as [c|] eqn:Ec; [discriminate|].
        unfold_handler H.
        cbn [iv_message msg_topic msg_payload pickle_dumps pickle_loads
             String.eqb iv_topic Ascii.eqb Bool.eqb] in H.
        rewrite Hi, Ec in H. discriminate.
    + left. destruct (iv_raise_frame payload g e g' H) as [->|[x Hp]]; [done|].
      apply process_iv_effects in Hp as ->. exact Hold.
  - left. rewrite <- Hold. apply latest_series_frame.
    + unfold_handler H. cbn [msg_topic msg_payload pickle_loads] in H.
      unfold iv_topic in Et. rewrite Et in H.
      repeat (case_match; simplify_eq/=); reflexivity.
    + unfold_handler H. cbn [msg_topic msg_payload pickle_loads] in H.
      unfold iv_topic in Et. rewrite Et in H.
      repeat (case_match; simplify_eq/=); reflexivity.
Qed.

Lemma paused_slot_step (handler : MQTTMessage -> M unit) m g :
  (forall m g, msg_topic m <> pause_topic -> paused (snd (handler m g)) = paused g) ->
  (forall t g, handler (mk_msg t garbage) g = (Raise UnpicklingError, g)) ->
  (forall v g, paused (snd (handler (mk_msg pause_topic (pickle_dumps v)) g))
               = deque_append (paused g) v) ->
  single_slot (paused g) = true ->
  single_slot (paused (snd (handler m g))) = true.
Proof.
  intros Hkeep Hgarbage Hpause Hs.
  destruct m as [t b]. destruct (String.eqb t pause_topic) eqn:Et.
  - apply String.eqb_eq in Et as ->. destruct b as [v|].
    + change (pickled v) with (pickle_dumps v). rewrite Hpause.
      by apply single_slot_append.
    + by rewrite Hgarbage.
  - rewrite Hkeep; [done|]. cbn. by apply String.eqb_neq.
Qed.

Lemma reachable_paused_slot (handler : MQTTMessage -> M unit) init g :
  (forall m g, msg_topic m <> pause_topic -> paused (snd (handler m g)) = paused g) ->
  (forall t g, handler (mk_msg t garbage) g = (Raise UnpicklingError, g)) ->
  (forall v g, paused (snd (handler (mk_msg pause_topic (pickle_dumps v)) g))
               = deque_append (paused g) v) ->
  single_slot (paused init) = true ->
  reachable handler init g -> single_slot (paused g) = true.
Proof.
  intros Hkeep Hgarbage Hpause Hinit. induction 1 as [|g m _ IH]; [done|].
  by apply paused_slot_step.
Qed.

(** X8: at every moment of a running plotter each of the two deques holds
    exactly one item: one latest snapshot and one pause value, whatever
    messages have been handled and whether or not their handling raised. *)
Theorem one_snapshot_one_flag :
  (forall g, reachable IT.on_message IT.init g ->
     length (items (latest g)) = 1 /\ length (items (paused g)) = 1)
  /\
  (forall g, reachable IV.on_message IV.init g ->
     length (items (latest g)) = 1 /\ length (items (paused g)) = 1).
Proof.
  split; intros g Hg.
  - split.
    + apply it_reachable_well_formed, well_formed_inv in Hg as (Hs & _).
      apply single_slot_inv in Hs as [_ [s ->]]. reflexivity.
    + assert (Hp : single_slot (paused g) = true).
      { eapply (reachable_paused_slot IT.on_message IT.init); try exact Hg.
        - apply it_keeps_paused.
        - reflexivity.
        - intros v g0. by rewrite (proj1 (on_message_pause v g0)).
        - reflexivity. }
      apply single_slot_inv in Hp as [_ [s ->]]. reflexivity.
  - split.
    + apply iv_reachable_well_formed, well_formed_inv in Hg as (Hs & _).
      apply single_slot_inv in Hs as [_ [s ->]]. reflexivity.
    + assert (Hp : single_slot (paused g) = true).
      { eapply (reachable_paused_slot IV.on_message IV.init); try exact Hg.
        - apply iv_keeps_paused.
        - reflexivity.
        - intros v g0. by rewrite (proj2 (on_message_pause v g0)).
        - reflexivity. }
      apply single_slot_inv in Hp as [_ [s ->]]. reflexivity.
Qed.

Lemma one_snapshot_one_flag_witness :
  let g := run IT.on_message
             [it_message (it_record [0.6; 0.005; 100; 0]%float 0.1);
              mk_msg pause_topic (pickle_dumps (VBool true));
              it_message (it_record [0.6; 0.005]%float 0.1);
              mk_msg it_topic garbage] IT.init in
  length (items (latest g)) = 1 /\ length (items (paused g)) = 1.
Proof.
  apply (proj1 one_snapshot_one_flag). apply run_reachable. constructor.
Defined.

(** X9: at every moment of a running current-vs-time plotter the array of
    the latest snapshot exists, has three columns and rows of three
    entries, and its offsets are in place: the first column of every row
    is the row's raw time minus the raw time of row 0. *)
Theorem it_series_always_normalised :
  forall g, reachable IT.on_message IT.init g ->
    exists a, latest_series g = Some a /\ ncols a = 3 /\
              Forall (fun r => length r = 3) (rows a) /\ offsets_in_place a.
Proof.
  intros g Hg.
  pose proof (it_reachable_well_formed g Hg) as Hw.
  destruct (well_formed_inv 3 g Hw) as (_ & _ & a & Ha & Hc & Hr).
  exists a. repeat (split; [done|]).
  clear Hw Hc Hr. revert a Ha.
  induction Hg as [|g m Hg IH]; intros a Ha.
  - injection Ha as <-. intros i r H. by destruct i.
  - pose proof (it_reachable_well_formed g Hg) as Hw.
    destruct (well_formed_inv 3 g Hw) as (_ & _ & old & Hold & _ & _).
    destruct (it_step_series m g old Hw Hold) as [H|[H|(j & t & H)]];
      rewrite H in Ha; injection Ha as <-.
    + by apply IH.
    + intros i r Hi. by destruct i.
    + intros i r. apply time_normalised_offsets.
Qed.

Lemma it_series_always_normalised_witness :
  exists a,
    latest_series
      (run IT.on_message
         [it_message (it_record [0.6; 0.005; 100; 0]%float 0.1);
          it_message (it_record [0.6; 0.005; 100.5; 0]%float 0.1)] IT.init) = Some a /\
    ncols a = 3 /\ Forall (fun r => length r = 3) (rows a) /\ offsets_in_place a.
Proof.
  apply it_series_always_normalised. apply run_reachable. constructor.
Defined.

Lemma take2_overwritten (r b : list float) :
  length r = 4 -> take 2 (take 2 r ++ b) = take 2 r.
Proof.
  intros H. destruct r as [|x0 [|x1 [|x2 [|x3 [|x4 r]]]]]; try discriminate.
  reflexivity.
Qed.

Lemma first_scan_overwritten old brows :
  Forall (fun r => length r = 4) (rows old) ->
  length brows = length (rows old) ->
  map (take 2) (map (fun rr : list float * list float => take 2 (fst rr) ++ snd rr)
                  (zip (rows old) brows))
  = map (take 2) (rows old).
Proof.
  intros Hr. revert brows.
  induction Hr as [|r l Hlen _ IH]; intros [|b brows] Hb; try discriminate.
  - reflexivity.
  - cbn. rewrite take2_overwritten by done. f_equal. apply IH.
    cbn in Hb. lia.
Qed.

(** One message leaves columns 0-1 of a non-empty current-vs-voltage
    series as they are, or leaves no row. *)
Lemma iv_step_first_scan m g old :
  well_formed 4 g = true ->
  latest_series g = Some old -> rows old <> [] ->
  exists new,
    latest_series (snd (IV.on_message m g)) = Some new /\
    (rows new = [] \/ (rows new <> [] /\ first_scan new = first_scan old)).
Proof.
  intros Hw Hold Hne.
  destruct (well_formed_inv 4 g Hw) as (_ & _ & old0 & Hold0 & Hc0 & Hr0).
  rewrite Hold in Hold0. injection Hold0 as <-.
  destruct (iv_step_series m g old Hw Hold)
    as [H|[H|[[Hempty _]|(_ & brows & Hb & H)]]].
  - exists old. split; [done|]. right. by split.
  - exists (np_empty0 4). split; [done|]. by left.
  - done.
  - eexists. split; [exact H|]. right. unfold first_scan. cbn [rows]. split.
    + destruct (rows old) as [|r0 rs]; [done|].
      destruct brows as [|b0 bs]; [discriminate|]. discriminate.
    + by apply first_scan_overwritten.
Qed.

Lemma run_well_formed_it msgs g :
  well_formed 3 g = true -> well_formed 3 (run IT.on_message msgs g) = true.
Proof.
  revert g. unfold run. induction msgs as [|m msgs IH]; intros g Hw; [done|].
  cbn. apply IH. by apply it_well_formed_step.
Qed.

Lemma run_well_formed_iv msgs g :
  well_formed 4 g = true -> well_formed 4 (run IV.on_message msgs g) = true.
Proof.
  revert g. unfold run. induction msgs as [|m msgs IH]; intros g Hw; [done|].
  cbn. apply IH. by apply iv_well_formed_step.
Qed.

(** X10: in the current-vs-voltage plotter, columns 0-1 of a series that
    has rows stay as they are through any sequence of messages (further
    sweeps of any row count, failing messages, other topics), row count
    included, for as long as the series is not emptied. *)
Theorem first_scan_stays_until_emptied :
  forall msgs g old,
    well_formed 4 g = true ->
    latest_series g = Some old -> rows old <> [] ->
    exists new,
      latest_series (run IV.on_message msgs g) = Some new /\
      ((rows new <> [] /\ first_scan new = first_scan old) \/
       exists pre post a,
         msgs = pre ++ post /\
         latest_series (run IV.on_message pre g) = Some a /\ rows a = []).
Proof.
  induction msgs as [|m msgs IH]; intros g old Hw Hold Hne.
  - exists old. split; [done|]. left. by split.
  - pose proof (iv_well_formed_step m g Hw) as Hw1.
    destruct (iv_step_first_scan m g old Hw Hold Hne) as (new1 & H1 & [He|[Hn1 Hf1]]).
    + pose proof (run_well_formed_iv msgs _ Hw1) as Hw2.
      destruct (well_formed_inv 4 _ Hw2) as (_ & _ & new & Hnew & _).
      exists new. split; [exact Hnew|]. right. exists [m], msgs, new1. by split.
    + destruct (IH _ new1 Hw1 H1 Hn1) as (new & Hnew & [[Hn Hf]|(pre & post & a & -> & Ha & He)]).
      * exists new. split; [exact Hnew|]. left. split; [done|]. by rewrite Hf.
      * exists new. split; [exact Hnew|]. right. exists (m :: pre), post, a. by split.
Qed.

Lemma first_scan_stays_until_emptied_witness :
  exists new,
    latest_series
      (run IV.on_message
         [iv_message (iv_record sweep_b 0.1);
          iv_message (iv_record [[0.3; 0.003; 14; 0]]%float 0.1);
          iv_message (iv_record sweep_c 0.1)]
         (run IV.on_message [iv_message (iv_record sweep_a 0.1)] IV.init)) = Some new /\
    ((rows new <> [] /\
      first_scan new = first_scan (mk_ndarray 4 [[0; 20; 0; 0]; [0.6; 50; 0; 0]]%float)) \/
     exists pre post a,
       [iv_message (iv_record sweep_b 0.1);
        iv_message (iv_record [[0.3; 0.003; 14; 0]]%float 0.1);
        iv_message (iv_record sweep_c 0.1)] = pre ++ post /\
       latest_series
         (run IV.on_message pre
            (run IV.on_message [iv_message (iv_record sweep_a 0.1)] IV.init)) = Some a /\
       rows a = []).
Proof.
  apply (first_scan_stays_until_emptied
           [iv_message (iv_record sweep_b 0.1);
            iv_message (iv_record [[0.3; 0.003; 14; 0]]%float 0.1);
            iv_message (iv_record sweep_c 0.1)]
           (run IV.on_message [iv_message (iv_record sweep_a 0.1)] IV.init)
           (mk_ndarray 4 [[0; 20; 0; 0]; [0.6; 50; 0; 0]]%float)).
  - reflexivity.
  - reflexivity.
  - discriminate.
Defined.

Lemma tail_set_head (x : float) (r : list float) : tail (x :: tail r) = tail r.
Proof. reflexivity. Qed.

Lemma time_normalised_app_again (l l' : list (list float)) :
  l <> [] ->
  time_normalised (time_normalised l ++ l') = time_normalised (l ++ l').
Proof.
  destruct l as [|r0 l]; [done|]. intros _.
  unfold time_normalised. cbn [map app].
  rewrite !nth2_set_head. f_equal.
  rewrite !map_app, map_map. f_equal.
  apply map_ext. intros r. by rewrite nth2_set_head.
Qed.

Lemma it_sample_fold g old payload fs a :
  well_formed 3 g = true ->
  latest_series g = Some old ->
  it_sample payload fs a ->
  exists g',
    IT.on_message (it_message payload) g = (Ok tt, g') /\
    latest_series g' =
      Some (mk_ndarray 3 (time_normalised (rows old ++ [it_row fs a]))).
Proof.
  intros Hw Hold (Hcl & raw & area & Hd & Hfs & Ha & Haf & Hnz & Hlen).
  destruct (well_formed_inv 3 g Hw) as (Hs & _ & old0 & Hold0 & Hc & _).
  rewrite Hold in Hold0. injection Hold0 as <-.
  destruct (it_fold_numeric g old payload raw fs area a Hs Hold Hc Hcl Hd Hfs Ha Haf Hnz
              ltac:(lia)) as (g' & Hrun & Hser).
  exists g'. split; [done|]. rewrite Hser. unfold it_appended, it_row.
  by destruct fs as [|x0 [|x1 [|x2 [|x3 [|x4 fs]]]]].
Qed.

Lemma it_samples_fold (samples : list (value * (list float * float))) g old :
  well_formed 3 g = true ->
  latest_series g = Some old ->
  Forall (fun s => it_sample (fst s) (fst (snd s)) (snd (snd s))) samples ->
  samples <> [] ->
  latest_series (run IT.on_message (map (fun s => it_message (fst s)) samples) g)
  = Some (mk_ndarray 3
            (time_normalised
               (rows old ++ map (fun s => it_row (fst (snd s)) (snd (snd s))) samples))).
Proof.
  intros Hw Hold Hall. revert g old Hw Hold.
  induction Hall as [|s samples Hs Hall IH]; intros g old Hw Hold Hne; [done|].
  destruct (it_sample_fold g old _ _ _ Hw Hold Hs) as (g' & Hrun & Hser).
  cbn [map]. unfold run. cbn [fold_left]. rewrite Hrun. cbn [snd].
  fold (run IT.on_message (map (fun s => it_message (fst s)) samples) g').
  destruct samples as [|s' samples'].
  - exact Hser.
  - assert (Hw' : well_formed 3 g' = true).
    { pose proof (it_well_formed_step (it_message (fst s)) g Hw) as H.
      by rewrite Hrun in H. }
    rewrite (IH g' _ Hw' Hser ltac:(discriminate)). cbn [rows].
    rewrite time_normalised_app_again by (by destruct (rows old)).
    by rewrite <- app_assoc.
Qed.

(** X11: folding current-vs-time records in one message at a time gives
    the series that the whole batch gives at once. From an empty series,
    after any number of well-formed records (four numeric fields, an area
    that is not zero), the series is the list of their rows
    (0, j, raw time) with the offsets set against the first record's raw
    time. *)
Theorem it_incremental_is_batch :
  forall (samples : list (value * (list float * float))) g old,
    well_formed 3 g = true ->
    latest_series g = Some old -> rows old = [] ->
    Forall (fun s => it_sample (fst s) (fst (snd s)) (snd (snd s))) samples ->
    samples <> [] ->
    latest_series (run IT.on_message (map (fun s => it_message (fst s)) samples) g)
    = Some (mk_ndarray 3
              (time_normalised
                 (map (fun s => it_row (fst (snd s)) (snd (snd s))) samples))).
Proof.
  intros samples g old Hw Hold Hempty Hall Hne.
  rewrite (it_samples_fold samples g old Hw Hold Hall Hne). by rewrite Hempty.
Qed.

Lemma it_record_sample fs a :
  length fs = 4 -> PrimFloat.eqb a 0 = false -> it_sample (it_record fs a) fs a.
Proof.
  intros Hlen Hnz. split; [reflexivity|].
  exists (map VFloat fs), (VFloat a). repeat split; try done.
  clear Hlen. induction fs as [|x fs IH]; [reflexivity|]. cbn. by rewrite IH.
Qed.

Lemma it_incremental_is_batch_witness :
  latest_series
    (run IT.on_message
       (map (fun s : value * (list float * float) => it_message (fst s))
          [(it_record [0.6; 0.005; 100; 0]%float 0.1, ([0.6; 0.005; 100; 0]%float, 0.1%float));
           (it_record [0.6; 0.004; 100.5; 0]%float 0.1, ([0.6; 0.004; 100.5; 0]%float, 0.1%float))])
       IT.init)
  = Some (mk_ndarray 3
            (time_normalised
               (map (fun s : value * (list float * float) =>
                       it_row (fst (snd s)) (snd (snd s)))
                  [(it_record [0.6; 0.005; 100; 0]%float 0.1, ([0.6; 0.005; 100; 0]%float, 0.1%float));
                   (it_record [0.6; 0.004; 100.5; 0]%float 0.1, ([0.6; 0.004; 100.5; 0]%float, 0.1%float))]))).
Proof.
  apply (it_incremental_is_batch _ IT.init (np_empty0 3)).
  - reflexivity.
  - reflexivity.
  - reflexivity.
  - repeat constructor; apply it_record_sample; reflexivity.
  - discriminate.
Defined.

(** What one message can do to the deque and the arrays of the
    current-vs-voltage plotter: nothing, add an array that becomes the
    array of the latest snapshot, or write into the array of the latest
    snapshot, which stays the array of the latest snapshot. *)
Lemma iv_step_globals m g s0 :
  well_formed 4 g = true ->
  read_latest g = Some s0 ->
  let g' := snd (IV.on_message m g) in
  (latest g' = latest g /\ heap g' = heap g) \/
  (exists p x, latest g' = deque_append (latest g) (mk_snapshot p (length (heap g))) /\
               heap g' = heap g ++ [x]) \/
  (exists p x, latest g' = deque_append (latest g) (mk_snapshot p (snap_data s0)) /\
               heap g' = <[snap_data s0 := x]> (heap g)).
Proof.
  intros Hw Hl.
  destruct (well_formed_inv 4 g Hw) as (Hs & Hq & old & Hold & Hc0 & Hr0).
  apply single_slot_inv in Hs as Hs'. destruct Hs' as [Hml [s1 Hi]].
  assert (s1 = s0) as ->.
  { unfold read_latest in Hl. rewrite Hi in Hl. by injection Hl. }
  assert (Hh0 : heap g !! snap_data s0 = Some old).
  { unfold latest_series, read_latest, series_of in Hold. by rewrite Hi in Hold. }
  destruct (IV.on_message m g) as [r g'] eqn:H. cbn [snd].
  destruct m as [t [payload|]].
  2:{ cbn in H. injection H as <- <-. by left. }
  destruct (String.eqb t iv_topic) eqn:Et.
  - apply String.eqb_eq in Et as ->.
    change (IV.on_message (iv_message payload) g = (r, g')) in H.
    destruct r as [[]|e].
    + destruct (clear_flag payload) as [[|]|e] eqn:Hcl.
      * rewrite (iv_on_message_clear g payload s0 [] Hi Hcl) in H.
        injection H as <-. right. left. by eexists _, _.
      * destruct (iv_data_effects payload g g' Hcl H)
          as (pdata & payload' & r & Hp & _ & _).
        assert (Hc5 : 5 <= ncols pdata).
        { pose proof H as H'. unfold clear_flag in Hcl.
          destruct (getitem_key payload "clear") as [c|] eqn:Ec; [|discriminate].
          injection Hcl as Hcl.
          unfold IV.on_message, iv_message, bind, lift, latest_first in H'.
          cbn [msg_topic msg_payload pickle_dumps pickle_loads
               String.eqb iv_topic Ascii.eqb Bool.eqb] in H'.
          rewrite Hi, Ec, Hcl, Hp in H'. cbn [fst snd] in H'.
          unfold deref in H'. cbn [heap add_effects] in H'. rewrite Hh0 in H'.
          destruct (Nat.eqb (length (rows old)) 0);
            (destruct (columns [0; 4] pdata) as [scan|] eqn:Hsc; [|discriminate]);
            by apply columns_04_inv in Hsc as [? _]. }
        destruct (rows old) as [|r0 rs] eqn:Hrows.
        -- rewrite (iv_on_message_seed g payload s0 [] old pdata payload' _
                      Hi Hh0 Hrows Hcl Hp Hc5) in H.
           injection H as <-. right. left. by eexists _, _.
        -- rewrite (iv_on_message_overwrite g payload s0 [] old pdata payload' _
                      Hi Hh0 ltac:(by rewrite Hrows) Hcl Hp Hc5 Hc0) in H.
           destruct (broadcast_rows (length (rows old)) (scan_rows pdata))
             as [brows|] eqn:Hb; [|discriminate].
           injection H as <-. right. right. by eexists _, _.
      * unfold clear_flag in Hcl.
        destruct (getitem_key payload "clear") as [c|] eqn:Ec; [discriminate|].
        unfold_handler H.
        cbn [iv_message msg_topic msg_payload pickle_dumps pickle_loads
             String.eqb iv_topic Ascii.eqb Bool.eqb] in H.
        rewrite Hi, Ec in H. discriminate.
    + left. destruct (iv_raise_frame payload g e g' H) as [->|[x Hp]]; [done|].
      by apply process_iv_effects in Hp as ->.
  - left.
    unfold_handler H. cbn [msg_topic msg_payload pickle_loads] in H.
    unfold iv_topic in Et. rewrite Et in H.
    repeat (case_match; simplify_eq/=); by split.
Qed.

(** A snapshot that is not the latest one keeps its series through one
    message, and is not the latest one afterwards. *)
Lemma iv_step_keeps_older m g s0 s a :
  well_formed 4 g = true ->
  read_latest g = Some s0 ->
  snap_data s <> snap_data s0 ->
  series_of g s = Some a ->
  series_of (snd (IV.on_message m g)) s = Some a /\
  exists s1, read_latest (snd (IV.on_message m g)) = Some s1 /\
             snap_data s <> snap_data s1.
Proof.
  intros Hw Hl Hne Hs.
  destruct (well_formed_inv 4 g Hw) as (Hsl & _).
  apply single_slot_inv in Hsl as [Hml _].
  pose proof (lookup_lt_Some _ _ _ Hs) as Hlt.
  unfold series_of in *.
  destruct (iv_step_globals m g s0 Hw Hl) as [[Hla Hh]|[(p & x & Hla & Hh)|(p & x & Hla & Hh)]];
    unfold read_latest; rewrite Hla, Hh.
  - split; [done|]. exists s0. by split.
  - split; [by apply lookup_app_l_Some|].
    rewrite deque_append_single by done. eexists. split; [reflexivity|].
    cbn [snap_data]. lia.
  - split; [by rewrite list_lookup_insert_ne|].
    rewrite deque_append_single by done. eexists. split; [reflexivity|]. done.
Qed.

(** X12: a snapshot that a reader took from the current-vs-time plotter
    keeps its series through every later message: that handler only adds
    arrays. In the current-vs-voltage plotter the same holds for every
    snapshot whose array is not the one of the latest snapshot, such as a
    snapshot taken before a clear: the handler writes into the array of
    the latest snapshot only. *)
Theorem older_snapshots_never_change :
  (forall msgs g s a,
      series_of g s = Some a ->
      series_of (run IT.on_message msgs g) s = Some a)
  /\
  (forall msgs g s0 s a,
      well_formed 4 g = true ->
      read_latest g = Some s0 ->
      snap_data s <> snap_data s0 ->
      series_of g s = Some a ->
      series_of (run IV.on_message msgs g) s = Some a).
Proof.
  split.
  - induction msgs as [|m msgs IH]; intros g s a Hs; [done|].
    unfold run. cbn [fold_left]. apply IH.
    destruct (IT.on_message m g) as [r g'] eqn:H.
    by eapply it_keeps_published_series.
  - induction msgs as [|m msgs IH]; intros g s0 s a Hw Hl Hne Hs; [done|].
    unfold run. cbn [fold_left].
    destruct (iv_step_keeps_older m g s0 s a Hw Hl Hne Hs) as (Hs' & s1 & Hl' & Hne').
    eapply IH; try eassumption. by apply iv_well_formed_step.
Qed.

Lemma older_snapshots_never_change_witness :
  let g1 := run IV.on_message [iv_message (iv_record sweep_a 0.1)] IV.init in
  let g2 := run IV.on_message [iv_message clear_record] g1 in
  series_of
    (run IV.on_message
       [iv_message (iv_record sweep_b 0.1); iv_message (iv_record sweep_c 0.1)] g2)
    (mk_snapshot (iv_record (map (augment_row 0.1) sweep_a) 0.1) 1)
  = Some (mk_ndarray 4 [[0; 20; 0; 0]; [0.6; 50; 0; 0]]%float).
Proof.
  apply (proj2 older_snapshots_never_change
           [iv_message (iv_record sweep_b 0.1); iv_message (iv_record sweep_c 0.1)]
           (run IV.on_message [iv_message clear_record]
              (run IV.on_message [iv_message (iv_record sweep_a 0.1)] IV.init))
           (mk_snapshot clear_record 2)).
  - reflexivity.
  - reflexivity.
  - cbn. lia.
  - reflexivity.
Defined.


(** X13: [process_ivt] succeeds exactly on well-formed records. For
    payloads made of bools, floats, strings, lists and dicts it returns
    if and only if [data] is a list whose entries 0 and 1 are numbers
    (floats or bools) and [pixel.area] is a number that is not zero; in
    every other case it raises. *)
Theorem process_ivt_succeeds_iff :
  forall payload kind g,
    is_ok (fst (IT.process_ivt payload kind g)) = true <->
    exists raw d0 d1 area v i a,
      getitem_key payload "data" = Ok (VList raw) /\
      raw !! 0 = Some d0 /\ raw !! 1 = Some d1 /\
      to_float d0 = Some v /\ to_float d1 = Some i /\
      area_of payload = Ok area /\ to_float area = Some a /\
      PrimFloat.eqb a 0 = false.
Proof.
  intros payload kind g. split.
  - destruct (IT.process_ivt payload kind g) as [[x|e] g'] eqn:H; [|discriminate].
    intros _. by eapply process_ivt_inv.
  - intros (raw & d0 & d1 & area & v & i & a & Hd & H0 & H1 & Hv & Hi & Ha & Haf & Hnz).
    destruct (process_ivt_ok payload kind raw d0 d1 area v i a g Hd H0 H1 Hv Hi Ha Haf Hnz)
      as (p' & _ & ->). reflexivity.
Qed.

Lemma process_ivt_succeeds_iff_witness :
  is_ok (fst (IT.process_ivt (it_record [0.6; 0.005]%float 0.1) "it_measurement" IT.init))
  = true.
Proof.
  apply (proj2 (process_ivt_succeeds_iff (it_record [0.6; 0.005]%float 0.1)
                  "it_measurement" IT.init)).
  exists (map VFloat [0.6; 0.005]%float), (VFloat 0.6), (VFloat 0.005), (VFloat 0.1),
    0.6%float, 0.005%float, 0.1%float.
  repeat split; reflexivity.
Defined.

Lemma dict_set_keys k v d x :
  dict_get k d = Some x -> map fst (dict_set k v d) = map fst d.
Proof.
  induction d as [|[k' v'] d IH]; cbn; [discriminate|].
  destruct (String.eqb k k') eqn:E.
  - apply String.eqb_eq in E as ->. reflexivity.
  - intros H. cbn. by rewrite IH.
Qed.

Lemma setitem_data_only payload x payload' old :
  getitem_key payload "data" = Ok old ->
  setitem_key payload "data" x = Ok payload' ->
  getitem_key payload' "data" = Ok x /\
  (forall k, k <> "data" -> getitem_key payload' k = getitem_key payload k) /\
  keys payload' = keys payload.
Proof.
  destruct payload as [| | | |kvs]; try discriminate. cbn.
  destruct (dict_get "data" kvs) as [o|] eqn:Hd; [|discriminate].
  intros _ [= <-]. cbn. rewrite dict_get_set_eq. split; [done|]. split.
  - intros k Hk. by rewrite dict_get_set_ne.
  - by eapply dict_set_keys.
Qed.



Lemma published_topics_app evs evs' :
  published_topics (evs ++ evs') = published_topics evs ++ published_topics evs'.
Proof.
  induction evs as [|[] evs IH]; cbn; try done. by rewrite IH.
Qed.

Lemma it_step_published m g :
  exists evs,
    effects (snd (IT.on_message m g)) = effects g ++ evs /\
    (published_topics evs = [] \/
     (published_topics evs = ["data/processed/it_measurement"] /\
      msg_topic m = it_topic /\
      exists payload, msg_payload m = pickle_dumps payload /\
                      clear_flag payload = Ok false)).
Proof.
  destruct (IT.on_message m g) as [r g'] eqn:H. cbn [snd].
  destruct m as [t [payload|]].
  2:{ cbn in H. injection H as <- <-. exists []. rewrite app_nil_r. by split; [|left]. }
  destruct (String.eqb t it_topic) eqn:Et.
  - apply String.eqb_eq in Et as ->.
    change (IT.on_message (it_message payload) g = (r, g')) in H.
    destruct (clear_flag payload) as [[|]|e] eqn:Hcl.
    + unfold_handler H.
      cbn [it_message msg_topic msg_payload pickle_dumps pickle_loads
           String.eqb it_topic Ascii.eqb Bool.eqb] in H.
      unfold clear_flag in Hcl.
      destruct (getitem_key payload "clear") as [c|] eqn:Ec; [|discriminate].
      injection Hcl as Hcl. try rewrite Ec in H. cbn beta iota in H.
      try rewrite Hcl in H.
      repeat (case_match; simplify_eq/=);
        first [ exists []; rewrite app_nil_r; by split; [|left]
              | eexists; rewrite <- ?app_assoc; split; [reflexivity|]; by left ].
    + destruct r as [[]|e].
      * destruct (it_data_effects payload g g' Hcl H) as (pdata & p' & r & _ & _ & He).
        eexists. split; [exact He|]. right. split; [reflexivity|].
        split; [reflexivity|]. by exists payload.
      * destruct (it_raise_frame payload g e g' H) as [->|[x Hp]].
        -- exists []. rewrite app_nil_r. by split; [|left].
        -- apply process_ivt_effects in Hp as ->. eexists. split; [reflexivity|].
           right. split; [reflexivity|]. split; [reflexivity|]. by exists payload.
    + unfold clear_flag in Hcl.
      destruct (getitem_key payload "clear") as [c|] eqn:Ec; [discriminate|].
      unfold_handler H.
      cbn [it_message msg_topic msg_payload pickle_dumps pickle_loads
           String.eqb it_topic Ascii.eqb Bool.eqb] in H.
      try rewrite Ec in H.
      repeat (case_match; simplify_eq/=); exists []; rewrite app_nil_r; by split; [|left].
  - unfold_handler H. cbn [msg_topic msg_payload pickle_loads] in H.
    unfold it_topic in Et. rewrite Et in H.
    repeat (case_match; simplify_eq/=);
      first [ exists []; rewrite app_nil_r; by split; [|left]
            | eexists; rewrite <- ?app_assoc; split; [reflexivity|]; by left ].
Qed.

Lemma iv_step_published m g :
  exists evs,
    effects (snd (IV.on_message m g)) = effects g ++ evs /\
    (published_topics evs = [] \/
     (published_topics evs = ["data/processed/iv_measurement"] /\
      msg_topic m = iv_topic /\
      exists payload, msg_payload m = pickle_dumps payload /\
                      clear_flag payload = Ok false)).
Proof.
  destruct (IV.on_message m g) as [r g'] eqn:H. cbn [snd].
  destruct m as [t [payload|]].
  2:{ cbn in H. injection H as <- <-. exists []. rewrite app_nil_r. by split; [|left]. }
  destruct (String.eqb t iv_topic) eqn:Et.
  - apply String.eqb_eq in Et as ->.
    change (IV.on_message (iv_message payload) g = (r, g')) in H.
    destruct (clear_flag payload) as [[|]|e] eqn:Hcl.
    + unfold_handler H.
      cbn [iv_message msg_topic msg_payload pickle_dumps pickle_loads
           String.eqb iv_topic Ascii.eqb Bool.eqb] in H.
      unfold clear_flag in Hcl.
      destruct (getitem_key payload "clear") as [c|] eqn:Ec; [|discriminate].
      injection Hcl as Hcl. try rewrite Ec in H. cbn beta iota in H.
      try rewrite Hcl in H.
      repeat (case_match; simplify_eq/=);
        first [ exists []; rewrite app_nil_r; by split; [|left]
              | eexists; rewrite <- ?app_assoc; split; [reflexivity|]; by left ].
    + destruct r as [[]|e].
      * destruct (iv_data_effects payload g g' Hcl H) as (pdata & p' & r & _ & _ & He).
        eexists. split; [exact He|]. right. split; [reflexivity|].
        split; [reflexivity|]. by exists payload.
      * destruct (iv_raise_frame payload g e g' H) as [->|[x Hp]].
        -- exists []. rewrite app_nil_r. by split; [|left].
        -- apply process_iv_effects in Hp as ->. eexists. split; [reflexivity|].
           right. split; [reflexivity|]. split; [reflexivity|]. by exists payload.
    + unfold clear_flag in Hcl.
      destruct (getitem_key payload "clear") as [c|] eqn:Ec; [discriminate|].
      unfold_handler H.
      cbn [iv_message msg_topic msg_payload pickle_dumps pickle_loads
           String.eqb iv_topic Ascii.eqb Bool.eqb] in H.
      try rewrite Ec in H.
      repeat (case_match; simplify_eq/=); exists []; rewrite app_nil_r; by split; [|left].
  - unfold_handler H. cbn [msg_topic msg_payload pickle_loads] in H.
    unfold iv_topic in Et. rewrite Et in H.
    repeat (case_match; simplify_eq/=);
      first [ exists []; rewrite app_nil_r; by split; [|left]
            | eexists; rewrite <- ?app_assoc; split; [reflexivity|]; by left ].
Qed.

Lemma run_published (handler : MQTTMessage -> M unit) (topic : string) msgs g :
  (forall m g, exists evs,
      effects (snd (handler m g)) = effects g ++ evs /\
      Forall (fun t => t = topic) (published_topics evs)) ->
  exists evs,
    effects (run handler msgs g) = effects g ++ evs /\
    Forall (fun t => t = topic) (published_topics evs).
Proof.
  intros Hstep. revert g. unfold run.
  induction msgs as [|m msgs IH]; intros g.
  - exists []. rewrite app_nil_r. by split.
  - cbn [fold_left]. destruct (Hstep m g) as (evs1 & He1 & Hp1).
    destruct (IH (snd (handler m g))) as (evs2 & He2 & Hp2).
    exists (evs1 ++ evs2). rewrite He2, He1, <- app_assoc. split; [done|].
    rewrite published_topics_app. by apply Forall_app.
Qed.

(** X15: a handler starts a publisher for a non-clear data message on its
    own data topic and for nothing else, at most one per message, and
    always on the processed-data topic of its kind; the effects of
    earlier messages stay. So over any sequence of messages a plotter
    publishes on its processed-data topic only, which is none of the
    topics it subscribes to. *)
Theorem publishers_only_for_data :
  (forall m g, exists evs,
      effects (snd (IT.on_message m g)) = effects g ++ evs /\
      (published_topics evs = [] \/
       (published_topics evs = ["data/processed/it_measurement"] /\
        msg_topic m = it_topic /\
        exists payload, msg_payload m = pickle_dumps payload /\
                        clear_flag payload = Ok false)))
  /\
  (forall m g, exists evs,
      effects (snd (IV.on_message m g)) = effects g ++ evs /\
      (published_topics evs = [] \/
       (published_topics evs = ["data/processed/iv_measurement"] /\
        msg_topic m = iv_topic /\
        exists payload, msg_payload m = pickle_dumps payload /\
                        clear_flag payload = Ok false)))
  /\
  (forall msgs g, exists evs,
      effects (run IT.on_message msgs g) = effects g ++ evs /\
      Forall (fun t => t = "data/processed/it_measurement" /\
                       ~ In t ITView.subscriptions) (published_topics evs))
  /\
  (forall msgs g, exists evs,
      effects (run IV.on_message msgs g) = effects g ++ evs /\
      Forall (fun t => t = "data/processed/iv_measurement" /\
                       ~ In t IVView.subscriptions) (published_topics evs)).
Proof.
  split; [exact it_step_published|]. split; [exact iv_step_published|]. split.
  - intros msgs g.
    destruct (run_published IT.on_message "data/processed/it_measurement" msgs g)
      as (evs & He & Hp).
    { intros m g0. destruct (it_step_published m g0) as (evs & He & [Hp|[Hp _]]);
        exists evs; rewrite Hp; by repeat constructor. }
    exists evs. split; [done|]. eapply Forall_impl; [exact Hp|].
    intros t ->. split; [done|]. cbn. intros [H|[H|[H|[]]]]; discriminate.
  - intros msgs g.
    destruct (run_published IV.on_message "data/processed/iv_measurement" msgs g)
      as (evs & He & Hp).
    { intros m g0. destruct (iv_step_published m g0) as (evs & He & [Hp|[Hp _]]);
        exists evs; rewrite Hp; by repeat constructor. }
    exists evs. split; [done|]. eapply Forall_impl; [exact Hp|].
    intros t ->. split; [done|]. cbn. intros [H|[H|[H|[]]]]; discriminate.
Qed.

Lemma redrawing_frame g g' : paused g' = paused g -> redrawing g' = redrawing g.
Proof. unfold redrawing. by intros ->. Qed.

Lemma time_normalised_nonempty l r : time_normalised (l ++ [r]) <> [].
Proof. unfold time_normalised. by destruct l. Qed.

Lemma column_of_rows (a : ndarray) k :
  k < ncols a -> column k a = Ok (map (fun r => nth k r 0%float) (rows a)).
Proof. intros H. unfold column. apply Nat.ltb_lt in H. by rewrite H. Qed.

(** X16: end to end in the current-vs-time plotter. After a non-clear
    data message that was handled without an exception, with the pause
    flag [False], a callback that returns has drawn the new series: x of
    trace 0 is the column of time offsets, y the column of current
    densities, the title the [idn] of the message, and the series it drew
    is the latest one, the new row included. *)
Theorem it_redraw_shows_new_series :
  forall g payload g' fig figs idn,
    maxlen (latest g) = 1 ->
    redrawing g = true ->
    clear_flag payload = Ok false ->
    getitem_key payload "idn" = Ok idn ->
    IT.on_message (it_message payload) g = (Ok tt, g') ->
    ITView.update_graph_live g' fig = Ok figs ->
    exists old new j t fig',
      latest_series g = Some old /\
      latest_series g' = Some new /\
      rows new = time_normalised (rows old ++ [[0%float; j; t]]) /\
      figs = [fig'] /\
      lookup_path [Key "data"; Idx 0; Key "x"] fig'
        = Ok (floats (map (fun r => nth 0 r 0%float) (rows new))) /\
      lookup_path [Key "data"; Idx 0; Key "y"] fig'
        = Ok (floats (map (fun r => nth 1 r 0%float) (rows new))) /\
      lookup_path [Key "layout"; Key "annotations"; Idx 0; Key "text"] fig' = Ok idn.
Proof.
  intros g payload g' fig figs idn Hm Hre Hcl Hidn H Hcb.
  destruct (it_on_message_data_inv g payload g' Hcl H)
    as (s0 & rest & old & pdata & payload' & tv & j & tf & jf
        & Hi & Hh & Hc & Hp & Ht & Hj & Htf & Hjf).
  rewrite (it_on_message_data g payload s0 rest old pdata payload' _ tv j tf jf
             Hi Hh Hc Hcl Hp Ht Hj Htf Hjf) in H.
  injection H as <-.
  destruct (process_ivt_spec _ _ _ _ _ _ Hp)
    as (_ & raw & d0 & d1 & area & v & i & a & Hd & _ & _ & _ & _ & _ & _ & _ & _ & Hset).
  destruct (setitem_data_only payload pdata payload' _ Hd Hset) as (_ & Hkeep & _).
  exists old, (it_appended old jf tf), jf, tf.
  unfold ITView.update_graph_live in Hcb. unfold redrawing in Hre.
  cbn [paused latest heap] in Hcb.
  destruct (items (paused g)) as [|p ps]; [discriminate|]. rewrite Hre in Hcb.
  rewrite deque_append_single in Hcb by done. cbn [snap_msg snap_data] in Hcb.
  rewrite (Hkeep "idn" ltac:(discriminate)), Hidn in Hcb. cbn [and_then] in Hcb.
  rewrite list_lookup_middle in Hcb by done.
  destruct (ITView.format_figure_4 (it_appended old jf tf) fig idn) as [fig'|] eqn:Hf;
    [|discriminate].
  cbn [and_then] in Hcb. injection Hcb as <-.
  destruct (format_figure_1_lookups (it_appended old jf tf) fig idn fig'
              (time_normalised_nonempty _ _) Hf)
    as (x & y & xr & yr & Hx & Hy & _ & _ & Lx & Ly & _ & _ & Lt & _).
  rewrite (column_of_rows (it_appended old jf tf) 0) in Hx by (cbn; lia).
  rewrite (column_of_rows (it_appended old jf tf) 1) in Hy by (cbn; lia).
  injection Hx as <-. injection Hy as <-.
  exists fig'. split.
  { unfold latest_series, read_latest, series_of. by rewrite Hi. }
  split; [by apply latest_series_appended|]. by repeat split.
Qed.

Lemma it_redraw_shows_new_series_witness :
  exists figs,
    ITView.update_graph_live
      (snd (IT.on_message (it_message (it_record [0.6; 0.005; 100; 0]%float 0.1)) IT.init))
      fig4 = Ok figs /\
    exists old new j t fig',
      latest_series IT.init = Some old /\
      latest_series
        (snd (IT.on_message (it_message (it_record [0.6; 0.005; 100; 0]%float 0.1)) IT.init))
        = Some new /\
      rows new = time_normalised (rows old ++ [[0%float; j; t]]) /\
      figs = [fig'] /\
      lookup_path [Key "data"; Idx 0; Key "x"] fig'
        = Ok (floats (map (fun r => nth 0 r 0%float) (rows new))) /\
      lookup_path [Key "data"; Idx 0; Key "y"] fig'
        = Ok (floats (map (fun r => nth 1 r 0%float) (rows new))) /\
      lookup_path [Key "layout"; Key "annotations"; Idx 0; Key "text"] fig'
        = Ok (VStr "pixel1").
Proof.
  eexists. split; [vm_compute; reflexivity|].
  apply (it_redraw_shows_new_series IT.init
           (it_record [0.6; 0.005; 100; 0]%float 0.1) _ fig4 _ (VStr "pixel1")).
  - reflexivity.
  - reflexivity.
  - reflexivity.
  - reflexivity.
  - vm_compute. reflexivity.
  - vm_compute. reflexivity.
Defined.
(** X17: end to end in the current-vs-voltage plotter. After the first
    sweep of a run (a sweep folded into an empty series) whose rows have
    exactly four fields (voltage, current, time, status), with a numeric
    area and the pause flag [False], a callback that returns has drawn
    the sweep as trace 0, bias against current density, and has left
    trace 1 of the figure as it found it: the points of an earlier run's
    second scan stay on the chart until a second sweep without a zero
    bias arrives. *)
Theorem iv_first_sweep_leaves_second_trace :
  forall g old p raw m area a fig figs idn,
    single_slot (latest g) = true ->
    redrawing g = true ->
    latest_series g = Some old -> rows old = [] ->
    clear_flag p = Ok false ->
    getitem_key p "data" = Ok raw -> np_array raw = Ok m -> ncols m = 4 ->
    area_of p = Ok area -> to_float area = Some a ->
    getitem_key p "idn" = Ok idn ->
    IVView.update_graph_live (snd (IV.on_message (iv_message p) g)) fig = Ok figs ->
    exists fig',
      figs = [fig'] /\
      lookup_path [Key "data"; Idx 0; Key "x"] fig'
        = Ok (floats (map (fun r => nth 0 r 0%float) (rows m))) /\
      lookup_path [Key "data"; Idx 0; Key "y"] fig'
        = Ok (floats (map (fun r => current_density (nth 1 r 0%float) a) (rows m))) /\
      lookup_path [Key "layout"; Key "annotations"; Idx 0; Key "text"] fig' = Ok idn /\
      lookup_path [Key "data"; Idx 1] fig' = lookup_path [Key "data"; Idx 1] fig.
Proof.
  intros g old p raw m area a fig figs idn Hs Hre Hold Hr Hcl Hd Hm Hc Ha Haf Hidn Hcb.
  destruct (latest_series_inv g old Hs Hold) as (Hml & s0 & Hi & Hh).
  destruct (process_iv_ok p raw m area a g Hd Hm ltac:(lia) Ha Haf) as (p' & Hset & Hp).
  destruct (np_array_shape raw m Hm) as [Hne Hlen]. rewrite Hc in Hlen.
  destruct (setitem_data_only p _ p' _ Hd Hset) as (_ & Hkeep & _).
  rewrite (iv_on_message_seed g p s0 [] old _ p' _ Hi Hh Hr Hcl Hp
             ltac:(cbn [ncols]; lia)) in Hcb.
  rewrite scan_rows_augmented, map_map in Hcb by done.
  unfold IVView.update_graph_live in Hcb. unfold redrawing in Hre.
  cbn [snd paused latest heap] in Hcb.
  destruct (items (paused g)) as [|q qs]; [discriminate|]. rewrite Hre in Hcb.
  rewrite deque_append_single in Hcb by done. cbn [snap_msg snap_data] in Hcb.
  rewrite (Hkeep "idn" ltac:(discriminate)), Hidn in Hcb. cbn [and_then] in Hcb.
  rewrite list_lookup_middle in Hcb by done.
  destruct (IVView.format_figure_2 _ fig idn) as [fig'|] eqn:Hf; [|discriminate].
  cbn [and_then] in Hcb. injection Hcb as <-.
  apply format_figure_2_second_trace in Hf as
      (c0 & c1 & c2 & c3 & xr & yr & H0 & H1 & H2 & H3 & _ & _ & L0 & L1 & _ & _ & Lt & Hbr).
  2:{ cbn [rows]. by destruct (rows m). }
  rewrite column_of_rows in H0, H1, H2 by (cbn; lia).
  injection H0 as <-. injection H1 as <-. injection H2 as <-.
  cbn [rows] in *. rewrite !map_map in *. cbn [nth] in *.
  exists fig'. repeat (split; [done|]).
  replace (IVView.all_nonzero (map (fun _ : list float => 0%float) (rows m)))
    with false in Hbr by (by destruct (rows m)).
  by destruct Hbr.
Qed.

Lemma iv_first_sweep_leaves_second_trace_witness :
  exists figs,
    IVView.update_graph_live
      (snd (IV.on_message (iv_message (iv_record sweep_a 0.1)) IV.init)) fig2 = Ok figs /\
    exists fig',
      figs = [fig'] /\
      lookup_path [Key "data"; Idx 0; Key "x"] fig'
        = Ok (floats (map (fun r => nth 0 r 0%float) sweep_a)) /\
      lookup_path [Key "data"; Idx 0; Key "y"] fig'
        = Ok (floats (map (fun r => current_density (nth 1 r 0%float) 0.1) sweep_a)) /\
      lookup_path [Key "layout"; Key "annotations"; Idx 0; Key "text"] fig'
        = Ok (VStr "pixel1") /\
      lookup_path [Key "data"; Idx 1] fig' = lookup_path [Key "data"; Idx 1] fig2.
Proof.
  eexists. split; [vm_compute; reflexivity|].
  apply (iv_first_sweep_leaves_second_trace IV.init (np_empty0 4)
           (iv_record sweep_a 0.1)
           (VList (map (fun r => VList (map VFloat r)) sweep_a))
           (mk_ndarray 4 sweep_a) (VFloat 0.1) 0.1%float fig2 _ (VStr "pixel1"));
    reflexivity.
Defined.

(** X18: the axis ranges that [format_figure_2] puts into the figure
    enclose the points of both scans: the x range is [lo, hi] with lo and
    hi entries of columns 0 and 2 taken together, none of whose entries
    compares below lo or above hi, and the y range is likewise for
    columns 1 and 3. The zeros that fill columns 2-3 after the first
    sweep count as points. *)
Theorem format_figure_2_ranges_enclose data fig title fig' :
  rows data <> [] ->
  IVView.format_figure_2 data fig title = Ok fig' ->
  exists c0 c1 c2 c3 xlo xhi ylo yhi,
    column 0 data = Ok c0 /\ column 1 data = Ok c1 /\
    column 2 data = Ok c2 /\ column 3 data = Ok c3 /\
    lookup_path [Key "layout"; Key "xaxis"; Key "range"] fig'
      = Ok (VList [VFloat xlo; VFloat xhi]) /\
    lookup_path [Key "layout"; Key "yaxis"; Key "range"] fig'
      = Ok (VList [VFloat ylo; VFloat yhi]) /\
    In xlo (c0 ++ c2) /\ In xhi (c0 ++ c2) /\ In ylo (c1 ++ c3) /\ In yhi (c1 ++ c3) /\
    (forall v, In v (c0 ++ c2) ->
       PrimFloat.ltb v xlo = false /\ PrimFloat.ltb xhi v = false) /\
    (forall v, In v (c1 ++ c3) ->
       PrimFloat.ltb v ylo = false /\ PrimFloat.ltb yhi v = false).
Proof.
  intros Hr H.
  destruct (format_figure_2_inv data fig title fig' Hr H)
    as (c0 & c1 & c2 & c3 & xr & yr & f1 & f2 & f2' & f3 & f4
        & H0 & H1 & H2 & H3 & Hxr & Hyr & A1 & A2 & Hbr & A5 & A6 & A7).
  apply range_of_inv in Hxr as (xlo & xhi & -> & Hxlo & Hxhi).
  apply range_of_inv in Hyr as (ylo & yhi & -> & Hylo & Hyhi).
  apply py_min_spec in Hxlo as [? ?]. apply py_max_spec in Hxhi as [? ?].
  apply py_min_spec in Hylo as [? ?]. apply py_max_spec in Hyhi as [? ?].
  exists c0, c1, c2, c3, xlo, xhi, ylo, yhi. repeat (split; [done|]).
  split; [|split].
  - keep_through A7. keep_through A6. exact (lookup_assign_eq _ _ _ _ _ A5).
  - keep_through A7. exact (lookup_assign_eq _ _ _ _ _ A6).
  - repeat (split; [done|]). split; auto.
Qed.

Lemma format_figure_2_ranges_enclose_witness :
  exists fig',
    IVView.format_figure_2 (mk_ndarray 4 [[0.2; 20; 0; 0]; [0.6; 50; 0; 0]]%float)
      fig2 (VStr "pixel1") = Ok fig' /\
    exists c0 c1 c2 c3 xlo xhi ylo yhi,
      column 0 (mk_ndarray 4 [[0.2; 20; 0; 0]; [0.6; 50; 0; 0]]%float) = Ok c0 /\
      column 1 (mk_ndarray 4 [[0.2; 20; 0; 0]; [0.6; 50; 0; 0]]%float) = Ok c1 /\
      column 2 (mk_ndarray 4 [[0.2; 20; 0; 0]; [0.6; 50; 0; 0]]%float) = Ok c2 /\
      column 3 (mk_ndarray 4 [[0.2; 20; 0; 0]; [0.6; 50; 0; 0]]%float) = Ok c3 /\
      lookup_path [Key "layout"; Key "xaxis"; Key "range"] fig'
        = Ok (VList [VFloat xlo; VFloat xhi]) /\
      lookup_path [Key "layout"; Key "yaxis"; Key "range"] fig'
        = Ok (VList [VFloat ylo; VFloat yhi]) /\
      In xlo (c0 ++ c2) /\ In xhi (c0 ++ c2) /\ In ylo (c1 ++ c3) /\ In yhi (c1 ++ c3) /\
      (forall v, In v (c0 ++ c2) ->
         PrimFloat.ltb v xlo = false /\ PrimFloat.ltb xhi v = false) /\
      (forall v, In v (c1 ++ c3) ->
         PrimFloat.ltb v ylo = false /\ PrimFloat.ltb yhi v = false).
Proof.
  eexists. split; [vm_compute; reflexivity|].
  apply (format_figure_2_ranges_enclose
           (mk_ndarray 4 [[0.2; 20; 0; 0]; [0.6; 50; 0; 0]]%float) fig2 (VStr "pixel1")).
  - discriminate.
  - vm_compute. reflexivity.
Defined.
